(** * BurkinaHeritage: the retrieval and answer-composition pipeline

    A shallow embedding of [backend/rag_simple.py] (class
    [BurkinaHeritageRAGSimple]) and of the REST handlers of
    [backend/main.py], with the properties the specification states
    about them.

    Layout: [PyStr] models the Python [str] operations the backend uses,
    [Rag] the RAG class, [Api] the FastAPI handlers; the lemmas follow the
    definitions. *)

From Stdlib Require Import List NArith ZArith Bool String Ascii Lia.
From Stdlib Require Import DecimalString Sorted.
Import ListNotations.

(* ------------------------------------------------------------------ *)
(** ** Python strings *)

Module PyStr.

(** A Python [str] is a sequence of Unicode code points; [len], slicing and
    [in] all count code points, so that is what the model holds. *)
Definition pystr := list N.

(** Literals are written as UTF-8 text and decoded to code points. *)
Fixpoint utf8_go (bs : list N) (need : nat) (acc : N) : pystr :=
  match bs with
  | [] => []
  | b :: rest =>
      match need with
      | O =>
          if (b <? 128)%N then b :: utf8_go rest 0 0
          else if (b <? 224)%N then utf8_go rest 1 (b - 192)
          else if (b <? 240)%N then utf8_go rest 2 (b - 224)
          else utf8_go rest 3 (b - 240)
      | S k =>
          let acc' := (acc * 64 + (b - 128))%N in
          match k with
          | O => acc' :: utf8_go rest 0 0
          | S _ => utf8_go rest k acc'
          end
      end
  end.

Definition py (s : string) : pystr :=
  utf8_go (map N_of_ascii (list_ascii_of_string s)) 0 0.
Arguments py s%_string.

Definition eqb (a b : pystr) : bool :=
  if list_eq_dec N.eq_dec a b then true else false.

(** [str(n)] for a non-negative integer. *)
Definition str_of_nat (n : nat) : pystr :=
  py (NilEmpty.string_of_uint (Nat.to_uint n)).

(** [str.isspace] on one code point: the Unicode white space of CPython. *)
Definition isspace (c : N) : bool :=
  ((9 <=? c) && (c <=? 13) || (28 <=? c) && (c <=? 32)
   || (c =? 133) || (c =? 160) || (c =? 5760)
   || (8192 <=? c) && (c <=? 8202)
   || (c =? 8232) || (c =? 8233) || (c =? 8239) || (c =? 8287)
   || (c =? 12288))%N.

(** [str.lower] follows the Unicode character database, version 14.0 as in
    CPython 3.11: the simple lowercase mapping of each code point, the one
    mapping to two code points (capital I with dot above) and the rule of
    the final sigma.  [lower_table] lists the code points that change, as
    [(first, last, step, target)]: the code points [first], [first + step],
    ... up to [last] are mapped to [target], [target + step], ...  The
    table is in ascending order, which the search uses. *)
Definition lower_table : list (N * N * N * N) :=
  [
    (65, 90, 1, 97); (192, 214, 1, 224); (216, 222, 1, 248);
    (256, 302, 2, 257); (306, 310, 2, 307); (313, 327, 2, 314);
    (330, 374, 2, 331); (376, 376, 1, 255); (377, 381, 2, 378);
    (385, 385, 1, 595); (386, 388, 2, 387); (390, 390, 1, 596);
    (391, 391, 1, 392); (393, 394, 1, 598); (395, 395, 1, 396);
    (398, 398, 1, 477); (399, 399, 1, 601); (400, 400, 1, 603);
    (401, 401, 1, 402); (403, 403, 1, 608); (404, 404, 1, 611);
    (406, 406, 1, 617); (407, 407, 1, 616); (408, 408, 1, 409);
    (412, 412, 1, 623); (413, 413, 1, 626); (415, 415, 1, 629);
    (416, 420, 2, 417); (422, 422, 1, 640); (423, 423, 1, 424);
    (425, 425, 1, 643); (428, 428, 1, 429); (430, 430, 1, 648);
    (431, 431, 1, 432); (433, 434, 1, 650); (435, 437, 2, 436);
    (439, 439, 1, 658); (440, 440, 1, 441); (444, 444, 1, 445);
    (452, 452, 1, 454); (453, 453, 1, 454); (455, 455, 1, 457);
    (456, 456, 1, 457); (458, 458, 1, 460); (459, 475, 2, 460);
    (478, 494, 2, 479); (497, 497, 1, 499); (498, 500, 2, 499);
    (502, 502, 1, 405); (503, 503, 1, 447); (504, 542, 2, 505);
    (544, 544, 1, 414); (546, 562, 2, 547); (570, 570, 1, 11365);
    (571, 571, 1, 572); (573, 573, 1, 410); (574, 574, 1, 11366);
    (577, 577, 1, 578); (579, 579, 1, 384); (580, 580, 1, 649);
    (581, 581, 1, 652); (582, 590, 2, 583); (880, 882, 2, 881);
    (886, 886, 1, 887); (895, 895, 1, 1011); (902, 902, 1, 940);
    (904, 906, 1, 941); (908, 908, 1, 972); (910, 911, 1, 973);
    (913, 929, 1, 945); (931, 939, 1, 963); (975, 975, 1, 983);
    (984, 1006, 2, 985); (1012, 1012, 1, 952); (1015, 1015, 1, 1016);
    (1017, 1017, 1, 1010); (1018, 1018, 1, 1019); (1021, 1023, 1, 891);
    (1024, 1039, 1, 1104); (1040, 1071, 1, 1072); (1120, 1152, 2, 1121);
    (1162, 1214, 2, 1163); (1216, 1216, 1, 1231); (1217, 1229, 2, 1218);
    (1232, 1326, 2, 1233); (1329, 1366, 1, 1377); (4256, 4293, 1, 11520);
    (4295, 4295, 1, 11559); (4301, 4301, 1, 11565); (5024, 5103, 1, 43888);
    (5104, 5109, 1, 5112); (7312, 7354, 1, 4304); (7357, 7359, 1, 4349);
    (7680, 7828, 2, 7681); (7838, 7838, 1, 223); (7840, 7934, 2, 7841);
    (7944, 7951, 1, 7936); (7960, 7965, 1, 7952); (7976, 7983, 1, 7968);
    (7992, 7999, 1, 7984); (8008, 8013, 1, 8000); (8025, 8031, 2, 8017);
    (8040, 8047, 1, 8032); (8072, 8079, 1, 8064); (8088, 8095, 1, 8080);
    (8104, 8111, 1, 8096); (8120, 8121, 1, 8112); (8122, 8123, 1, 8048);
    (8124, 8124, 1, 8115); (8136, 8139, 1, 8050); (8140, 8140, 1, 8131);
    (8152, 8153, 1, 8144); (8154, 8155, 1, 8054); (8168, 8169, 1, 8160);
    (8170, 8171, 1, 8058); (8172, 8172, 1, 8165); (8184, 8185, 1, 8056);
    (8186, 8187, 1, 8060); (8188, 8188, 1, 8179); (8486, 8486, 1, 969);
    (8490, 8490, 1, 107); (8491, 8491, 1, 229); (8498, 8498, 1, 8526);
    (8544, 8559, 1, 8560); (8579, 8579, 1, 8580); (9398, 9423, 1, 9424);
    (11264, 11311, 1, 11312); (11360, 11360, 1, 11361);
    (11362, 11362, 1, 619); (11363, 11363, 1, 7549); (11364, 11364, 1, 637);
    (11367, 11371, 2, 11368); (11373, 11373, 1, 593);
    (11374, 11374, 1, 625); (11375, 11375, 1, 592); (11376, 11376, 1, 594);
    (11378, 11378, 1, 11379); (11381, 11381, 1, 11382);
    (11390, 11391, 1, 575); (11392, 11490, 2, 11393);
    (11499, 11501, 2, 11500); (11506, 11506, 1, 11507);
    (42560, 42604, 2, 42561); (42624, 42650, 2, 42625);
    (42786, 42798, 2, 42787); (42802, 42862, 2, 42803);
    (42873, 42875, 2, 42874); (42877, 42877, 1, 7545);
    (42878, 42886, 2, 42879); (42891, 42891, 1, 42892);
    (42893, 42893, 1, 613); (42896, 42898, 2, 42897);
    (42902, 42920, 2, 42903); (42922, 42922, 1, 614);
    (42923, 42923, 1, 604); (42924, 42924, 1, 609); (42925, 42925, 1, 620);
    (42926, 42926, 1, 618); (42928, 42928, 1, 670); (42929, 42929, 1, 647);
    (42930, 42930, 1, 669); (42931, 42931, 1, 43859);
    (42932, 42946, 2, 42933); (42948, 42948, 1, 42900);
    (42949, 42949, 1, 642); (42950, 42950, 1, 7566);
    (42951, 42953, 2, 42952); (42960, 42960, 1, 42961);
    (42966, 42968, 2, 42967); (42997, 42997, 1, 42998);
    (65313, 65338, 1, 65345); (66560, 66599, 1, 66600);
    (66736, 66771, 1, 66776); (66928, 66964, 2, 66967);
    (66929, 66937, 2, 66968); (66941, 66953, 2, 66980);
    (66957, 66961, 2, 66996); (66965, 66965, 1, 67004);
    (68736, 68786, 1, 68800); (71840, 71871, 1, 71872);
    (93760, 93791, 1, 93792); (125184, 125217, 1, 125218)
  ]%N.

(** The code points that are case-ignorable, and those that are cased
    without being case-ignorable, as ascending ranges [(first, last)]. *)
Definition case_ignorable_table : list (N * N) :=
  [
    (39, 39); (46, 46); (58, 58); (94, 94); (96, 96); (168, 168);
    (173, 173); (175, 175); (180, 180); (183, 184); (688, 879); (884, 885);
    (890, 890); (900, 901); (903, 903); (1155, 1161); (1369, 1369);
    (1375, 1375); (1425, 1469); (1471, 1471); (1473, 1474); (1476, 1477);
    (1479, 1479); (1524, 1524); (1536, 1541); (1552, 1562); (1564, 1564);
    (1600, 1600); (1611, 1631); (1648, 1648); (1750, 1757); (1759, 1768);
    (1770, 1773); (1807, 1807); (1809, 1809); (1840, 1866); (1958, 1968);
    (2027, 2037); (2042, 2042); (2045, 2045); (2070, 2093); (2137, 2139);
    (2184, 2184); (2192, 2193); (2200, 2207); (2249, 2306); (2362, 2362);
    (2364, 2364); (2369, 2376); (2381, 2381); (2385, 2391); (2402, 2403);
    (2417, 2417); (2433, 2433); (2492, 2492); (2497, 2500); (2509, 2509);
    (2530, 2531); (2558, 2558); (2561, 2562); (2620, 2620); (2625, 2626);
    (2631, 2632); (2635, 2637); (2641, 2641); (2672, 2673); (2677, 2677);
    (2689, 2690); (2748, 2748); (2753, 2757); (2759, 2760); (2765, 2765);
    (2786, 2787); (2810, 2815); (2817, 2817); (2876, 2876); (2879, 2879);
    (2881, 2884); (2893, 2893); (2901, 2902); (2914, 2915); (2946, 2946);
    (3008, 3008); (3021, 3021); (3072, 3072); (3076, 3076); (3132, 3132);
    (3134, 3136); (3142, 3144); (3146, 3149); (3157, 3158); (3170, 3171);
    (3201, 3201); (3260, 3260); (3263, 3263); (3270, 3270); (3276, 3277);
    (3298, 3299); (3328, 3329); (3387, 3388); (3393, 3396); (3405, 3405);
    (3426, 3427); (3457, 3457); (3530, 3530); (3538, 3540); (3542, 3542);
    (3633, 3633); (3636, 3642); (3654, 3662); (3761, 3761); (3764, 3772);
    (3782, 3782); (3784, 3789); (3864, 3865); (3893, 3893); (3895, 3895);
    (3897, 3897); (3953, 3966); (3968, 3972); (3974, 3975); (3981, 3991);
    (3993, 4028); (4038, 4038); (4141, 4144); (4146, 4151); (4153, 4154);
    (4157, 4158); (4184, 4185); (4190, 4192); (4209, 4212); (4226, 4226);
    (4229, 4230); (4237, 4237); (4253, 4253); (4348, 4348); (4957, 4959);
    (5906, 5908); (5938, 5939); (5970, 5971); (6002, 6003); (6068, 6069);
    (6071, 6077); (6086, 6086); (6089, 6099); (6103, 6103); (6109, 6109);
    (6155, 6159); (6211, 6211); (6277, 6278); (6313, 6313); (6432, 6434);
    (6439, 6440); (6450, 6450); (6457, 6459); (6679, 6680); (6683, 6683);
    (6742, 6742); (6744, 6750); (6752, 6752); (6754, 6754); (6757, 6764);
    (6771, 6780); (6783, 6783); (6823, 6823); (6832, 6862); (6912, 6915);
    (6964, 6964); (6966, 6970); (6972, 6972); (6978, 6978); (7019, 7027);
    (7040, 7041); (7074, 7077); (7080, 7081); (7083, 7085); (7142, 7142);
    (7144, 7145); (7149, 7149); (7151, 7153); (7212, 7219); (7222, 7223);
    (7288, 7293); (7376, 7378); (7380, 7392); (7394, 7400); (7405, 7405);
    (7412, 7412); (7416, 7417); (7468, 7530); (7544, 7544); (7579, 7679);
    (8125, 8125); (8127, 8129); (8141, 8143); (8157, 8159); (8173, 8175);
    (8189, 8190); (8203, 8207); (8216, 8217); (8228, 8228); (8231, 8231);
    (8234, 8238); (8288, 8292); (8294, 8303); (8305, 8305); (8319, 8319);
    (8336, 8348); (8400, 8432); (11388, 11389); (11503, 11505);
    (11631, 11631); (11647, 11647); (11744, 11775); (11823, 11823);
    (12293, 12293); (12330, 12333); (12337, 12341); (12347, 12347);
    (12441, 12446); (12540, 12542); (40981, 40981); (42232, 42237);
    (42508, 42508); (42607, 42610); (42612, 42621); (42623, 42623);
    (42652, 42655); (42736, 42737); (42752, 42785); (42864, 42864);
    (42888, 42890); (42994, 42996); (43000, 43001); (43010, 43010);
    (43014, 43014); (43019, 43019); (43045, 43046); (43052, 43052);
    (43204, 43205); (43232, 43249); (43263, 43263); (43302, 43309);
    (43335, 43345); (43392, 43394); (43443, 43443); (43446, 43449);
    (43452, 43453); (43471, 43471); (43493, 43494); (43561, 43566);
    (43569, 43570); (43573, 43574); (43587, 43587); (43596, 43596);
    (43632, 43632); (43644, 43644); (43696, 43696); (43698, 43700);
    (43703, 43704); (43710, 43711); (43713, 43713); (43741, 43741);
    (43756, 43757); (43763, 43764); (43766, 43766); (43867, 43871);
    (43881, 43883); (44005, 44005); (44008, 44008); (44013, 44013);
    (64286, 64286); (64434, 64450); (65024, 65039); (65043, 65043);
    (65056, 65071); (65106, 65106); (65109, 65109); (65279, 65279);
    (65287, 65287); (65294, 65294); (65306, 65306); (65342, 65342);
    (65344, 65344); (65392, 65392); (65438, 65439); (65507, 65507);
    (65529, 65531); (66045, 66045); (66272, 66272); (66422, 66426);
    (67456, 67461); (67463, 67504); (67506, 67514); (68097, 68099);
    (68101, 68102); (68108, 68111); (68152, 68154); (68159, 68159);
    (68325, 68326); (68900, 68903); (69291, 69292); (69446, 69456);
    (69506, 69509); (69633, 69633); (69688, 69702); (69744, 69744);
    (69747, 69748); (69759, 69761); (69811, 69814); (69817, 69818);
    (69821, 69821); (69826, 69826); (69837, 69837); (69888, 69890);
    (69927, 69931); (69933, 69940); (70003, 70003); (70016, 70017);
    (70070, 70078); (70089, 70092); (70095, 70095); (70191, 70193);
    (70196, 70196); (70198, 70199); (70206, 70206); (70367, 70367);
    (70371, 70378); (70400, 70401); (70459, 70460); (70464, 70464);
    (70502, 70508); (70512, 70516); (70712, 70719); (70722, 70724);
    (70726, 70726); (70750, 70750); (70835, 70840); (70842, 70842);
    (70847, 70848); (70850, 70851); (71090, 71093); (71100, 71101);
    (71103, 71104); (71132, 71133); (71219, 71226); (71229, 71229);
    (71231, 71232); (71339, 71339); (71341, 71341); (71344, 71349);
    (71351, 71351); (71453, 71455); (71458, 71461); (71463, 71467);
    (71727, 71735); (71737, 71738); (71995, 71996); (71998, 71998);
    (72003, 72003); (72148, 72151); (72154, 72155); (72160, 72160);
    (72193, 72202); (72243, 72248); (72251, 72254); (72263, 72263);
    (72273, 72278); (72281, 72283); (72330, 72342); (72344, 72345);
    (72752, 72758); (72760, 72765); (72767, 72767); (72850, 72871);
    (72874, 72880); (72882, 72883); (72885, 72886); (73009, 73014);
    (73018, 73018); (73020, 73021); (73023, 73029); (73031, 73031);
    (73104, 73105); (73109, 73109); (73111, 73111); (73459, 73460);
    (78896, 78904); (92912, 92916); (92976, 92982); (92992, 92995);
    (94031, 94031); (94095, 94111); (94176, 94177); (94179, 94180);
    (110576, 110579); (110581, 110587); (110589, 110590); (113821, 113822);
    (113824, 113827); (118528, 118573); (118576, 118598); (119143, 119145);
    (119155, 119170); (119173, 119179); (119210, 119213); (119362, 119364);
    (121344, 121398); (121403, 121452); (121461, 121461); (121476, 121476);
    (121499, 121503); (121505, 121519); (122880, 122886); (122888, 122904);
    (122907, 122913); (122915, 122916); (122918, 122922); (123184, 123197);
    (123566, 123566); (123628, 123631); (125136, 125142); (125252, 125259);
    (127995, 127999); (917505, 917505); (917536, 917631); (917760, 917999)
  ]%N.

Definition cased_table : list (N * N) :=
  [
    (65, 90); (97, 122); (170, 170); (181, 181); (186, 186); (192, 214);
    (216, 246); (248, 442); (444, 447); (452, 659); (661, 687); (880, 883);
    (886, 887); (891, 893); (895, 895); (902, 902); (904, 906); (908, 908);
    (910, 929); (931, 1013); (1015, 1153); (1162, 1327); (1329, 1366);
    (1376, 1416); (4256, 4293); (4295, 4295); (4301, 4301); (4304, 4346);
    (4349, 4351); (5024, 5109); (5112, 5117); (7296, 7304); (7312, 7354);
    (7357, 7359); (7424, 7467); (7531, 7543); (7545, 7578); (7680, 7957);
    (7960, 7965); (7968, 8005); (8008, 8013); (8016, 8023); (8025, 8025);
    (8027, 8027); (8029, 8029); (8031, 8061); (8064, 8116); (8118, 8124);
    (8126, 8126); (8130, 8132); (8134, 8140); (8144, 8147); (8150, 8155);
    (8160, 8172); (8178, 8180); (8182, 8188); (8450, 8450); (8455, 8455);
    (8458, 8467); (8469, 8469); (8473, 8477); (8484, 8484); (8486, 8486);
    (8488, 8488); (8490, 8493); (8495, 8500); (8505, 8505); (8508, 8511);
    (8517, 8521); (8526, 8526); (8544, 8575); (8579, 8580); (9398, 9449);
    (11264, 11387); (11390, 11492); (11499, 11502); (11506, 11507);
    (11520, 11557); (11559, 11559); (11565, 11565); (42560, 42605);
    (42624, 42651); (42786, 42863); (42865, 42887); (42891, 42894);
    (42896, 42954); (42960, 42961); (42963, 42963); (42965, 42969);
    (42997, 42998); (43002, 43002); (43824, 43866); (43872, 43880);
    (43888, 43967); (64256, 64262); (64275, 64279); (65313, 65338);
    (65345, 65370); (66560, 66639); (66736, 66771); (66776, 66811);
    (66928, 66938); (66940, 66954); (66956, 66962); (66964, 66965);
    (66967, 66977); (66979, 66993); (66995, 67001); (67003, 67004);
    (68736, 68786); (68800, 68850); (71840, 71903); (93760, 93823);
    (119808, 119892); (119894, 119964); (119966, 119967); (119970, 119970);
    (119973, 119974); (119977, 119980); (119982, 119993); (119995, 119995);
    (119997, 120003); (120005, 120069); (120071, 120074); (120077, 120084);
    (120086, 120092); (120094, 120121); (120123, 120126); (120128, 120132);
    (120134, 120134); (120138, 120144); (120146, 120485); (120488, 120512);
    (120514, 120538); (120540, 120570); (120572, 120596); (120598, 120628);
    (120630, 120654); (120656, 120686); (120688, 120712); (120714, 120744);
    (120746, 120770); (120772, 120779); (122624, 122633); (122635, 122654);
    (125184, 125251); (127280, 127305); (127312, 127337); (127344, 127369)
  ]%N.

Fixpoint simple_lower (table : list (N * N * N * N)) (c : N) : N :=
  match table with
  | [] => c
  | (first, last, step, target) :: rest =>
      if (c <? first)%N then c
      else if ((c <=? last) && ((c - first) mod step =? 0))%N
      then (target + (c - first))%N
      else simple_lower rest c
  end.

Fixpoint in_ranges (table : list (N * N)) (c : N) : bool :=
  match table with
  | [] => false
  | (first, last) :: rest =>
      if (c <? first)%N then false
      else if (c <=? last)%N then true
      else in_ranges rest c
  end.

(** The lowercase of one code point that is not the capital sigma. *)
Definition lower_cp (c : N) : list N :=
  if (c =? 304)%N then [105%N; 775%N]
  else [simple_lower lower_table c].

(** The first code point of [s] that is not case-ignorable, if any. *)
Fixpoint first_not_ignorable (s : pystr) : option N :=
  match s with
  | [] => None
  | c :: rest =>
      if in_ranges case_ignorable_table c then first_not_ignorable rest
      else Some c
  end.

Definition is_cased (found : option N) : bool :=
  match found with
  | Some c => in_ranges cased_table c
  | None => false
  end.

(** A capital sigma is final when a cased letter stands before it and
    none after it, case-ignorable characters not counting.  [before] is
    the text before the sigma, nearest character first. *)
Definition final_sigma (before after : pystr) : bool :=
  is_cased (first_not_ignorable before)
  && negb (is_cased (first_not_ignorable after)).

Definition lower_at (before after : pystr) (c : N) : list N :=
  if (c =? 931)%N
  then [if final_sigma before after then 962%N else 963%N]
  else lower_cp c.

Fixpoint lower_go (before s : pystr) : pystr :=
  match s with
  | [] => []
  | c :: rest => lower_at before rest c ++ lower_go (c :: before) rest
  end.

Definition lower (s : pystr) : pystr := lower_go [] s.

Fixpoint lstrip (s : pystr) : pystr :=
  match s with
  | [] => []
  | c :: r => if isspace c then lstrip r else s
  end.

Definition rstrip (s : pystr) : pystr := rev (lstrip (rev s)).

(** [s.strip()] *)
Definition strip (s : pystr) : pystr := rstrip (lstrip s).

Fixpoint startswith (s p : pystr) : bool :=
  match p, s with
  | [], _ => true
  | _ :: _, [] => false
  | a :: p', b :: s' => (a =? b)%N && startswith s' p'
  end.

(** [needle in hay] for two strings. *)
Fixpoint contains (hay needle : pystr) : bool :=
  startswith hay needle ||
  match hay with
  | [] => false
  | _ :: r => contains r needle
  end.

(** [any(kw in s for kw in kws)] *)
Definition any_in (kws : list pystr) (s : pystr) : bool :=
  existsb (contains s) kws.

(** One of ['.'], ['!'], ['?']. *)
Definition is_terminator (c : N) : bool :=
  ((c =? 46) || (c =? 33) || (c =? 63))%N.

(** [s.endswith(('.', '!', '?'))] *)
Definition ends_with_terminator (s : pystr) : bool :=
  match rev s with
  | [] => false
  | c :: _ => is_terminator c
  end.

(** [sep.join(parts)] *)
Fixpoint join (sep : pystr) (parts : list pystr) : pystr :=
  match parts with
  | [] => []
  | [p] => p
  | p :: rest => p ++ sep ++ join sep rest
  end.

(** [s.split()]: the maximal runs of non-space characters. *)
Fixpoint split_ws_go (s cur : pystr) : list pystr :=
  match s with
  | [] => match cur with [] => [] | _ => [rev cur] end
  | c :: r =>
      if isspace c then
        match cur with
        | [] => split_ws_go r []
        | _ => rev cur :: split_ws_go r []
        end
      else split_ws_go r (c :: cur)
  end.

Definition split_ws (s : pystr) : list pystr := split_ws_go s [].

Definition head_isspace (s : pystr) : bool :=
  match s with
  | [] => false
  | c :: _ => isspace c
  end.

(** [re.split(r'[.!?]\s+', s)]: the text is cut at every terminator that is
    followed by white space, and the terminator and the whole run of white
    space are dropped.  [skipping] is true while the run of white space of
    the last match is being consumed; [cur] is the piece being read,
    reversed. *)
Fixpoint re_split_go (skipping : bool) (s cur : pystr) : list pystr :=
  match s with
  | [] => [rev cur]
  | c :: r =>
      if skipping && isspace c then re_split_go true r cur
      else if is_terminator c && head_isspace r
           then rev cur :: re_split_go true r []
           else re_split_go false r (c :: cur)
  end.

Definition re_split_sentences (s : pystr) : list pystr :=
  re_split_go false s [].

(** [s.split(sep)[0]]: the text before the first occurrence of [sep]
    ([sep] non-empty). *)
Fixpoint before_sep (s sep : pystr) : pystr :=
  match s with
  | [] => []
  | c :: r => if startswith s sep then [] else c :: before_sep r sep
  end.

(** Order of [sorted] on strings: lexicographic on code points. *)
Fixpoint leb (a b : pystr) : bool :=
  match a, b with
  | [], _ => true
  | _ :: _, [] => false
  | x :: a', y :: b' => (x <? y)%N || ((x =? y)%N && leb a' b')
  end.

Fixpoint insert_sorted (x : pystr) (l : list pystr) : list pystr :=
  match l with
  | [] => [x]
  | y :: r => if leb x y then x :: l else y :: insert_sorted x r
  end.

Definition sorted (l : list pystr) : list pystr :=
  fold_right insert_sorted [] l.

(** [l[:n]] for an integer [n] of either sign. *)
Definition slice_to {A} (n : Z) (l : list A) : list A :=
  if (n <? 0)%Z then firstn (List.length l - Z.to_nat (- n)) l
  else firstn (Z.to_nat n) l.

(** [l[-7:-1]] *)
Definition slice_m7_m1 {A} (l : list A) : list A :=
  let start := List.length l - 7 in
  let stop := List.length l - 1 in
  firstn (stop - start) (skipn start l).

End PyStr.

Import PyStr.

(* ------------------------------------------------------------------ *)
(** ** backend/rag_simple.py *)

Module Rag.

(** *** Data *)

(** A [Dict[str, str]]: the metadata of an indexed document, a conversation
    turn.  Lookup takes the first binding of the key. *)
Definition dict := list (pystr * pystr).

Fixpoint dict_get (d : dict) (k : pystr) : option pystr :=
  match d with
  | [] => None
  | (k', v) :: r => if PyStr.eqb k' k then Some v else dict_get r k
  end.

(** [d.get(k, default)] *)
Definition get_default (d : dict) (k default : pystr) : pystr :=
  match dict_get d k with
  | Some v => v
  | None => default
  end.

(** A document chunk of [data/corpus.json], with the fields the ingestion
    scripts write. *)
Module Chunk.
Record t := {
  id : Z;
  title : pystr;
  content : pystr;
  source : pystr;
  category : pystr;
  word_count : Z;
  metadata : dict
}.
End Chunk.

(** One record of the vector collection, as [collection.add] receives it. *)
Record entry := {
  entry_id : pystr;
  entry_document : pystr;
  entry_metadata : dict
}.

(** A retrieved document: [{"content": ..., "metadata": ...}].  The
    metadata is a dictionary: every record of the collection is stored with
    one, by [_index_documents] and by the rebuild script alike. *)
Record doc := {
  content : pystr;
  metadata : dict
}.

(** An element of the [sources] list of an answer. *)
Record source_ref := {
  src_title : pystr;
  src_source : pystr;
  src_category : pystr
}.

(** The dictionary [ask] returns. *)
Record ask_result := {
  res_question : pystr;
  res_answer : pystr;
  res_sources : list source_ref
}.

(** The attributes of a [BurkinaHeritageRAGSimple] object.  The ChromaDB
    client and the embedding function are handles of the library and carry
    no data of the program; the collection is modelled by the records added
    to it. *)
Record RAG := {
  corpus : list Chunk.t;
  collection : list entry;
  gemini_api_key : pystr;
  gemini_client : bool;
  hf_token : pystr;
  hf_api_url : pystr
}.

(** *** Effects *)

(** A call either returns or raises; an exception is carried as [str(e)]. *)
Inductive outcome (A : Type) : Type :=
| Ok (a : A)
| Raise (e : pystr).
Arguments Ok {A} a.
Arguments Raise {A} e.

(** What a method does that is visible from outside the object: [ask]
    announces the question it received; [collection.query],
    [models.generate_content] and [collection.add] are calls to third-party
    services. *)
Inductive event :=
| EvAsk (question : pystr)
| EvQuery (query_text : pystr) (n_results : Z)
| EvGenerate (prompt : pystr)
| EvAdd (records : list entry).

(** The third-party services.  Nothing is assumed about their answers:
    each may depend on the collection, on the arguments and on everything
    that happened before, and each call may raise.  A query reads the
    collection; that it leaves it as it is, is the contract of the store.
    [generate_content] stands for [response.text] of the Gemini call
    ([Raise] also covers a response without text, on which [.strip()]
    raises inside the same [try]).  [chroma_add] stands for
    [collection.add]: from the records the collection holds and the
    records handed over, the store either raises or gives the records it
    holds afterwards - it may refuse a batch, and it may leave a record
    out. *)
Record External := {
  chroma_query : list event -> list entry -> pystr -> Z -> outcome (list doc);
  generate_content : list event -> pystr -> outcome pystr;
  chroma_add : list event -> list entry -> list entry -> outcome (list entry)
}.

(** The object a method runs on, and the observer's record of the events
    so far. *)
Record state := {
  self : RAG;
  trace : list event
}.

(** Methods run against the services, read and write [self], and may
    raise. *)
Definition M (A : Type) : Type := External -> state -> outcome A * state.

Definition ret {A} (a : A) : M A := fun _ st => (Ok a, st).

Definition raise {A} (e : pystr) : M A := fun _ st => (Raise e, st).

Definition bind {A B} (m : M A) (k : A -> M B) : M B :=
  fun ext st =>
    match m ext st with
    | (Ok a, st') => k a ext st'
    | (Raise e, st') => (Raise e, st')
    end.

(** [try: m  except Exception as e: handler(e)] *)
Definition try_except {A} (m : M A) (handler : pystr -> M A) : M A :=
  fun ext st =>
    match m ext st with
    | (Ok a, st') => (Ok a, st')
    | (Raise e, st') => handler e ext st'
    end.

Notation "x <- m ;; k" := (bind m (fun x => k))
  (at level 61, m at next level, right associativity).
Notation "m ;;; k" := (bind m (fun _ => k))
  (at level 61, right associativity).

Definition get_self : M RAG := fun _ st => (Ok (self st), st).

Definition set_collection (c : list entry) : M unit :=
  fun _ st =>
    let s := self st in
    (Ok tt,
     {| self := {| corpus := corpus s; collection := c;
                   gemini_api_key := gemini_api_key s;
                   gemini_client := gemini_client s;
                   hf_token := hf_token s; hf_api_url := hf_api_url s |};
        trace := trace st |}).

Definition emit (e : event) : M unit :=
  fun _ st => (Ok tt, {| self := self st; trace := trace st ++ [e] |}).

(** [self.collection.query(query_texts=[text], n_results=n)], with the
    parallel lists of the result zipped into documents. *)
Definition collection_query (text : pystr) (n : Z) : M (list doc) :=
  fun ext st =>
    (chroma_query ext (trace st) (collection (self st)) text n,
     {| self := self st; trace := trace st ++ [EvQuery text n] |}).

(** [self.collection.add(documents=..., metadatas=..., ids=...)], with the
    three parallel lists zipped into records.  The collection holds
    afterwards what the store answers; when the call raises, the object is
    left as it was. *)
Definition collection_add (records : list entry) : M unit :=
  fun ext st =>
    let s := self st in
    let tr := trace st ++ [EvAdd records] in
    match chroma_add ext (trace st) (collection s) records with
    | Ok held =>
        (Ok tt,
         {| self := {| corpus := corpus s; collection := held;
                       gemini_api_key := gemini_api_key s;
                       gemini_client := gemini_client s;
                       hf_token := hf_token s; hf_api_url := hf_api_url s |};
            trace := tr |})
    | Raise e => (Raise e, {| self := s; trace := tr |})
    end.

(** [self.gemini_client.models.generate_content(...)] then [response.text] *)
Definition gemini_generate (prompt : pystr) : M pystr :=
  fun ext st =>
    (generate_content ext (trace st) prompt,
     {| self := self st; trace := trace st ++ [EvGenerate prompt] |}).

(** *** Text constants *)

Definition nl : pystr := [10%N].
Definition dq : pystr := [34%N].

(** The lines of a triple-quoted template. *)
Definition lines (ls : list pystr) : pystr := join nl ls.

Definition overloaded_notice : pystr :=
  py "⚠️ Le service d'IA est temporairement surchargé. Veuillez réessayer dans quelques instants.".

Definition quota_notice : pystr :=
  py "⚠️ Limite d'utilisation atteinte. Veuillez réessayer dans quelques minutes.".

Definition config_notice : pystr :=
  py "⚠️ Problème de configuration de l'API. Veuillez contacter l'administrateur.".

Definition network_notice : pystr :=
  py "⚠️ Problème de connexion réseau. Veuillez vérifier votre connexion internet et réessayer.".

Definition unavailable_notice : pystr :=
  py "⚠️ Le service d'IA est temporairement indisponible. Veuillez réessayer ultérieurement.".

Definition no_information_template : pystr :=
  py "Désolé, je n'ai pas trouvé d'information sur ce sujet dans ma base de données. Posez-moi des questions sur la culture, l'histoire, les traditions ou l'architecture du Burkina Faso.".

Definition greeting_answer : pystr :=
  py "Bonjour ! 👋 Je suis BurkinaHeritage, votre assistant culturel sur le Burkina Faso. Comment puis-je vous aider aujourd'hui ? 😊".

Definition cultural_keywords : list pystr :=
  map py
    [ "griot"; "balafon"; "djembé"; "kora"; "musique"; "danse"; "tradition";
      "masque"; "fespaco"; "siao"; "artisan"; "tissage"; "poterie"; "bronze";
      "cérémonie"; "rite"; "ancêtre"; "chef"; "roi"; "royaume"; "ethnie";
      "mossi"; "peul"; "bobo"; "lobi"; "gourounsi"; "touareg" ]%string.

Definition architectural_keywords : list pystr :=
  map py
    [ "grenier"; "case"; "maison"; "habitat"; "construction"; "architecture";
      "mosquée"; "bâtiment"; "édifice"; "banco"; "terre"; "paille" ]%string.

Definition keywords_requiring_search : list pystr :=
  map py
    [ "griot"; "balafon"; "djembé"; "kora"; "musique"; "danse"; "tradition";
      "masque"; "fespaco"; "siao"; "artisan"; "tissage"; "poterie"; "bronze";
      "cérémonie"; "rite"; "ancêtre"; "chef"; "roi"; "royaume"; "ethnie";
      "mossi"; "peul"; "bobo"; "lobi"; "gourounsi"; "touareg"; "grenier";
      "case"; "maison"; "habitat"; "construction"; "architecture"; "mosquée";
      "bâtiment"; "édifice"; "banco"; "terre"; "paille"; "histoire";
      "indépendance"; "thomas sankara"; "sankara"; "mogho naba"; "empire";
      "colonial"; "français"; "guerre"; "ouagadougou"; "bobo-dioulasso";
      "banfora"; "ville"; "région"; "qui est"; "qu'est-ce que"; "c'est quoi";
      "parle-moi de"; "explique"; "raconte"; "définition";
      "signification" ]%string.

Definition general_terms : list pystr :=
  map py
    [ "Burkina Faso culture traditions"; "histoire Burkina Faso";
      "patrimoine burkinabè" ]%string.

Definition simple_greetings : list pystr :=
  map py
    [ "bonjour"; "salut"; "bonsoir"; "coucou"; "hey"; "hello"; "hi" ]%string.

Definition apology_template : pystr :=
  py "Désolé, je n'ai pas d'information sur ce sujet dans ma base de données. Posez-moi des questions sur la culture, l'histoire, les traditions, l'artisanat ou l'architecture du Burkina Faso. Par exemple : 'Qu'est-ce que le SIAO ?', 'Parle-moi du FESPACO', 'Qui est Thomas Sankara ?'".

Definition found_in_database_notice : pystr :=
  py "Voici les informations que j'ai trouvées dans ma base de données :".

Definition general_information_notice : pystr :=
  py "Voici des informations générales sur le Burkina Faso :".

Definition sources_header : pystr :=
  nl ++ nl ++ nl ++ py "📚 Sources :" ++ nl ++ nl.

(** *** Initialisation *)

Definition str_of_Z (z : Z) : pystr :=
  if (z <? 0)%Z then py "-" ++ str_of_nat (Z.to_nat (- z))
  else str_of_nat (Z.to_nat z).

Definition entry_of_chunk (d : Chunk.t) : entry :=
  {| entry_id := py "doc_" ++ str_of_Z (Chunk.id d);
     entry_document := Chunk.content d;
     entry_metadata :=
       [ (py "title", Chunk.title d);
         (py "source", Chunk.source d);
         (py "category", Chunk.category d) ] |}.

Definition batch_size : nat := 10.

(** The loop of [_index_documents]: [rounds] bounds the number of batches,
    [remaining] is [self.corpus[i:]].  An exception of [collection.add]
    ends the loop and is passed on. *)
Fixpoint index_batches (rounds : nat) (remaining : list Chunk.t) : M unit :=
  match rounds with
  | O => ret tt
  | S rounds' =>
      match remaining with
      | [] => ret tt
      | _ :: _ =>
          let batch := firstn batch_size remaining in
          collection_add (map entry_of_chunk batch) ;;;
          index_batches rounds' (skipn batch_size remaining)
      end
  end.

Definition _index_documents : M unit :=
  s <- get_self ;;
  index_batches (List.length (corpus s)) (corpus s).

(** [persisted] is the collection named "burkina_culture" in the store
    directory, if there is one: [get_collection] raises when there is
    none, and a new collection is created and filled. *)
Definition _setup_collection (persisted : option (list entry)) : M unit :=
  match persisted with
  | Some c => set_collection c
  | None => set_collection [] ;;; _index_documents
  end.

Definition max_docs : nat := 100.

(** [__init__].  [corpus_file] is the parsed content of [data/corpus.json]
    ([None] when the file cannot be read), the two [env_] arguments are the
    environment variables.  It raises when the file cannot be read and
    when the store refuses a batch of the indexing. *)
Definition init (corpus_file : option (list Chunk.t))
    (persisted : option (list entry))
    (env_GEMINI_API_KEY env_HUGGINGFACE_TOKEN : pystr)
    (GEMINI_AVAILABLE : bool) : M unit :=
  fun ext st =>
    match corpus_file with
    | None => (Raise (py "[Errno 2] No such file or directory: 'data/corpus.json'"), st)
    | Some full_corpus =>
        let kept :=
          if max_docs <? List.length full_corpus
          then firstn max_docs full_corpus
          else full_corpus in
        let client :=
          negb (PyStr.eqb env_GEMINI_API_KEY []) && GEMINI_AVAILABLE in
        _setup_collection persisted ext
          {| self := {| corpus := kept; collection := [];
                        gemini_api_key := env_GEMINI_API_KEY;
                        gemini_client := client;
                        hf_token := env_HUGGINGFACE_TOKEN;
                        hf_api_url := py "https://api-inference.huggingface.co/models/mistralai/Mistral-7B-Instruct-v0.2" |};
             trace := trace st |}
    end.

(** *** search_documents *)

Definition prefer_culture (query : pystr) : bool :=
  any_in cultural_keywords (lower query).

Definition prefer_architecture (query : pystr) : bool :=
  any_in architectural_keywords (lower query).

(** The loop over the hits of the store: [documents] is the list built so
    far. *)
Fixpoint keep_documents (culture_only : bool) (n_results : Z)
    (hits documents : list doc) : list doc :=
  match hits with
  | [] => documents
  | d :: rest =>
      let category := get_default (metadata d) (py "category") [] in
      if culture_only && PyStr.eqb category (py "architecture")
      then keep_documents culture_only n_results rest documents
      else
        let documents' := documents ++ [d] in
        if (n_results <=? Z.of_nat (List.length documents'))%Z
        then documents'
        else keep_documents culture_only n_results rest documents'
  end.

Definition search_documents (query : pystr) (n_results : Z) : M (list doc) :=
  let n_fetch :=
    if prefer_culture query || prefer_architecture query
    then (n_results * 3)%Z else n_results in
  results <- collection_query query (Z.min n_fetch 15) ;;
  let documents :=
    keep_documents (prefer_culture query && negb (prefer_architecture query))
                   n_results results [] in
  ret (slice_to n_results documents).

(** *** _fallback_answer *)

Definition max_words : nat := 250.

(** The inner loop over the sentences of one document. *)
Fixpoint add_sentences (sentences combined_content : list pystr)
    (total_words : nat) : list pystr * nat :=
  match sentences with
  | [] => (combined_content, total_words)
  | s :: rest =>
      let sentence := strip s in
      if List.length sentence <? 25
      then add_sentences rest combined_content total_words
      else if existsb (PyStr.eqb sentence) combined_content
      then add_sentences rest combined_content total_words
      else
        let words := split_ws sentence in
        if max_words <? total_words + List.length words
        then (combined_content, total_words)
        else
          let combined_content' := combined_content ++ [sentence] in
          let total_words' := total_words + List.length words in
          if 4 <=? List.length combined_content'
          then (combined_content', total_words')
          else add_sentences rest combined_content' total_words'
  end.

(** The outer loop over [best_docs]. *)
Fixpoint combine_docs (docs : list doc) (combined_content : list pystr)
    (total_words : nat) : list pystr * nat :=
  match docs with
  | [] => (combined_content, total_words)
  | d :: rest =>
      let text := strip (content d) in
      match text with
      | [] => combine_docs rest combined_content total_words
      | _ :: _ =>
          let (combined_content', total_words') :=
            add_sentences (re_split_sentences text) combined_content
                          total_words in
          if (max_words <=? total_words')
             || (4 <=? List.length combined_content')
          then (combined_content', total_words')
          else combine_docs rest combined_content' total_words'
      end
  end.

Definition what_question_words : list pystr :=
  map py [ "qu'est-ce"; "c'est quoi"; "what is"; "définition" ]%string.

Definition general_culture_words : list pystr :=
  map py [ "culture"; "traditions"; "patrimoine"; "burkinab" ]%string.

Definition intro_of (question : pystr) : pystr :=
  let question_lower := lower question in
  if any_in what_question_words question_lower
  then py "Voici ce que je peux vous dire : "
  else if any_in general_culture_words question_lower
  then py "Concernant la culture burkinabè : "
  else [].

(** The end of [_fallback_answer], from the sentences kept. *)
Definition finish_answer (intro : pystr) (combined_content : list pystr)
    : pystr :=
  let answer := strip (intro ++ join (py " ") combined_content) in
  let answer :=
    if ends_with_terminator answer then answer else answer ++ py "." in
  if 600 <? List.length answer
  then firstn 597 answer ++ py "..."
  else answer.

Definition _fallback_answer (context_docs : list doc) (question : pystr)
    : pystr :=
  match context_docs with
  | [] => no_information_template
  | _ :: _ =>
      let best_docs := firstn 3 context_docs in
      let intro := intro_of question in
      let combined_content := fst (combine_docs best_docs [] 0) in
      match combined_content with
      | [] =>
          let first_content :=
            match best_docs with
            | d :: _ => content d
            | [] => []
            end in
          if 400 <? List.length first_content
          then intro ++ strip (firstn 400 first_content) ++ py "..."
          else intro ++ first_content
      | _ :: _ => finish_answer intro combined_content
      end
  end.

(** *** generate_answer_hf *)

(** [if conversation_history is None: conversation_history = []] *)
Definition history_or_empty (history : option (list dict)) : list dict :=
  match history with
  | Some h => h
  | None => []
  end.

Definition history_line (msg : dict) : pystr :=
  let role :=
    match dict_get msg (py "role") with
    | Some r => if PyStr.eqb r (py "user")
                then py "Utilisateur" else py "Assistant"
    | None => py "Assistant"
    end in
  let content := firstn 150 (get_default msg (py "content") []) in
  role ++ py ": " ++ content.

(** The last six turns before the current question, one per line. *)
Definition history_text_of (conversation_history : list dict) : pystr :=
  if 1 <? List.length conversation_history
  then join nl (map history_line (slice_m7_m1 conversation_history))
  else [].

(** [enumerate(l)], counting from [i]. *)
Fixpoint enumerate_from {A} (i : nat) (l : list A) : list (nat * A) :=
  match l with
  | [] => []
  | x :: r => (i, x) :: enumerate_from (S i) r
  end.

Definition context_block (p : nat * doc) : pystr :=
  py "Document " ++ str_of_nat (fst p + 1) ++ py ":" ++ nl
    ++ firstn 500 (content (snd p)).

Definition context_of (context_docs : list doc) : pystr :=
  join (nl ++ nl) (map context_block (enumerate_from 0 (firstn 3 context_docs))).

Definition prompt_context_history (history_text context question : pystr)
    : pystr :=
  lines
    [ py "Tu es un assistant expert sur le Burkina Faso (culture, histoire, traditions).";
      [];
      py "HISTORIQUE DE LA CONVERSATION :";
      history_text;
      [];
      py "CONTEXTE TROUVÉ DANS MA BASE DE DONNÉES :";
      context;
      [];
      py "QUESTION DE L'UTILISATEUR : " ++ question;
      [];
      py "TA MISSION :";
      py "1. TIENS COMPTE de l'historique de conversation ci-dessus pour comprendre le contexte";
      py "2. Utilise les informations du contexte de ma base de données comme BASE";
      py "3. Reformule de manière claire et fluide (pas de copier-coller)";
      py "4. Tu peux COMPLÉTER avec tes propres connaissances si nécessaire";
      py "5. Si la question fait référence à quelque chose dans l'historique (comme " ++ dq ++ py "elle" ++ dq ++ py ", " ++ dq ++ py "il" ++ dq ++ py ", " ++ dq ++ py "le SIAO" ++ dq ++ py ", etc.), utilise cet historique";
      py "6. Réponds de manière naturelle et informative (2-4 phrases)";
      [];
      py "IMPORTANT : Réponds de façon cohérente avec la conversation précédente.";
      [];
      py "RÉPONSE (en français, naturelle et complète) :" ].

Definition prompt_context (context question : pystr) : pystr :=
  lines
    [ py "Tu es un assistant expert sur le Burkina Faso (culture, histoire, traditions).";
      [];
      py "CONTEXTE TROUVÉ DANS MA BASE DE DONNÉES :";
      context;
      [];
      py "QUESTION DE L'UTILISATEUR : " ++ question;
      [];
      py "TA MISSION :";
      py "1. Utilise les informations du contexte ci-dessus comme BASE";
      py "2. Reformule de manière claire et fluide (pas de copier-coller)";
      py "3. Tu peux COMPLÉTER avec tes propres connaissances si nécessaire";
      py "4. Tu peux CORRIGER si une information semble incorrecte";
      py "5. Réponds de manière naturelle et informative (2-4 phrases)";
      [];
      py "IMPORTANT : Même si le contexte ne répond pas parfaitement, utilise tes connaissances du Burkina Faso pour donner une réponse complète et utile.";
      [];
      py "RÉPONSE (en français, naturelle et complète) :" ].

Definition prompt_history (history_text question : pystr) : pystr :=
  lines
    [ py "Tu es BurkinaHeritage, un assistant sympathique et expert sur le Burkina Faso.";
      [];
      py "HISTORIQUE DE LA CONVERSATION :";
      history_text;
      [];
      py "QUESTION : " ++ question;
      [];
      py "TA MISSION :";
      py "- TIENS COMPTE de l'historique pour comprendre le contexte";
      py "- Si la question fait référence à la conversation précédente, utilise cet historique";
      py "- Si c'est une salutation → réponds chaleureusement";
      py "- Si c'est une question sur le Burkina Faso → réponds avec tes connaissances";
      py "- Reste naturel, sympathique et cohérent avec la conversation";
      py "- Réponds en français (1-3 phrases)";
      [];
      py "RÉPONSE (naturelle, sympathique et cohérente) :" ].

Definition prompt_plain (question : pystr) : pystr :=
  lines
    [ py "Tu es BurkinaHeritage, un assistant sympathique et expert sur le Burkina Faso.";
      [];
      py "QUESTION : " ++ question;
      [];
      py "CONTEXTE : C'est une question conversationnelle ou aucune donnée spécifique n'est nécessaire.";
      [];
      py "TA MISSION :";
      py "- Si c'est une salutation (bonjour, salut, etc.) → réponds chaleureusement et brièvement";
      py "- Si c'est une question sur toi → explique que tu es un assistant sur le Burkina Faso";
      py "- Si c'est une question sur le Burkina Faso → réponds avec tes connaissances";
      py "- Reste naturel, sympathique et concis (1-3 phrases)";
      py "- Réponds en français";
      [];
      py "RÉPONSE (naturelle et sympathique) :" ].

Definition is_empty {A} (l : list A) : bool :=
  match l with
  | [] => true
  | _ :: _ => false
  end.

Definition build_prompt (question : pystr) (context_docs : list doc)
    (conversation_history : list dict) : pystr :=
  let has_context := negb (is_empty context_docs) in
  let history_text := history_text_of conversation_history in
  if has_context then
    let context := context_of context_docs in
    if negb (is_empty history_text)
    then prompt_context_history history_text context question
    else prompt_context context question
  else
    if negb (is_empty history_text)
    then prompt_history history_text question
    else prompt_plain question.

(** The message chosen in the [except] clause of the Gemini call. *)
Definition gemini_error_notice (error_str : pystr) : pystr :=
  let low := lower error_str in
  if contains error_str (py "503") || contains low (py "overloaded")
  then overloaded_notice
  else if contains error_str (py "429") || contains low (py "quota")
          || contains low (py "rate")
  then quota_notice
  else if contains error_str (py "401") || contains low (py "unauthorized")
          || contains low (py "api key")
  then config_notice
  else if contains low (py "network") || contains low (py "connection")
  then network_notice
  else unavailable_notice.

(** How the Gemini step ends: with the answer it returns, or without one
    and with the value of [gemini_error_message]. *)
Inductive gemini_step :=
| Answered (answer : pystr)
| NoAnswer (gemini_error_message : option pystr).

Definition call_gemini (prompt : pystr) : M gemini_step :=
  s <- get_self ;;
  if gemini_client s then
    try_except
      (text <- gemini_generate prompt ;;
       let answer := strip text in
       if 30 <? List.length answer
       then ret (Answered answer)
       else ret (NoAnswer None))
      (fun error_str => ret (NoAnswer (Some (gemini_error_notice error_str))))
  else ret (NoAnswer None).

(** The widened search: one query per general term, a failing query is
    skipped. *)
Fixpoint expanded_search (terms : list pystr) (expanded_docs : list doc)
    : M (list doc) :=
  match terms with
  | [] => ret expanded_docs
  | term :: rest =>
      hits <- try_except (collection_query term 3) (fun _ => ret []) ;;
      expanded_search rest (expanded_docs ++ hits)
  end.

Definition generate_answer_hf (question : pystr) (context_docs : list doc)
    (conversation_history : option (list dict)) : M pystr :=
  let conversation_history := history_or_empty conversation_history in
  let has_context := negb (is_empty context_docs) in
  let prompt := build_prompt question context_docs conversation_history in
  step <- call_gemini prompt ;;
  match step with
  | Answered answer => ret answer
  | NoAnswer gemini_error_message =>
      if has_context then
        let fallback_answer := _fallback_answer context_docs question in
        match gemini_error_message with
        | Some notice =>
            ret (notice ++ nl ++ nl ++ found_in_database_notice
                   ++ nl ++ nl ++ fallback_answer)
        | None => ret fallback_answer
        end
      else
        expanded_docs <- expanded_search general_terms [] ;;
        match expanded_docs with
        | _ :: _ =>
            let fallback_answer :=
              _fallback_answer (firstn 5 expanded_docs) question in
            match gemini_error_message with
            | Some notice =>
                ret (notice ++ nl ++ nl ++ general_information_notice
                       ++ nl ++ nl ++ fallback_answer)
            | None => ret fallback_answer
            end
        | [] =>
            let error_prefix :=
              match gemini_error_message with
              | Some notice => notice ++ nl ++ nl
              | None => []
              end in
            ret (error_prefix ++ apology_template)
        end
  end.

(** *** ask *)

Definition _needs_database_search (question : pystr) : bool :=
  let question_lower := strip (lower question) in
  any_in keywords_requiring_search question_lower.

(** [doc['metadata'][key]], which raises [KeyError] on a missing key. *)
Definition metadata_item (d : doc) (key : pystr) : M pystr :=
  match dict_get (metadata d) key with
  | Some v => ret v
  | None => raise (py "'" ++ key ++ py "'")
  end.

Fixpoint sources_of (docs : list doc) : M (list source_ref) :=
  match docs with
  | [] => ret []
  | d :: rest =>
      t <- metadata_item d (py "title") ;;
      s <- metadata_item d (py "source") ;;
      c <- metadata_item d (py "category") ;;
      more <- sources_of rest ;;
      ret ({| src_title := t; src_source := s; src_category := c |} :: more)
  end.

Definition source_line (s : source_ref) : pystr := py "- " ++ src_source s.

Definition ask (question : pystr) (use_llm : bool)
    (conversation_history : option (list dict)) : M ask_result :=
  emit (EvAsk question) ;;;
  let question_lower := strip (lower question) in
  if existsb (PyStr.eqb question_lower) simple_greetings then
    ret {| res_question := question;
           res_answer := greeting_answer;
           res_sources := [] |}
  else
    let needs_db := _needs_database_search question in
    docs <- (if needs_db then search_documents question 5 else ret []) ;;
    answer <- generate_answer_hf question docs conversation_history ;;
    sources <- (if needs_db && negb (is_empty docs)
                then sources_of (firstn 3 docs) else ret []) ;;
    let answer_with_sources := strip answer in
    let answer_with_sources :=
      match sources with
      | [] => answer_with_sources
      | _ :: _ =>
          answer_with_sources ++ sources_header
            ++ join nl (map source_line sources)
      end in
    ret {| res_question := question;
           res_answer := answer_with_sources;
           res_sources := sources |}.

(** *** Observations used in the statements *)

(** The documents a call hands back: none when it raised. *)
Definition returned_documents (o : outcome (list doc)) : list doc :=
  match o with
  | Ok docs => docs
  | Raise _ => []
  end.

(** A document cut to its first 500 characters. *)
Definition truncate_doc (d : doc) : doc :=
  {| content := firstn 500 (content d); metadata := metadata d |}.

(** A string with a character that is not white space. *)
Definition has_text (s : pystr) : bool :=
  existsb (fun c => negb (isspace c)) s.

(** A dictionary with a value under [k]. *)
Definition has_key (d : dict) (k : pystr) : bool :=
  match dict_get d k with
  | Some _ => true
  | None => false
  end.

(** A hit on which the query path neither raises nor comes out blank: it
    has text, and the three metadata keys [ask] reads. *)
Definition usable_hit (d : doc) : bool :=
  has_text (content d)
  && has_key (metadata d) (py "title")
  && has_key (metadata d) (py "source")
  && has_key (metadata d) (py "category").

(** A store that answers the queries of the service on the collection
    [coll] with usable hits: the service asks for 3, 5 or 15 results,
    and nothing is asked of the store for another number. *)
Definition store_usable (ext : External) (coll : list entry) : Prop :=
  forall log text n,
    In n [3; 5; 15]%Z ->
    exists hits,
      chroma_query ext log coll text n = Ok hits
      /\ forallb usable_hit hits = true.

(** The category [search_documents] reads on a document. *)
Definition category_of (d : doc) : pystr :=
  get_default (metadata d) (py "category") [].

End Rag.


(* ------------------------------------------------------------------ *)
(** ** backend/main.py *)

Module Api.

Import Rag.

(** [ChatRequest] *)
Record ChatRequest := {
  question : pystr;
  use_llm : option bool;
  n_results : option Z;
  conversation_history : option (list dict)
}.

(** [ChatResponse], [HealthResponse] and [StatsResponse].  The time stamps
    and the processing time are read from the clock and are left out. *)
Record ChatResponse := {
  resp_question : pystr;
  resp_answer : pystr;
  resp_sources : list source_ref
}.

Record HealthResponse := {
  status : pystr;
  message : pystr;
  rag_initialized : bool;
  health_total_documents : Z
}.

(** The body of the history-clear endpoint. *)
Record ClearResponse := {
  clear_status : pystr;
  clear_message : pystr
}.

Record StatsResponse := {
  total_documents : Z;
  categories : list (pystr * Z);
  sources : list pystr
}.

(** A handler answers with a body or raises [HTTPException]. *)
Inductive http (A : Type) : Type :=
| Http200 (body : A)
| HTTPException (status_code : Z) (detail : pystr).
Arguments Http200 {A} body.
Arguments HTTPException {A} status_code detail.

(** The module-level state: the global [rag_system].  [calls] is the
    observer's record of what the process did towards the outside; it is
    not data the program holds. *)
Record Server := {
  rag_system : option RAG;
  calls : list event
}.

(** The state of the module before [startup_event]. *)
Definition initial : Server := {| rag_system := None; calls := [] |}.

(** [startup_event]: builds the RAG system; when that raises, the
    exception is raised again and the global stays unset. *)
Definition startup_event (ext : External)
    (corpus_file : option (list Chunk.t)) (persisted : option (list entry))
    (env_GEMINI_API_KEY env_HUGGINGFACE_TOKEN : pystr)
    (GEMINI_AVAILABLE : bool) (srv : Server) : outcome unit * Server :=
  let blank :=
    {| corpus := []; collection := []; gemini_api_key := [];
       gemini_client := false; hf_token := []; hf_api_url := [] |} in
  match init corpus_file persisted env_GEMINI_API_KEY env_HUGGINGFACE_TOKEN
             GEMINI_AVAILABLE ext {| self := blank; trace := calls srv |} with
  | (Ok _, st) =>
      (Ok tt, {| rag_system := Some (self st); calls := trace st |})
  | (Raise e, st) =>
      (Raise e, {| rag_system := rag_system srv; calls := trace st |})
  end.

Definition health_check (srv : Server) : HealthResponse * Server :=
  ({| status :=
        match rag_system srv with
        | Some _ => py "healthy"
        | None => py "error"
        end;
      message :=
        match rag_system srv with
        | Some _ => py "Système RAG opérationnel"
        | None => py "RAG non initialisé"
        end;
      rag_initialized :=
        match rag_system srv with
        | Some _ => true
        | None => false
        end;
      health_total_documents :=
        match rag_system srv with
        | Some rag => Z.of_nat (List.length (corpus rag))
        | None => 0%Z
        end |}, srv).

(** [categories[cat] = categories.get(cat, 0) + 1] on a dictionary kept in
    insertion order. *)
Fixpoint count_category (categories : list (pystr * Z)) (cat : pystr)
    : list (pystr * Z) :=
  match categories with
  | [] => [(cat, 1%Z)]
  | (k, n) :: r =>
      if PyStr.eqb k cat then (k, (n + 1)%Z) :: r
      else (k, n) :: count_category r cat
  end.

(** [sources_set.add(source)] *)
Definition set_add (s : list pystr) (x : pystr) : list pystr :=
  if existsb (PyStr.eqb x) s then s else s ++ [x].

Definition get_stats (srv : Server) : http StatsResponse * Server :=
  match rag_system srv with
  | None => (HTTPException 503 (py "Système RAG non initialisé"), srv)
  | Some rag =>
      let categories :=
        fold_left (fun acc d => count_category acc (Chunk.category d))
                  (corpus rag) [] in
      let sources_set :=
        fold_left
          (fun acc d =>
             let source := before_sep (Chunk.source d) (py " - ") in
             if is_empty source then acc else set_add acc source)
          (corpus rag) [] in
      (Http200 {| total_documents := Z.of_nat (List.length (corpus rag));
                  categories := categories;
                  sources := PyStr.sorted sources_set |}, srv)
  end.

Definition chat (ext : External) (request : ChatRequest) (srv : Server)
    : http ChatResponse * Server :=
  match rag_system srv with
  | None => (HTTPException 503 (py "Système RAG non initialisé"), srv)
  | Some rag =>
      if is_empty (question request)
         || (List.length (strip (question request)) <? 3)
      then (HTTPException 400 (py "Question trop courte"), srv)
      else
        match ask (question request)
                  (match use_llm request with
                   | Some b => b
                   | None => false
                   end)
                  (conversation_history request)
                  ext {| self := rag; trace := calls srv |} with
        | (Ok result, st) =>
            (Http200 {| resp_question := res_question result;
                        resp_answer := res_answer result;
                        resp_sources := res_sources result |},
             {| rag_system := Some (self st); calls := trace st |})
        | (Raise e, st) =>
            (HTTPException 500 (py "Erreur: " ++ e),
             {| rag_system := Some (self st); calls := trace st |})
        end
  end.

Definition clear_conversation (srv : Server) : ClearResponse * Server :=
  ({| clear_status := py "success";
      clear_message := py "Historique effacé" |}, srv).

(** The routes of the application, and the handling of a sequence of
    requests by one process. *)
Inductive Request :=
| PostChat (request : ChatRequest)
| GetHealth
| GetStats
| DeleteClear.

Definition handle (ext : External) (srv : Server) (r : Request) : Server :=
  match r with
  | PostChat request => snd (chat ext request srv)
  | GetHealth => snd (health_check srv)
  | GetStats => snd (get_stats srv)
  | DeleteClear => snd (clear_conversation srv)
  end.

Definition serve (ext : External) (srv : Server) (rs : list Request)
    : Server :=
  fold_left (handle ext) rs srv.

End Api.

(* ------------------------------------------------------------------ *)
(** ** Sample data and services, for the worked examples *)

Module Sample.

Import Rag Api.

Definition balafon : Chunk.t :=
  {| Chunk.id := 1;
     Chunk.title := py "Les instruments traditionnels";
     Chunk.content := py "Le balafon est un instrument de percussion du Burkina Faso. Il accompagne les griots pendant les fêtes.";
     Chunk.source := py "culture.pdf - page 5";
     Chunk.category := py "culture";
     Chunk.word_count := 17;
     Chunk.metadata := [] |}.

Definition grenier : Chunk.t :=
  {| Chunk.id := 2;
     Chunk.title := py "Les greniers";
     Chunk.content := py "Le grenier en banco protège les récoltes de la famille pendant toute la saison sèche.";
     Chunk.source := py "habitat.pdf - page 2";
     Chunk.category := py "architecture";
     Chunk.word_count := 15;
     Chunk.metadata := [] |}.

(** Two documents that, between them, spell the text of the 'no
    information found' template. *)
Definition echo_docs : list doc :=
  [ {| content := py "Désolé, je n'ai pas trouvé d'information sur ce sujet dans ma base de données.";
       metadata := [] |};
    {| content := py "Posez-moi des questions sur la culture, l'histoire, les traditions ou l'architecture du Burkina Faso.";
       metadata := [] |} ].

(** A chunk whose text is white space only. *)
Definition blank : Chunk.t :=
  {| Chunk.id := 3;
     Chunk.title := py "Page vide";
     Chunk.content := py "   ";
     Chunk.source := py "scan.pdf - page 9";
     Chunk.category := py "culture";
     Chunk.word_count := 0;
     Chunk.metadata := [] |}.

Definition doc_of_entry (e : entry) : doc :=
  {| content := entry_document e; metadata := entry_metadata e |}.

(** A store that answers every query with the first [n] records of the
    collection, and refuses a number of results below one. *)
Definition store_first (_ : list event) (coll : list entry) (_ : pystr)
    (n : Z) : outcome (list doc) :=
  if (n <? 1)%Z then Raise (py "Number of requested results cannot be negative, or zero.")
  else Ok (map doc_of_entry (firstn (Z.to_nat n) coll)).

(** A store that answers every query with the first [n] records of the
    collection (none for a negative [n]) and never fails. *)
Definition store_steady (_ : list event) (coll : list entry) (_ : pystr)
    (n : Z) : outcome (list doc) :=
  Ok (map doc_of_entry (firstn (Z.to_nat n) coll)).

(** A store that is out of service. *)
Definition store_down (_ : list event) (_ : list entry) (_ : pystr)
    (_ : Z) : outcome (list doc) :=
  Raise (py "Connection refused").

(** [True] when an identifier comes twice. *)
Fixpoint repeated (ids : list pystr) : bool :=
  match ids with
  | [] => false
  | i :: rest => existsb (PyStr.eqb i) rest || repeated rest
  end.

(** A store that takes records as ChromaDB does: a batch in which an
    identifier comes twice is refused, and a record whose identifier is
    already held is left out. *)
Definition store_add (_ : list event) (held records : list entry)
    : outcome (list entry) :=
  if repeated (map entry_id records)
  then Raise (py "Expected IDs to be unique, found duplicates in add.")
  else
    Ok (held
          ++ filter
               (fun e =>
                  negb (existsb (PyStr.eqb (entry_id e))
                          (map entry_id held)))
               records).

Definition gemini_overloaded (_ : list event) (_ : pystr) : outcome pystr :=
  Raise (py "503 UNAVAILABLE. The model is overloaded.").

Definition gemini_answer (_ : list event) (_ : pystr) : outcome pystr :=
  Ok (py "  Le balafon est un xylophone traditionnel joué au Burkina Faso.  ").

Definition ext_overloaded : External :=
  {| chroma_query := store_first; generate_content := gemini_overloaded;
     chroma_add := store_add |}.

Definition ext_answering : External :=
  {| chroma_query := store_first; generate_content := gemini_answer;
     chroma_add := store_add |}.

Definition ext_steady : External :=
  {| chroma_query := store_steady; generate_content := gemini_overloaded;
     chroma_add := store_add |}.

Definition ext_down : External :=
  {| chroma_query := store_down; generate_content := gemini_overloaded;
     chroma_add := store_add |}.

Definition rag_of (client : bool) (chunks : list Chunk.t) : RAG :=
  {| corpus := chunks;
     collection := map entry_of_chunk chunks;
     gemini_api_key := if client then py "key" else [];
     gemini_client := client;
     hf_token := [];
     hf_api_url := [] |}.

Definition state_of (client : bool) (chunks : list Chunk.t) : state :=
  {| self := rag_of client chunks; trace := [] |}.

Definition server_of (client : bool) (chunks : list Chunk.t) : Server :=
  {| rag_system := Some (rag_of client chunks); calls := [] |}.

Definition request_of (q : pystr) : ChatRequest :=
  {| question := q; use_llm := Some false; n_results := Some 5%Z;
     conversation_history := Some [] |}.

End Sample.

(* ------------------------------------------------------------------ *)
(** ** Notions used in the statements *)

Import Rag Api.

(** [footprint P m]: running [m] leaves the object as it was, and every
    event it adds to the trace satisfies [P]. *)
Definition footprint {A} (P : event -> Prop) (m : M A) : Prop :=
  forall ext st,
    self (snd (m ext st)) = self st /\
    exists evs, trace (snd (m ext st)) = trace st ++ evs /\ Forall P evs.

(** Events that are queries to the store. *)
Definition is_query (e : event) : Prop :=
  match e with
  | EvQuery _ _ => True
  | _ => False
  end.

(** The events of one answer composition: queries to the store, and calls
    to the model with the given prompt. *)
Definition query_or_prompt (prompt : pystr) (e : event) : Prop :=
  match e with
  | EvQuery _ _ => True
  | EvGenerate p => p = prompt
  | EvAsk _ => False
  | EvAdd _ => False
  end.

(** [returns m]: [m] ends with a value, never with an exception. *)
Definition returns {A} (m : M A) : Prop :=
  forall ext st, exists a, fst (m ext st) = Ok a.

(** What [generate_answer_hf] returns once the Gemini step has ended
    without an answer. *)
Definition fallback_reply (ext : External) (st : state) (q : pystr)
    (context_docs : list doc) (gemini_error_message : option pystr)
    : outcome pystr :=
  let with_notice (intro_line answer : pystr) :=
    match gemini_error_message with
    | Some notice => notice ++ nl ++ nl ++ intro_line ++ nl ++ nl ++ answer
    | None => answer
    end in
  match context_docs with
  | _ :: _ =>
      Ok (with_notice found_in_database_notice
            (_fallback_answer context_docs q))
  | [] =>
      match fst (expanded_search general_terms [] ext st) with
      | Ok (d :: ds) =>
          Ok (with_notice general_information_notice
                (_fallback_answer (firstn 5 (d :: ds)) q))
      | Ok [] =>
          Ok (match gemini_error_message with
              | Some notice => notice ++ nl ++ nl
              | None => []
              end ++ apology_template)
      | Raise e => Raise e
      end
  end.

(** The five notices of the [except] clause of the Gemini call. *)
Definition error_notices : list pystr :=
  [ overloaded_notice; quota_notice; config_notice; network_notice;
    unavailable_notice ].

(** [passage s t]: [s] is a run of consecutive characters of [t]. *)
Definition passage (s t : pystr) : Prop :=
  exists before after, t = before ++ s ++ after.

(** The answer for a non-empty list of context documents, from the
    sentences kept. *)
Definition assembled_answer (first : doc) (intro : pystr)
    (sentences : list pystr) : pystr :=
  match sentences with
  | [] =>
      if 400 <? List.length (content first)
      then intro ++ strip (firstn 400 (content first)) ++ py "..."
      else intro ++ content first
  | _ :: _ => finish_answer intro sentences
  end.

(** *** Notions for the further properties *)

(** The category test of [search_documents] on one hit. *)
Definition passes_filter (culture_only : bool) (d : doc) : bool :=
  negb (culture_only && PyStr.eqb (category_of d) (py "architecture")).

(** The number of results [search_documents] asks the store for. *)
Definition fetch_size (query : pystr) (n_results : Z) : Z :=
  Z.min (if prefer_culture query || prefer_architecture query
         then n_results * 3 else n_results) 15.

(** The three queries of the widened search. *)
Definition widened_queries : list event :=
  map (fun term => EvQuery term 3%Z) general_terms.

Definition is_generate_event (e : event) : bool :=
  match e with
  | EvGenerate _ => true
  | _ => false
  end.

Definition is_query_event (e : event) : bool :=
  match e with
  | EvQuery _ _ => true
  | _ => false
  end.

(** An event that is not a query for more than 15 results. *)
Definition at_most_15_results (e : event) : Prop :=
  match e with
  | EvQuery _ n => (n <= 15)%Z
  | _ => True
  end.

(** The messages of the three [KeyError]s [ask] can raise. *)
Definition missing_key_messages : list pystr :=
  map py [ "'title'"; "'source'"; "'category'" ]%string.

(** The model is configured and its answer is kept: more than 30
    characters once stripped. *)
Definition model_answers (ext : External) (st : state) (prompt : pystr)
    : bool :=
  gemini_client (self st)
  && match generate_content ext (trace st) prompt with
     | Ok text => 30 <? List.length (strip text)
     | Raise _ => false
     end.

(** The body of the health endpoint on a server that is not initialised. *)
Definition health_uninitialised : HealthResponse :=
  {| status := py "error";
     message := py "RAG non initialisé";
     rag_initialized := false;
     health_total_documents := 0 |}.

(** A list of events with at most [models] calls to the model and at most
    [queries] queries to the store, none for more than 15 results. *)
Definition call_budget (models queries : nat) (evs : list event) : Prop :=
  List.length (filter is_generate_event evs) <= models
  /\ List.length (filter is_query_event evs) <= queries
  /\ Forall at_most_15_results evs.

(** [len(sentence.split())] *)
Definition word_count_of (sentence : pystr) : nat :=
  List.length (split_ws sentence).

(** What the two loops of [_fallback_answer] keep true of the sentences
    kept and of the running count of their words. *)
Definition kept_invariant (combined : list pystr) (total_words : nat)
    : Prop :=
  NoDup combined
  /\ Forall (fun s => 25 <= List.length s) combined
  /\ total_words = list_sum (map word_count_of combined)
  /\ total_words <= max_words.

(** [categories.get(cat, 0)] on the dictionary of the stats endpoint. *)
Fixpoint category_count (categories : list (pystr * Z)) (cat : pystr) : Z :=
  match categories with
  | [] => 0%Z
  | (k, n) :: r => if PyStr.eqb k cat then n else category_count r cat
  end.

(** The chunks of a corpus that carry the category [cat]. *)
Definition chunks_of_category (corpus : list Chunk.t) (cat : pystr)
    : list Chunk.t :=
  filter (fun d => PyStr.eqb (Chunk.category d) cat) corpus.

(** The file-name part of a chunk's source: what stands before " - ". *)
Definition source_file (d : Chunk.t) : pystr :=
  before_sep (Chunk.source d) (py " - ").

(** The order of [sorted] on strings. *)
Definition str_le (a b : pystr) : Prop := PyStr.leb a b = true.

(** A keyword that neither starts nor ends with white space. *)
Definition no_outer_space (kw : pystr) : bool :=
  match kw with
  | [] => false
  | c :: _ => negb (isspace c)
  end
  && match rev kw with
     | [] => false
     | c :: _ => negb (isspace c)
     end.

(** The test of [ask] for a greeting. *)
Definition is_greeting (question : pystr) : bool :=
  existsb (PyStr.eqb (strip (lower question))) simple_greetings.

(** The source [ask] shows for a document: its title, source and category,
    when its metadata has the three keys. *)
Definition source_ref_of (d : doc) : option source_ref :=
  match dict_get (metadata d) (py "title"),
        dict_get (metadata d) (py "source"),
        dict_get (metadata d) (py "category") with
  | Some t, Some s, Some c =>
      Some {| src_title := t; src_source := s; src_category := c |}
  | _, _, _ => None
  end.

(** The documents of the widened search: the hits of one query per term,
    in the order of the terms, a query that fails giving none.  [tr] is the
    record of the calls made before the first query. *)
Fixpoint widened_documents (ext : External) (coll : list entry)
    (tr : list event) (terms : list pystr) : list doc :=
  match terms with
  | [] => []
  | term :: rest =>
      returned_documents (chroma_query ext tr coll term 3%Z)
        ++ widened_documents ext coll (tr ++ [EvQuery term 3%Z]) rest
  end.

(** The document the store holds for a record: its text and its
    metadata. *)
Definition doc_of_record (e : entry) : doc :=
  {| content := entry_document e; metadata := entry_metadata e |}.


(** A record as the indexer writes it. *)
Definition indexer_record (e : entry) : Prop :=
  exists chunk, e = entry_of_chunk chunk.

(** A store in working order for the indexer: it takes every batch of 1
    to 10 records written by the indexer whose identifiers are distinct
    and new to the collection, and holds them afterwards, after the
    records it held.  Nothing is asked of it for any other batch. *)
Definition store_accepts (ext : External) : Prop :=
  forall tr held records,
    1 <= List.length records <= 10 ->
    Forall indexer_record records ->
    NoDup (map entry_id (held ++ records)) ->
    chroma_add ext tr held records = Ok (held ++ records).

(** The record of a chunk: its identifier, its text and the three
    metadata keys that [ask] reads. *)
Definition record_of (chunk : Chunk.t) (e : entry) : Prop :=
  entry_id e = py "doc_" ++ str_of_Z (Chunk.id chunk)
  /\ content (doc_of_record e) = Chunk.content chunk
  /\ source_ref_of (doc_of_record e)
     = Some {| src_title := Chunk.title chunk;
               src_source := Chunk.source chunk;
               src_category := Chunk.category chunk |}.

(* ------------------------------------------------------------------ *)
(** ** The model on concrete inputs *)

Module Examples.

Import Sample.

Example lower_accents :
  lower (py "Œuvre de l'ÉTÉ à Ouagadougou")
  = py "œuvre de l'été à ouagadougou".
Proof. vm_compute. reflexivity. Qed.

(** Capitals outside the Latin blocks, and the final sigma. *)
Example lower_beyond_latin :
  lower [8490; 79; 82; 65]%N = py "kora"
  /\ lower (py "ΟΔΟΣ ΣΟΦΟΣ") = py "οδος σοφος"
  /\ lower (py "İstanbul") = [105; 775]%N ++ py "stanbul".
Proof. vm_compute. repeat split. Qed.

Example strip_both_ends :
  strip (py "  Bonjour le monde  ") = py "Bonjour le monde".
Proof. vm_compute. reflexivity. Qed.

(** The terminator and the white space after it are dropped; a terminator
    that no white space follows stays inside its piece. *)
Example split_sentences :
  re_split_sentences
    (py "Le FESPACO a lieu à Ouagadougou. Quand ?  Tous les deux ans! Voir p.12")
  = map py [ "Le FESPACO a lieu à Ouagadougou"; "Quand ";
             "Tous les deux ans"; "Voir p.12" ]%string.
Proof. vm_compute. reflexivity. Qed.

Example split_words :
  split_ws (py " le  balafon chante ")
  = map py [ "le"; "balafon"; "chante" ]%string.
Proof. vm_compute. reflexivity. Qed.

Example slices :
  slice_m7_m1 [1; 2; 3; 4; 5; 6; 7; 8; 9] = [3; 4; 5; 6; 7; 8]
  /\ slice_m7_m1 [1; 2] = [1]
  /\ slice_to (-1) [1; 2; 3] = [1; 2]
  /\ slice_to 2 [1; 2; 3] = [1; 2].
Proof. vm_compute. auto. Qed.

Example context_of_two_documents :
  context_of [ doc_of_entry (entry_of_chunk balafon);
               doc_of_entry (entry_of_chunk grenier) ]
  = lines
      [ py "Document 1:";
        Chunk.content balafon;
        [];
        py "Document 2:";
        Chunk.content grenier ].
Proof. vm_compute. reflexivity. Qed.

(** The current question, last in the history, is left out. *)
Example history_of_three_turns :
  history_text_of
    [ [ (py "role", py "user"); (py "content", py "Bonjour") ];
      [ (py "role", py "assistant"); (py "content", py "Bonjour !") ];
      [ (py "role", py "user"); (py "content", py "Et le SIAO ?") ] ]
  = lines [ py "Utilisateur: Bonjour"; py "Assistant: Bonjour !" ].
Proof. vm_compute. reflexivity. Qed.

Example fallback_answer_of_one_document :
  _fallback_answer [ doc_of_entry (entry_of_chunk balafon) ]
    (py "Qu'est-ce que le balafon ?")
  = py "Voici ce que je peux vous dire : Le balafon est un instrument de percussion du Burkina Faso Il accompagne les griots pendant les fêtes.".
Proof. vm_compute. reflexivity. Qed.

(** A cultural question: the architecture record, first in the collection,
    is filtered out, the model answers, and the source is listed. *)
Example ask_about_the_balafon :
  fst (ask (py "Qu'est-ce que le balafon ?") true None ext_answering
         (state_of true [grenier; balafon]))
  = Ok {| res_question := py "Qu'est-ce que le balafon ?";
          res_answer :=
            py "Le balafon est un xylophone traditionnel joué au Burkina Faso."
              ++ sources_header ++ py "- culture.pdf - page 5";
          res_sources :=
            [ {| src_title := py "Les instruments traditionnels";
                 src_source := py "culture.pdf - page 5";
                 src_category := py "culture" |} ] |}.
Proof. vm_compute. reflexivity. Qed.

Example stats_of_three_chunks :
  fst (get_stats (server_of true [grenier; balafon; blank]))
  = Http200 {| total_documents := 3;
               categories := [ (py "architecture", 1%Z); (py "culture", 2%Z) ];
               sources := map py [ "culture.pdf"; "habitat.pdf";
                                   "scan.pdf" ]%string |}.
Proof. vm_compute. reflexivity. Qed.

(** A corpus file in which two chunks of one batch have the same number:
    the store refuses the batch, [__init__] raises and the server stays
    uninitialised. *)
Example startup_with_repeated_identifier :
  startup_event ext_steady (Some [balafon; balafon]) None [] [] false initial
  = (Raise (py "Expected IDs to be unique, found duplicates in add."),
     {| rag_system := None;
        calls := [EvAdd (map entry_of_chunk [balafon; balafon])] |}).
Proof. vm_compute. reflexivity. Qed.

(** A chunk with the number [i]. *)
Definition numbered (i : Z) : Chunk.t :=
  {| Chunk.id := i;
     Chunk.title := py "Fiche";
     Chunk.content := py "Une fiche du corpus.";
     Chunk.source := py "fiches.pdf - page 1";
     Chunk.category := py "culture";
     Chunk.word_count := 4;
     Chunk.metadata := [] |}.

(** Eleven chunks of which the last has the number of the first: the
    second batch is taken, its record is left out, and the collection
    holds ten records for a corpus of eleven chunks. *)
Example startup_with_identifier_already_held :
  let eleven := map numbered [1; 2; 3; 4; 5; 6; 7; 8; 9; 10; 1]%Z in
  let run := init (Some eleven) None [] [] false ext_steady
               (state_of false []) in
  fst run = Ok tt
  /\ List.length (corpus (self (snd run))) = 11
  /\ List.length (collection (self (snd run))) = 10.
Proof. vm_compute. repeat split. Qed.

End Examples.

(* ------------------------------------------------------------------ *)
(** ** Facts about the string operations *)

Module PyStrFacts.

Lemma eqb_eq (a b : pystr) : PyStr.eqb a b = true <-> a = b.
Proof.
  unfold PyStr.eqb. destruct (list_eq_dec N.eq_dec a b); split; congruence.
Qed.

Lemma eqb_refl (a : pystr) : PyStr.eqb a a = true.
Proof. now apply eqb_eq. Qed.

Lemma existsb_eqb_In (x : pystr) (l : list pystr) :
  existsb (PyStr.eqb x) l = true <-> In x l.
Proof.
  rewrite existsb_exists. split.
  - intros (y & Hy & E). apply eqb_eq in E. now subst.
  - intros H. exists x. split; [assumption | apply eqb_refl].
Qed.

Lemma has_text_app (a b : pystr) :
  has_text (a ++ b) = has_text a || has_text b.
Proof. apply existsb_app. Qed.

Lemma has_text_rev (s : pystr) : has_text (rev s) = has_text s.
Proof.
  unfold has_text. induction s as [|c s IH]; simpl; [reflexivity|].
  rewrite existsb_app, IH. simpl. rewrite orb_false_r. apply orb_comm.
Qed.

Lemma has_text_lstrip (s : pystr) : has_text (lstrip s) = has_text s.
Proof.
  induction s as [|c s IH]; simpl; [reflexivity|].
  destruct (isspace c) eqn:E; simpl; [exact IH | now rewrite E].
Qed.

Lemma has_text_strip (s : pystr) : has_text (strip s) = has_text s.
Proof.
  unfold strip, rstrip.
  now rewrite has_text_rev, has_text_lstrip, has_text_rev, has_text_lstrip.
Qed.

Lemma lstrip_nonempty (s : pystr) : lstrip s <> [] -> has_text s = true.
Proof.
  induction s as [|c s IH]; simpl; [congruence|].
  destruct (isspace c) eqn:E; simpl; [exact IH | reflexivity].
Qed.

Lemma has_text_nonempty (s : pystr) : has_text s = true -> s <> [].
Proof. destruct s; simpl; congruence. Qed.

Lemma strip_nonempty_iff (s : pystr) : strip s <> [] <-> has_text s = true.
Proof.
  split.
  - intros H. unfold strip, rstrip in H.
    assert (H1 : lstrip (rev (lstrip s)) <> []).
    { intros E. apply H. now rewrite E. }
    apply lstrip_nonempty in H1.
    now rewrite has_text_rev, has_text_lstrip in H1.
  - intros H. apply has_text_nonempty. now rewrite has_text_strip.
Qed.

Lemma nonempty_strip_has_text (s : pystr) :
  0 < List.length (strip s) -> has_text (strip s) = true.
Proof.
  intros H. rewrite has_text_strip. apply strip_nonempty_iff.
  destruct (strip s); simpl in H; [lia | congruence].
Qed.

End PyStrFacts.

Import PyStrFacts.

(* ------------------------------------------------------------------ *)
(** ** What a method touches *)

Section Footprint.

Variable P : event -> Prop.

Lemma footprint_ret {A} (a : A) : footprint P (ret a).
Proof.
  intros ext st. split; [reflexivity|].
  exists []. now rewrite app_nil_r.
Qed.

Lemma footprint_raise {A} (e : pystr) : footprint P (@raise A e).
Proof.
  intros ext st. split; [reflexivity|].
  exists []. now rewrite app_nil_r.
Qed.

Lemma footprint_get_self : footprint P get_self.
Proof.
  intros ext st. split; [reflexivity|].
  exists []. now rewrite app_nil_r.
Qed.

Lemma footprint_emit (e : event) : P e -> footprint P (emit e).
Proof.
  intros He ext st. split; [reflexivity|].
  exists [e]. split; [reflexivity | now constructor].
Qed.

Lemma footprint_query (text : pystr) (n : Z) :
  P (EvQuery text n) -> footprint P (collection_query text n).
Proof.
  intros He ext st. split; [reflexivity|].
  exists [EvQuery text n]. split; [reflexivity | now constructor].
Qed.

Lemma footprint_generate (prompt : pystr) :
  P (EvGenerate prompt) -> footprint P (gemini_generate prompt).
Proof.
  intros He ext st. split; [reflexivity|].
  exists [EvGenerate prompt]. split; [reflexivity | now constructor].
Qed.

Lemma footprint_bind {A B} (m : M A) (k : A -> M B) :
  footprint P m -> (forall a, footprint P (k a)) -> footprint P (bind m k).
Proof.
  intros Hm Hk ext st. unfold bind.
  destruct (Hm ext st) as (Hs & evs & Ht & Hp).
  destruct (m ext st) as [[a|e] st1]; simpl in *.
  - destruct (Hk a ext st1) as (Hs' & evs' & Ht' & Hp').
    split; [congruence|].
    exists (evs ++ evs'). split.
    + rewrite Ht', Ht. now rewrite app_assoc.
    + now apply Forall_app.
  - split; [assumption|]. now exists evs.
Qed.

Lemma footprint_try {A} (m : M A) (h : pystr -> M A) :
  footprint P m -> (forall e, footprint P (h e)) ->
  footprint P (try_except m h).
Proof.
  intros Hm Hh ext st. unfold try_except.
  destruct (Hm ext st) as (Hs & evs & Ht & Hp).
  destruct (m ext st) as [[a|e] st1]; simpl in *.
  - split; [assumption|]. now exists evs.
  - destruct (Hh e ext st1) as (Hs' & evs' & Ht' & Hp').
    split; [congruence|].
    exists (evs ++ evs'). split.
    + rewrite Ht', Ht. now rewrite app_assoc.
    + now apply Forall_app.
Qed.

End Footprint.

Lemma footprint_weaken {A} (P Q : event -> Prop) (m : M A) :
  (forall e, P e -> Q e) -> footprint P m -> footprint Q m.
Proof.
  intros HPQ Hm ext st. destruct (Hm ext st) as (Hs & evs & Ht & Hp).
  split; [assumption|]. exists evs. split; [assumption|].
  eapply Forall_impl; eauto.
Qed.

Create HintDb footprint.
#[export] Hint Resolve footprint_ret footprint_raise footprint_get_self
  footprint_emit footprint_query footprint_generate : footprint.

(** One step of a footprint proof: split a bind or a [try], or take the
    branch a conditional chooses. *)
Ltac footprint_step :=
  match goal with
  | |- footprint _ (bind _ _) => apply footprint_bind; [|intro]
  | |- footprint _ (try_except _ _) => apply footprint_try; [|intro]
  | |- footprint _ (if ?b then _ else _) => destruct b
  | |- footprint _ (match ?x with _ => _ end) => destruct x
  | |- footprint _ (collection_query _ _) =>
      apply footprint_query; simpl; solve [auto]
  | |- footprint _ (gemini_generate _) =>
      apply footprint_generate; simpl; solve [auto]
  | |- footprint _ (emit _) => apply footprint_emit; simpl; solve [auto]
  | |- footprint _ _ => solve [auto with footprint]
  end.

Ltac footprint_auto := intros; repeat footprint_step.

Lemma footprint_search_documents (query : pystr) (n : Z) :
  footprint is_query (search_documents query n).
Proof. unfold search_documents. footprint_auto; simpl; auto. Qed.

Lemma footprint_expanded_search (terms : list pystr) :
  forall acc, footprint is_query (expanded_search terms acc).
Proof.
  induction terms as [|t terms IH]; intros acc; simpl.
  - footprint_auto.
  - apply footprint_bind; [|intro; apply IH].
    footprint_auto; simpl; auto.
Qed.

Lemma footprint_call_gemini (prompt : pystr) :
  footprint (query_or_prompt prompt) (call_gemini prompt).
Proof. unfold call_gemini. footprint_auto; simpl; auto. Qed.

Lemma is_query_query_or_prompt (prompt : pystr) (e : event) :
  is_query e -> query_or_prompt prompt e.
Proof. destruct e; simpl; tauto. Qed.

Lemma footprint_generate_answer_hf (question : pystr) (docs : list doc)
    (history : option (list dict)) :
  footprint
    (query_or_prompt
       (build_prompt question docs
          (history_or_empty history)))
    (generate_answer_hf question docs history).
Proof.
  unfold generate_answer_hf.
  apply footprint_bind; [apply footprint_call_gemini|].
  intros step. destruct step as [answer|notice].
  - footprint_auto.
  - destruct (negb (is_empty docs)).
    + footprint_auto.
    + apply footprint_bind.
      * eapply footprint_weaken;
          [apply is_query_query_or_prompt | apply footprint_expanded_search].
      * footprint_auto.
Qed.

Lemma footprint_metadata_item (P : event -> Prop) (d : doc) (k : pystr) :
  footprint P (metadata_item d k).
Proof. unfold metadata_item. footprint_auto. Qed.

Lemma footprint_sources_of (P : event -> Prop) (docs : list doc) :
  footprint P (sources_of docs).
Proof.
  induction docs as [|d docs IH]; simpl.
  - footprint_auto.
  - repeat (apply footprint_bind; [try apply footprint_metadata_item|intro]);
      try assumption.
    footprint_auto.
Qed.

(** [ask] after its announcement: everything that follows the first
    statement. *)
Lemma footprint_ask_body (q : pystr) (history : option (list dict))
    (greeting : bool) (found : ask_result) :
  footprint (fun _ => True)
    (if greeting then ret found
     else
       docs <- (if _needs_database_search q
                then search_documents q 5 else ret []) ;;
       answer <- generate_answer_hf q docs history ;;
       sources <- (if _needs_database_search q && negb (is_empty docs)
                   then sources_of (firstn 3 docs) else ret []) ;;
       ret {| res_question := q;
              res_answer :=
                match sources with
                | [] => strip answer
                | _ :: _ =>
                    strip answer ++ sources_header
                      ++ join nl (map source_line sources)
                end;
              res_sources := sources |}).
Proof.
  destruct greeting; [footprint_auto|].
  apply footprint_bind.
  { destruct (_needs_database_search q); [|footprint_auto].
    eapply footprint_weaken; [|apply footprint_search_documents]. trivial. }
  intros docs. apply footprint_bind.
  { eapply footprint_weaken; [|apply footprint_generate_answer_hf]. trivial. }
  intros answer. apply footprint_bind.
  { destruct (_ && _); [apply footprint_sources_of | footprint_auto]. }
  footprint_auto.
Qed.

Lemma footprint_ask (question : pystr) (use_llm : bool)
    (history : option (list dict)) :
  footprint (fun _ => True) (ask question use_llm history).
Proof.
  unfold ask.
  apply footprint_bind; [apply footprint_emit; exact I|]. intros _.
  apply footprint_ask_body.
Qed.

(** Every invocation of [ask] shows in the trace: the announcement of the
    question is the first event it adds. *)
Lemma ask_announces ext st q llm history :
  exists evs,
    trace (snd (ask q llm history ext st)) = trace st ++ EvAsk q :: evs.
Proof.
  unfold ask, bind at 1, emit. cbv beta iota.
  match goal with
  | |- context [snd (?body ext ?st0)] =>
      destruct (footprint_ask_body q history
                  (existsb (PyStr.eqb (strip (lower q))) simple_greetings)
                  {| res_question := q; res_answer := greeting_answer;
                     res_sources := [] |} ext st0) as (_ & evs & Ht & _)
  end.
  exists evs. rewrite Ht. cbn [trace]. now rewrite <- app_assoc.
Qed.

(* ------------------------------------------------------------------ *)
(** ** The query path is read-only *)

Lemma ask_keeps_self ext st q llm history :
  self (snd (ask q llm history ext st)) = self st.
Proof. apply (footprint_ask q llm history ext st). Qed.

Lemma chat_keeps_rag_system ext request srv :
  rag_system (snd (chat ext request srv)) = rag_system srv.
Proof.
  unfold chat. destruct (rag_system srv) as [rag|] eqn:Hrag; [|exact Hrag].
  destruct (_ || _); [exact Hrag|].
  pose proof (ask_keeps_self ext {| self := rag; trace := calls srv |}
                (question request)
                (match use_llm request with Some b => b | None => false end)
                (conversation_history request)) as H.
  destruct (ask _ _ _ ext _) as [[result|e] st']; simpl in *; now rewrite H.
Qed.

Lemma handle_keeps_rag_system ext srv r :
  rag_system (handle ext srv r) = rag_system srv.
Proof.
  destruct r; simpl; try reflexivity.
  - apply chat_keeps_rag_system.
  - unfold get_stats. destruct (rag_system srv) eqn:E; exact E.
Qed.

Lemma serve_keeps_rag_system ext rs :
  forall srv, rag_system (serve ext srv rs) = rag_system srv.
Proof.
  unfold serve. induction rs as [|r rs IH]; intros srv; simpl.
  - reflexivity.
  - rewrite IH. apply handle_keeps_rag_system.
Qed.

(** C5.  Conversation history lives for one request only: after [ask] the
    object is exactly the object before the call, whatever history the
    caller supplied, so no turn is stored on it; the chat endpoint leaves
    the global RAG system as it found it; and the history-clear endpoint
    answers "success" in every state of the server and changes nothing of
    that state. *)
Theorem conversation_history_not_persisted :
  forall ext st srv request q llm history,
    self (snd (ask q llm history ext st)) = self st
    /\ rag_system (snd (chat ext request srv)) = rag_system srv
    /\ clear_status (fst (clear_conversation srv)) = py "success"
    /\ snd (clear_conversation srv) = srv.
Proof.
  intros. split; [apply ask_keeps_self|].
  split; [apply chat_keeps_rag_system|]. split; reflexivity.
Qed.

(** C6.  The query path is read-only: [search_documents],
    [generate_answer_hf] and [ask] each leave the loaded corpus and the
    indexed collection identical ([_fallback_answer] is a function of its
    two arguments and has no access to either), and so does any sequence
    of requests handled by the server. *)
Theorem query_path_read_only :
  forall ext st srv requests query n q docs llm history,
    let unchanged (st' : state) :=
      corpus (self st') = corpus (self st)
      /\ collection (self st') = collection (self st) in
    unchanged (snd (search_documents query n ext st))
    /\ unchanged (snd (generate_answer_hf q docs history ext st))
    /\ unchanged (snd (ask q llm history ext st))
    /\ rag_system (serve ext srv requests) = rag_system srv.
Proof.
  intros. subst unchanged. cbv beta.
  destruct (footprint_search_documents query n ext st) as [H1 _].
  destruct (footprint_generate_answer_hf q docs history ext st)
    as [H2 _].
  rewrite H1, H2, ask_keeps_self.
  repeat split. apply serve_keeps_rag_system.
Qed.

(* ------------------------------------------------------------------ *)
(** ** Initialisation *)

Section Initialisation.

Local Arguments firstn : simpl never.
Local Arguments skipn : simpl never.

Lemma collection_add_keeps records ext st :
  corpus (self (snd (collection_add records ext st))) = corpus (self st)
  /\ gemini_client (self (snd (collection_add records ext st)))
     = gemini_client (self st)
  /\ trace (snd (collection_add records ext st))
     = trace st ++ [EvAdd records].
Proof.
  unfold collection_add. cbv zeta.
  destruct (chroma_add ext (trace st) (collection (self st)) records);
    repeat split.
Qed.

Lemma index_batches_keeps rounds :
  forall remaining ext st,
    corpus (self (snd (index_batches rounds remaining ext st)))
    = corpus (self st)
    /\ gemini_client (self (snd (index_batches rounds remaining ext st)))
       = gemini_client (self st).
Proof.
  induction rounds as [|rounds IH]; intros remaining ext st;
    cbn [index_batches]; [split; reflexivity|].
  destruct remaining as [|d remaining]; [split; reflexivity|].
  cbv zeta. unfold bind.
  destruct (collection_add_keeps
              (map entry_of_chunk (firstn batch_size (d :: remaining)))
              ext st) as (E1 & E2 & _).
  destruct (collection_add _ ext st) as [[u|e] st1]; cbn [snd] in *.
  - destruct (IH (skipn batch_size (d :: remaining)) ext st1) as [H1 H2].
    rewrite H1, H2. now split.
  - now split.
Qed.

(** The batches handed to the store, whatever the store does: they are
    the records of the chunks, in order, in batches of 1 to 10, up to the
    batch the store refuses. *)
Lemma index_batches_sent rounds :
  forall remaining ext st,
    List.length remaining <= rounds ->
    exists sent rest,
      trace (snd (index_batches rounds remaining ext st))
      = trace st ++ map EvAdd sent
      /\ map entry_of_chunk remaining = List.concat sent ++ rest
      /\ Forall (fun b => 1 <= List.length b <= 10) sent
      /\ match fst (index_batches rounds remaining ext st) with
         | Ok _ => rest = []
         | Raise e =>
             exists before last tr held,
               sent = before ++ [last]
               /\ chroma_add ext tr held last = Raise e
         end.
Proof.
  induction rounds as [|rounds IH]; intros remaining ext st Hlen;
    cbn [index_batches].
  - destruct remaining; [|cbn in Hlen; lia].
    exists [], []. cbn. rewrite app_nil_r. repeat split. constructor.
  - destruct remaining as [|d remaining].
    { exists [], []. cbn. rewrite app_nil_r. repeat split. constructor. }
    cbv zeta. unfold bind.
    set (batch := firstn batch_size (d :: remaining)).
    assert (Hbatch : 1 <= List.length (map entry_of_chunk batch) <= 10).
    { subst batch. rewrite length_map, length_firstn. unfold batch_size.
      cbn [List.length]. lia. }
    assert (Hsplit : map entry_of_chunk (d :: remaining)
                     = map entry_of_chunk batch
                         ++ map entry_of_chunk
                              (skipn batch_size (d :: remaining))).
    { subst batch. rewrite <- map_app. now rewrite firstn_skipn. }
    unfold collection_add. cbv zeta.
    destruct (chroma_add ext (trace st) (collection (self st))
                (map entry_of_chunk batch)) as [held|e] eqn:Eadd.
    + match goal with
      | |- context [index_batches rounds ?r ext ?s] =>
          destruct (IH r ext s) as (sent & rest & Ht & Hc & Hf & Hm)
      end.
      { rewrite length_skipn. unfold batch_size. cbn [List.length] in *.
        lia. }
      exists (map entry_of_chunk batch :: sent), rest.
      split; [|split; [|split]].
      * rewrite Ht. cbn [trace map]. now rewrite <- app_assoc.
      * rewrite Hsplit, Hc. cbn [List.concat]. now rewrite app_assoc.
      * now constructor.
      * match goal with
        | |- context [index_batches rounds ?r ext ?s] =>
            destruct (fst (index_batches rounds r ext s)) as [u|e']
        end; [exact Hm|].
        destruct Hm as (before & last & tr & h & -> & Hr).
        exists (map entry_of_chunk batch :: before), last, tr, h.
        split; [reflexivity | exact Hr].
    + exists [map entry_of_chunk batch],
        (map entry_of_chunk (skipn batch_size (d :: remaining))).
      cbn [fst snd trace map List.concat]. rewrite app_nil_r.
      split; [reflexivity|]. split; [exact Hsplit|].
      split; [constructor; [exact Hbatch | constructor]|].
      exists [], (map entry_of_chunk batch), (trace st),
        (collection (self st)).
      split; [reflexivity | exact Eadd].
Qed.


Lemma setup_collection_found found ext st :
  fst (_setup_collection (Some found) ext st) = Ok tt
  /\ collection (self (snd (_setup_collection (Some found) ext st)))
     = found
  /\ trace (snd (_setup_collection (Some found) ext st)) = trace st.
Proof. repeat split. Qed.





End Initialisation.

(* ------------------------------------------------------------------ *)
(** ** Greetings and short questions *)

(** C10.  A question whose lowercased, stripped text is one of the simple
    greeting words gets the fixed greeting and no sources, and the only
    thing [ask] does is announce the question: the trace gains no query to
    the store and no call to the model. *)
Theorem ask_greeting_is_direct :
  forall ext st q llm history,
    In (strip (lower q)) simple_greetings ->
    ask q llm history ext st
    = (Ok {| res_question := q;
             res_answer := greeting_answer;
             res_sources := [] |},
       {| self := self st; trace := trace st ++ [EvAsk q] |}).
Proof.
  intros ext st q llm history Hin.
  apply existsb_eqb_In in Hin.
  unfold ask, bind, emit. cbv beta iota zeta. now rewrite Hin.
Qed.

Lemma ask_greeting_is_direct_witness :
  In (strip (lower (py "  Bonjour "))) simple_greetings
  /\ ask (py "  Bonjour ") true None Sample.ext_down
        (Sample.state_of true [Sample.balafon])
     = (Ok {| res_question := py "  Bonjour ";
              res_answer := greeting_answer;
              res_sources := [] |},
        {| self := Sample.rag_of true [Sample.balafon];
           trace := [EvAsk (py "  Bonjour ")] |}).
Proof.
  assert (H : In (strip (lower (py "  Bonjour "))) simple_greetings).
  { vm_compute. left. reflexivity. }
  split; [exact H|].
  exact (ask_greeting_is_direct Sample.ext_down
           (Sample.state_of true [Sample.balafon]) (py "  Bonjour ") true
           None H).
Defined.

Lemma short_question_test (q : pystr) :
  List.length (strip q) < 3 ->
  is_empty q || (List.length (strip q) <? 3) = true.
Proof.
  intros H. apply orb_true_iff. right. now apply Nat.ltb_lt.
Qed.

(** C9, as the code has it.  A request whose stripped question is shorter
    than 3 characters is rejected without [ask] being invoked: the server,
    its trace included, is left untouched, whereas every invocation of
    [ask] adds its announcement to the trace ([ask_announces]).  The status
    is 400 when the RAG system is initialised; the test for an
    uninitialised system comes first, and answers 503. *)
Theorem chat_rejects_short_question :
  forall ext request srv,
    List.length (strip (question request)) < 3 ->
    chat ext request srv
    = (match rag_system srv with
       | Some _ => HTTPException 400 (py "Question trop courte")
       | None => HTTPException 503 (py "Système RAG non initialisé")
       end, srv).
Proof.
  intros ext request srv H. unfold chat.
  destruct (rag_system srv); [|reflexivity].
  now rewrite short_question_test.
Qed.

Lemma chat_rejects_short_question_witness :
  List.length (strip (question (Sample.request_of (py " hi ")))) < 3
  /\ chat Sample.ext_answering (Sample.request_of (py " hi "))
        (Sample.server_of true [Sample.balafon])
     = (HTTPException 400 (py "Question trop courte"),
        Sample.server_of true [Sample.balafon]).
Proof.
  assert (H : List.length (strip (question (Sample.request_of (py " hi "))))
              < 3).
  { vm_compute. lia. }
  split; [exact H|].
  exact (chat_rejects_short_question Sample.ext_answering
           (Sample.request_of (py " hi "))
           (Sample.server_of true [Sample.balafon]) H).
Defined.

(** C9 as stated fails: before [startup_event] has set the global, a
    one-letter question is answered with status 503, not 400. *)
Lemma chat_short_question_not_always_400 :
  List.length (strip (question (Sample.request_of (py "a")))) < 3
  /\ fst (chat Sample.ext_answering (Sample.request_of (py "a")) initial)
     = HTTPException 503 (py "Système RAG non initialisé")
  /\ forall detail,
       fst (chat Sample.ext_answering (Sample.request_of (py "a")) initial)
       <> HTTPException 400 detail.
Proof.
  split; [vm_compute; lia|]. split; [reflexivity|].
  intros detail. simpl. discriminate.
Qed.

(* ------------------------------------------------------------------ *)
(** ** search_documents *)

Lemma keep_documents_Forall (Q : doc -> Prop) culture_only n hits :
  forall documents,
    Forall Q documents ->
    (forall d, In d hits ->
       culture_only && PyStr.eqb (category_of d) (py "architecture") = false ->
       Q d) ->
    Forall Q (keep_documents culture_only n hits documents).
Proof.
  induction hits as [|d hits IH]; intros documents Hdocs Hhits; simpl.
  - assumption.
  - fold (category_of d).
    destruct (culture_only && PyStr.eqb (category_of d) (py "architecture"))
      eqn:E.
    + apply IH; [assumption|]. intros d' Hin. apply Hhits. now right.
    + assert (Hd : Forall Q (documents ++ [d])).
      { apply Forall_app. split; [assumption|].
        constructor; [|constructor]. apply Hhits; [now left | assumption]. }
      destruct (n <=? _)%Z; [assumption|].
      apply IH; [assumption|]. intros d' Hin. apply Hhits. now right.
Qed.

Lemma keep_documents_length culture_only n hits :
  forall documents,
    (Z.of_nat (List.length (keep_documents culture_only n hits documents))
     <= Z.max n (Z.of_nat (List.length documents) + 1))%Z.
Proof.
  induction hits as [|d hits IH]; intros documents; simpl.
  - lia.
  - destruct (culture_only && _); [apply IH|].
    destruct (Z.leb_spec n (Z.of_nat (List.length (documents ++ [d]))))
      as [Hle|Hlt].
    + rewrite length_app in *. simpl in *. lia.
    + specialize (IH (documents ++ [d])).
      rewrite length_app in *. simpl in *. lia.
Qed.

Lemma Forall_firstn {A} (Q : A -> Prop) (n : nat) (l : list A) :
  Forall Q l -> Forall Q (firstn n l).
Proof.
  intros H. rewrite <- (firstn_skipn n l) in H.
  now apply Forall_app in H.
Qed.

Lemma slice_to_Forall {A} (Q : A -> Prop) (n : Z) (l : list A) :
  Forall Q l -> Forall Q (slice_to n l).
Proof. unfold slice_to. destruct (n <? 0)%Z; apply Forall_firstn. Qed.

Lemma slice_to_length {A} (n : Z) (l : list A) :
  (Z.of_nat (List.length l) <= Z.max n 1)%Z ->
  List.length (slice_to n l) <= Z.to_nat n.
Proof.
  intros H. unfold slice_to.
  destruct (Z.ltb_spec n 0); rewrite length_firstn; lia.
Qed.

(** What [search_documents] returns, in terms of the answer of the store. *)
Lemma search_documents_run ext st query n :
  fst (search_documents query n ext st)
  = match
      chroma_query ext (trace st) (collection (self st)) query
        (Z.min (if prefer_culture query || prefer_architecture query
                then n * 3 else n) 15)
    with
    | Ok results =>
        Ok (slice_to n
              (keep_documents
                 (prefer_culture query && negb (prefer_architecture query))
                 n results []))
    | Raise e => Raise e
    end.
Proof.
  unfold search_documents, bind, collection_query, ret.
  cbv beta iota zeta. now destruct (chroma_query _ _ _ _ _).
Qed.

(** C2.  Category-aware filtering: when the question (lowercased, as the
    keyword test reads it) contains a cultural keyword and no architectural
    keyword, no document returned by [search_documents] has the category
    'architecture'. *)
Theorem search_documents_excludes_architecture :
  forall ext st query n,
    any_in cultural_keywords (lower query) = true ->
    any_in architectural_keywords (lower query) = false ->
    Forall (fun d => category_of d <> py "architecture")
           (returned_documents (fst (search_documents query n ext st))).
Proof.
  intros ext st query n Hc Ha. rewrite search_documents_run.
  unfold prefer_culture, prefer_architecture. rewrite Hc, Ha.
  destruct (chroma_query _ _ _ _ _) as [results|e]; [|constructor].
  cbn [returned_documents negb andb].
  apply slice_to_Forall. apply keep_documents_Forall; [constructor|].
  intros d _ E. cbn [andb] in E. intros Heq. apply eqb_eq in Heq. congruence.
Qed.

Lemma search_documents_excludes_architecture_witness :
  any_in cultural_keywords (lower (py "Qui sont les Griots ?")) = true
  /\ any_in architectural_keywords (lower (py "Qui sont les Griots ?")) = false
  /\ returned_documents
       (fst (search_documents (py "Qui sont les Griots ?") 5
               Sample.ext_answering
               (Sample.state_of true [Sample.grenier; Sample.balafon])))
     = [Sample.doc_of_entry (entry_of_chunk Sample.balafon)]
  /\ Forall (fun d => category_of d <> py "architecture")
       (returned_documents
          (fst (search_documents (py "Qui sont les Griots ?") 5
                  Sample.ext_answering
                  (Sample.state_of true [Sample.grenier; Sample.balafon])))).
Proof.
  assert (Hc : any_in cultural_keywords (lower (py "Qui sont les Griots ?"))
               = true) by (vm_compute; reflexivity).
  assert (Ha : any_in architectural_keywords
                 (lower (py "Qui sont les Griots ?")) = false)
    by (vm_compute; reflexivity).
  split; [exact Hc|]. split; [exact Ha|].
  split; [vm_compute; reflexivity|].
  exact (search_documents_excludes_architecture Sample.ext_answering
           (Sample.state_of true [Sample.grenier; Sample.balafon])
           (py "Qui sont les Griots ?") 5 Hc Ha).
Defined.

(* ------------------------------------------------------------------ *)
(** ** The prompt *)

Lemma context_blocks_truncate (docs : list doc) :
  forall i,
    map context_block (enumerate_from i (map truncate_doc docs))
    = map context_block (enumerate_from i docs).
Proof.
  induction docs as [|d docs IH]; intros i; [reflexivity|].
  cbn [map enumerate_from]. rewrite IH. f_equal.
  unfold context_block, truncate_doc. cbn [fst snd content].
  now rewrite firstn_firstn, Nat.min_id.
Qed.

Lemma context_of_truncate (docs : list doc) :
  context_of (map truncate_doc (firstn 3 docs)) = context_of docs.
Proof.
  unfold context_of.
  rewrite <- firstn_map, firstn_firstn, Nat.min_id, firstn_map.
  now rewrite context_blocks_truncate.
Qed.

Lemma build_prompt_truncate (q : pystr) (docs : list doc)
    (history : list dict) :
  build_prompt q (map truncate_doc (firstn 3 docs)) history
  = build_prompt q docs history.
Proof.
  unfold build_prompt. rewrite context_of_truncate.
  now destruct docs.
Qed.

(** C3.  Bounds on what is retrieved and on what reaches the model:
    [search_documents] returns at most [n_results] documents (none for a
    negative [n_results]); the prompt is the same as the prompt built from
    the first three context documents alone, each cut to its first 500
    characters; and every call [generate_answer_hf] makes to the model
    carries that prompt. *)
Theorem retrieval_and_prompt_bounds :
  forall ext st query n_results q context_docs history,
    List.length
      (returned_documents (fst (search_documents query n_results ext st)))
      <= Z.to_nat n_results
    /\ build_prompt q context_docs
         (history_or_empty history)
       = build_prompt q (map truncate_doc (firstn 3 context_docs))
           (history_or_empty history)
    /\ List.length (map truncate_doc (firstn 3 context_docs)) <= 3
    /\ Forall (fun d => List.length (content d) <= 500)
         (map truncate_doc (firstn 3 context_docs))
    /\ exists evs,
         trace (snd (generate_answer_hf q context_docs history ext st))
         = trace st ++ evs
         /\ Forall
              (query_or_prompt
                 (build_prompt q (map truncate_doc (firstn 3 context_docs))
                    (history_or_empty history)))
              evs.
Proof.
  intros ext st query n q docs history.
  split.
  { rewrite search_documents_run.
    destruct (chroma_query _ _ _ _ _) as [results|e]; [|simpl; lia].
    cbn [returned_documents]. apply slice_to_length.
    pose proof (keep_documents_length
                  (prefer_culture query && negb (prefer_architecture query))
                  n results []) as H.
    simpl in H. exact H. }
  rewrite build_prompt_truncate.
  split; [reflexivity|].
  split; [rewrite length_map, length_firstn; lia|].
  split.
  { apply Forall_forall. intros d Hd. apply in_map_iff in Hd.
    destruct Hd as (d0 & <- & _). unfold truncate_doc. cbn [content].
    rewrite length_firstn. lia. }
  destruct (footprint_generate_answer_hf q docs history ext st)
    as (_ & evs & Ht & Hp).
  now exists evs.
Qed.

(* ------------------------------------------------------------------ *)
(** ** generate_answer_hf never raises *)

Lemma returns_ret {A} (a : A) : returns (ret a).
Proof. intros ext st. now exists a. Qed.

Lemma returns_bind {A B} (m : M A) (k : A -> M B) :
  returns m -> (forall a, returns (k a)) -> returns (bind m k).
Proof.
  intros Hm Hk ext st. unfold bind.
  destruct (Hm ext st) as (a & Ha).
  destruct (m ext st) as [[a'|e] st1]; simpl in Ha; [|discriminate].
  apply Hk.
Qed.

Lemma returns_try {A} (m : M A) (h : pystr -> M A) :
  (forall e, returns (h e)) -> returns (try_except m h).
Proof.
  intros Hh ext st. unfold try_except.
  destruct (m ext st) as [[a|e] st1]; [now exists a | apply Hh].
Qed.

Lemma returns_get_self : returns get_self.
Proof. intros ext st. now exists (self st). Qed.

Lemma returns_expanded_search (terms : list pystr) :
  forall acc, returns (expanded_search terms acc).
Proof.
  induction terms as [|t terms IH]; intros acc; simpl.
  - apply returns_ret.
  - apply returns_bind; [|intro; apply IH].
    apply returns_try. intro. apply returns_ret.
Qed.

Lemma returns_call_gemini (prompt : pystr) : returns (call_gemini prompt).
Proof.
  unfold call_gemini. apply returns_bind; [apply returns_get_self|].
  intros s. destruct (gemini_client s); [|apply returns_ret].
  apply returns_try. intro. apply returns_ret.
Qed.

Lemma returns_generate_answer_hf q docs history :
  returns (generate_answer_hf q docs history).
Proof.
  unfold generate_answer_hf.
  apply returns_bind; [apply returns_call_gemini|].
  intros [answer|notice]; [apply returns_ret|].
  destruct (negb (is_empty docs)).
  - destruct notice; apply returns_ret.
  - apply returns_bind; [apply returns_expanded_search|].
    intros [|d ds]; [apply returns_ret|].
    destruct notice; apply returns_ret.
Qed.

(** The Gemini step, in terms of the answer of the service. *)
Lemma call_gemini_run ext st prompt :
  call_gemini prompt ext st
  = if gemini_client (self st) then
      (Ok match generate_content ext (trace st) prompt with
          | Ok text =>
              if 30 <? List.length (strip text)
              then Answered (strip text) else NoAnswer None
          | Raise e => NoAnswer (Some (gemini_error_notice e))
          end,
       {| self := self st; trace := trace st ++ [EvGenerate prompt] |})
    else (Ok (NoAnswer None), st).
Proof.
  unfold call_gemini, bind, get_self, try_except, gemini_generate, ret.
  cbv beta iota zeta.
  destruct (gemini_client (self st)); [|reflexivity].
  destruct (generate_content ext (trace st) prompt) as [text|e];
    [|reflexivity].
  now destruct (30 <? _).
Qed.

Lemma generate_answer_hf_run ext st q docs history :
  fst (generate_answer_hf q docs history ext st)
  = match fst (call_gemini (build_prompt q docs (history_or_empty history))
                 ext st) with
    | Ok (Answered answer) => Ok answer
    | Ok (NoAnswer notice) =>
        fallback_reply ext
          (snd (call_gemini (build_prompt q docs (history_or_empty history))
                  ext st))
          q docs notice
    | Raise e => Raise e
    end.
Proof.
  unfold generate_answer_hf, bind, fallback_reply. fold (history_or_empty history).
  destruct (call_gemini _ ext st) as [[[answer|notice]|e] st1];
    cbn [fst snd]; try reflexivity.
  destruct docs as [|d docs]; cbn [is_empty negb].
  - destruct (expanded_search general_terms [] ext st1) as [[[|x xs]|e] st2];
      cbn [fst]; try reflexivity; now destruct notice.
  - now destruct notice.
Qed.

Lemma Ok_inj {A} (a b : A) : Ok a = Ok b -> a = b.
Proof. congruence. Qed.

Lemma gemini_error_notice_cases (error_str : pystr) :
  In (gemini_error_notice error_str) error_notices.
Proof.
  unfold gemini_error_notice, error_notices. cbn [In].
  destruct (_ || _); [left; reflexivity|].
  destruct (_ || _); [right; left; reflexivity|].
  destruct (_ || _); [right; right; left; reflexivity|].
  destruct (_ || _); [right; right; right; left; reflexivity|].
  right; right; right; right; left; reflexivity.
Qed.

(** C4, as the code has it.  When the call to the model raises, the
    exception stays inside [generate_answer_hf], which returns a string
    opened by one of the five error notices: with context documents, the
    notice, a line announcing the database and the fallback answer built
    from them; with no context and a widened search that finds nothing, the
    notice followed by the fixed apology (not the apology alone); with no
    context and a widened search that finds documents, the notice and the
    fallback answer built from the first five of them. *)
Theorem generate_answer_hf_on_model_failure :
  forall ext st q context_docs history error_str,
    gemini_client (self st) = true ->
    generate_content ext (trace st)
      (build_prompt q context_docs (history_or_empty history))
    = Raise error_str ->
    let notice := gemini_error_notice error_str in
    let after_call :=
      {| self := self st;
         trace := trace st
                  ++ [EvGenerate
                        (build_prompt q context_docs
                           (history_or_empty history))] |} in
    In notice error_notices
    /\ exists answer,
         fst (generate_answer_hf q context_docs history ext st) = Ok answer
         /\ match context_docs with
            | _ :: _ =>
                answer = notice ++ nl ++ nl ++ found_in_database_notice
                           ++ nl ++ nl ++ _fallback_answer context_docs q
            | [] =>
                match fst (expanded_search general_terms [] ext after_call)
                with
                | Ok [] => answer = notice ++ nl ++ nl ++ apology_template
                | Ok (d :: ds) =>
                    answer = notice ++ nl ++ nl ++ general_information_notice
                               ++ nl ++ nl
                               ++ _fallback_answer (firstn 5 (d :: ds)) q
                | Raise _ => False
                end
            end.
Proof.
  intros ext st q docs history error_str Hclient Hraise notice after_call.
  split; [apply gemini_error_notice_cases|].
  destruct (returns_generate_answer_hf q docs history ext st) as (answer & Ha).
  exists answer. split; [exact Ha|].
  rewrite generate_answer_hf_run, call_gemini_run, Hclient, Hraise in Ha.
  cbn [fst snd] in Ha. fold notice after_call in Ha.
  unfold fallback_reply in Ha.
  destruct docs as [|d docs].
  - destruct (returns_expanded_search general_terms [] ext after_call)
      as (found & Hf).
    rewrite Hf in *. destruct found as [|x xs]; apply Ok_inj in Ha;
      rewrite <- Ha.
    + rewrite <- (app_assoc notice (nl ++ nl) apology_template).
      rewrite <- (app_assoc nl nl apology_template). reflexivity.
    + reflexivity.
  - apply Ok_inj in Ha. rewrite <- Ha. reflexivity.
Qed.

Lemma generate_answer_hf_on_model_failure_witness :
  gemini_client (self (Sample.state_of true [])) = true
  /\ generate_content Sample.ext_overloaded
       (trace (Sample.state_of true []))
       (build_prompt (py "Comment vas-tu ?") [] (history_or_empty None))
     = Raise (py "503 UNAVAILABLE. The model is overloaded.")
  /\ In (gemini_error_notice
           (py "503 UNAVAILABLE. The model is overloaded."))
        error_notices
  /\ exists answer,
       fst (generate_answer_hf (py "Comment vas-tu ?") [] None
              Sample.ext_overloaded (Sample.state_of true []))
       = Ok answer.
Proof.
  assert (H1 : gemini_client (self (Sample.state_of true [])) = true)
    by (vm_compute; reflexivity).
  assert (H2 : generate_content Sample.ext_overloaded
                 (trace (Sample.state_of true []))
                 (build_prompt (py "Comment vas-tu ?") []
                    (history_or_empty None))
               = Raise (py "503 UNAVAILABLE. The model is overloaded."))
    by (vm_compute; reflexivity).
  split; [exact H1|]. split; [exact H2|].
  destruct (generate_answer_hf_on_model_failure Sample.ext_overloaded
              (Sample.state_of true []) (py "Comment vas-tu ?") [] None
              (py "503 UNAVAILABLE. The model is overloaded.") H1 H2)
    as (Hnotice & answer & Ha & _).
  split; [exact Hnotice|]. exists answer. exact Ha.
Defined.

(** C4 as stated fails: with the model overloaded, no context and an empty
    collection, the string returned is not the apology template; it is the
    overload notice followed by the template, and another error gives
    another string. *)
Lemma apology_is_not_returned_alone :
  fst (generate_answer_hf (py "Comment vas-tu ?") [] None
         Sample.ext_overloaded (Sample.state_of true []))
  = Ok (overloaded_notice ++ nl ++ nl ++ apology_template)
  /\ fst (generate_answer_hf (py "Comment vas-tu ?") [] None
            Sample.ext_overloaded (Sample.state_of true []))
     <> Ok apology_template
  /\ fst (generate_answer_hf (py "Comment vas-tu ?") [] None
            {| chroma_query := Sample.store_first;
               generate_content := fun _ _ => Raise (py "429 quota");
               chroma_add := Sample.store_add |}
            (Sample.state_of true []))
     = Ok (quota_notice ++ nl ++ nl ++ apology_template).
Proof.
  split; [vm_compute; reflexivity|].
  split; [vm_compute; intros H; discriminate H|].
  vm_compute; reflexivity.
Qed.

(* ------------------------------------------------------------------ *)
(** ** _fallback_answer: where the answer comes from *)

Module PassageFacts.

Lemma passage_refl (s : pystr) : passage s s.
Proof. exists [], []. now rewrite app_nil_r. Qed.

Lemma passage_trans (a b c : pystr) :
  passage a b -> passage b c -> passage a c.
Proof.
  intros (p1 & q1 & E1) (p2 & q2 & E2). exists (p2 ++ p1), (q1 ++ q2).
  rewrite E2, E1. now rewrite <- !app_assoc.
Qed.

Lemma passage_In (s t : pystr) (c : N) : passage s t -> In c s -> In c t.
Proof.
  intros (p & q & ->) H. apply in_or_app. right. apply in_or_app. now left.
Qed.

Lemma passage_cons (s t : pystr) (c : N) : passage s t -> passage s (c :: t).
Proof. intros (p & q & ->). now exists (c :: p), q. Qed.

Lemma passage_app_l (s t u : pystr) : passage s t -> passage s (u ++ t).
Proof.
  intros (p & q & ->). exists (u ++ p), q. now rewrite <- app_assoc.
Qed.

Lemma lstrip_suffix (s : pystr) : exists before, s = before ++ lstrip s.
Proof.
  induction s as [|c s (p & IH)]; simpl.
  - now exists [].
  - destruct (isspace c).
    + exists (c :: p). simpl. now f_equal.
    + now exists [].
Qed.

Lemma rstrip_prefix (s : pystr) : exists after, s = rstrip s ++ after.
Proof.
  unfold rstrip. destruct (lstrip_suffix (rev s)) as (p & E).
  exists (rev p). rewrite <- rev_app_distr, <- E. now rewrite rev_involutive.
Qed.

Lemma strip_passage (s : pystr) : passage (strip s) s.
Proof.
  unfold strip. destruct (lstrip_suffix s) as (p & E).
  destruct (rstrip_prefix (lstrip s)) as (q & E').
  exists p, q. now rewrite <- E'.
Qed.

Lemma firstn_passage (n : nat) (s : pystr) : passage (firstn n s) s.
Proof. exists [], (skipn n s). simpl. now rewrite firstn_skipn. Qed.

(** Every piece cut by the sentence splitter is a passage of the text. *)
Lemma re_split_go_passage (s : pystr) :
  forall skipping cur piece,
    (skipping = true -> cur = []) ->
    In piece (re_split_go skipping s cur) ->
    passage piece (rev cur ++ s).
Proof.
  induction s as [|c r IH]; intros skipping cur piece Hinv Hin; simpl in Hin.
  - destruct Hin as [<-|[]]. rewrite app_nil_r. apply passage_refl.
  - destruct (skipping && isspace c) eqn:Hskip.
    + apply andb_true_iff in Hskip. destruct Hskip as [-> _].
      rewrite (Hinv eq_refl) in *. simpl.
      apply passage_cons.
      apply IH with (skipping := true) (cur := []); auto.
    + destruct (is_terminator c && head_isspace r).
      * destruct Hin as [<-|Hin].
        -- exists [], (c :: r). reflexivity.
        -- apply passage_app_l, passage_cons.
           apply IH with (skipping := true) (cur := []); auto.
      * specialize (IH false (c :: cur) piece).
        simpl in IH. rewrite <- app_assoc in IH. simpl in IH.
        apply IH; [discriminate | assumption].
Qed.

Lemma re_split_sentences_passage (s piece : pystr) :
  In piece (re_split_sentences s) -> passage piece s.
Proof.
  intros H.
  apply re_split_go_passage with (skipping := false) (cur := []);
    [discriminate | exact H].
Qed.

Lemma In_join (sep : pystr) (parts : list pystr) (c : N) :
  In c (join sep parts) ->
  In c sep \/ exists p, In p parts /\ In c p.
Proof.
  induction parts as [|p parts IH]; simpl; [tauto|].
  destruct parts as [|p' parts].
  - intros H. right. exists p. auto.
  - intros H. apply in_app_or in H. destruct H as [H|H].
    + right. exists p. auto.
    + apply in_app_or in H. destruct H as [H|H]; [now left|].
      destruct (IH H) as [H'|(x & Hx & Hc)]; [now left|].
      right. exists x. split; [now right | assumption].
Qed.

End PassageFacts.

Import PassageFacts.

Section Sentences.

(** A property of sentences that holds of every stripped piece of the
    documents read. *)
Variable Q : pystr -> Prop.

Lemma add_sentences_Forall (sentences : list pystr) :
  forall combined total,
    Forall Q combined ->
    (forall s, In s sentences -> Q (strip s)) ->
    Forall Q (fst (add_sentences sentences combined total)).
Proof.
  induction sentences as [|s rest IH]; intros combined total Hc Hs;
    cbn [add_sentences fst].
  - assumption.
  - assert (Hrest : forall s', In s' rest -> Q (strip s'))
      by (intros s' H'; apply Hs; now right).
    destruct (List.length (strip s) <? 25); [now apply IH|].
    destruct (existsb (PyStr.eqb (strip s)) combined); [now apply IH|].
    destruct (max_words <? total + List.length (split_ws (strip s)));
      [assumption|].
    assert (Hc' : Forall Q (combined ++ [strip s])).
    { apply Forall_app. split; [assumption|].
      constructor; [|constructor]. apply Hs. now left. }
    destruct (4 <=? List.length (combined ++ [strip s])); [assumption|].
    now apply IH.
Qed.

Lemma combine_docs_Forall (docs : list doc) :
  forall combined total,
    Forall Q combined ->
    (forall d s, In d docs ->
       In s (re_split_sentences (strip (content d))) -> Q (strip s)) ->
    Forall Q (fst (combine_docs docs combined total)).
Proof.
  induction docs as [|d rest IH]; intros combined total Hc Hd;
    cbn [combine_docs fst].
  - assumption.
  - assert (Hrest : forall d' s, In d' rest ->
              In s (re_split_sentences (strip (content d'))) -> Q (strip s))
      by (intros d' s H'; apply Hd; now right).
    destruct (strip (content d)) as [|c text] eqn:Etext; [now apply IH|].
    pose proof (add_sentences_Forall (re_split_sentences (c :: text))
                  combined total Hc) as Hadd.
    destruct (add_sentences (re_split_sentences (c :: text)) combined total)
      as [combined' total'].
    cbn [fst] in Hadd.
    assert (Hc' : Forall Q combined').
    { apply Hadd. intros s Hs. apply (Hd d s); [now left|].
      now rewrite Etext. }
    destruct ((max_words <=? total') || (4 <=? List.length combined'));
      [assumption|].
    now apply IH.
Qed.

End Sentences.

Lemma py_dot : py "." = [46%N].
Proof. reflexivity. Qed.

Lemma py_dots : py "..." = [46%N; 46%N; 46%N].
Proof. reflexivity. Qed.

Lemma py_space : py " " = [32%N].
Proof. reflexivity. Qed.

Lemma In_dots (c : N) : In c (py "...") -> c = 46%N.
Proof. rewrite py_dots. simpl. intuition congruence. Qed.

(** The characters of the assembled answer. *)
Lemma finish_answer_chars (intro : pystr) (sentences : list pystr) (c : N) :
  In c (finish_answer intro sentences) ->
  In c intro \/ c = 32%N \/ c = 46%N
  \/ exists s, In s sentences /\ In c s.
Proof.
  unfold finish_answer.
  set (body := strip (intro ++ join (py " ") sentences)).
  assert (Hbody : In c body ->
            In c intro \/ c = 32%N \/ c = 46%N
            \/ exists s, In s sentences /\ In c s).
  { intros H. apply (passage_In _ _ _ (strip_passage _)) in H.
    apply in_app_or in H. destruct H as [H|H]; [now left|].
    apply In_join in H. destruct H as [H|H].
    - rewrite py_space in H. simpl in H. intuition congruence.
    - auto. }
  set (ended := if ends_with_terminator body then body else body ++ py ".").
  assert (Hended : In c ended ->
            In c intro \/ c = 32%N \/ c = 46%N
            \/ exists s, In s sentences /\ In c s).
  { subst ended. destruct (ends_with_terminator body); [exact Hbody|].
    intros H. apply in_app_or in H. destruct H as [H|H]; [auto|].
    rewrite py_dot in H. simpl in H. intuition congruence. }
  destruct (600 <? List.length ended); [|exact Hended].
  intros H. apply in_app_or in H. destruct H as [H|H].
  - apply Hended.
    apply (passage_In _ _ _ (firstn_passage 597 ended)). exact H.
  - apply In_dots in H. auto.
Qed.

(** The sentences kept are passages of the documents read. *)
Lemma combine_docs_passages (docs : list doc) :
  Forall (fun s => exists d, In d docs /\ passage s (content d))
         (fst (combine_docs docs [] 0)).
Proof.
  apply combine_docs_Forall; [constructor|].
  intros d s Hd Hs. exists d. split; [assumption|].
  eapply passage_trans; [apply strip_passage|].
  eapply passage_trans; [apply re_split_sentences_passage; exact Hs|].
  apply strip_passage.
Qed.

Lemma fallback_answer_nonempty (first : doc) (others : list doc)
    (q : pystr) :
  _fallback_answer (first :: others) q
  = assembled_answer first (intro_of q)
      (fst (combine_docs (firstn 3 (first :: others)) [] 0)).
Proof. reflexivity. Qed.

(** C7, as the code has it.  An empty list of context documents gets the
    fixed 'no information found' template.  A non-empty list gets an answer
    assembled from the content of its first three documents: the sentences
    kept are passages of these documents; the answer is these sentences
    joined after the introduction or, when none is kept, the content of the
    first document (cut after 400 characters); and every character of the
    answer comes from the introduction or from one of the three documents,
    or is a space or a full stop. *)
Theorem fallback_answer_template_selection :
  forall context_docs q,
    match context_docs with
    | [] => _fallback_answer context_docs q = no_information_template
    | first :: _ =>
        let best_docs := firstn 3 context_docs in
        let sentences := fst (combine_docs best_docs [] 0) in
        Forall (fun s => exists d, In d best_docs /\ passage s (content d))
               sentences
        /\ _fallback_answer context_docs q
           = assembled_answer first (intro_of q) sentences
        /\ forall c,
             In c (_fallback_answer context_docs q) ->
             In c (intro_of q) \/ c = 32%N \/ c = 46%N
             \/ exists d, In d best_docs /\ In c (content d)
    end.
Proof.
  intros [|first others] q; [reflexivity|].
  intros best_docs sentences.
  pose proof (combine_docs_passages best_docs) as Hp. fold sentences in Hp.
  split; [exact Hp|]. split; [apply fallback_answer_nonempty|].
  intros c. rewrite fallback_answer_nonempty. fold best_docs sentences.
  assert (Hfirst : In first best_docs) by (now left).
  unfold assembled_answer. destruct sentences as [|s ss] eqn:Es.
  - destruct (400 <? List.length (content first)); intros H;
      apply in_app_or in H; destruct H as [H|H]; try (now left).
    + apply in_app_or in H. destruct H as [H|H].
      * right. right. right. exists first. split; [assumption|].
        apply (passage_In _ _ _ (strip_passage _)) in H.
        now apply (passage_In _ _ _ (firstn_passage 400 (content first))).
      * apply In_dots in H. auto.
    + right. right. right. now exists first.
  - intros H. apply finish_answer_chars in H.
    destruct H as [H|[H|[H|(x & Hx & Hc)]]]; auto.
    right. right. right.
    rewrite Forall_forall in Hp. destruct (Hp x Hx) as (d & Hd & Hpass).
    exists d. split; [assumption|]. now apply (passage_In _ _ _ Hpass).
Qed.

(** C7 as stated fails: the template does not come back only for the empty
    list.  Two context documents whose text is the two sentences of the
    template are assembled into the template itself. *)
Lemma template_from_nonempty_context :
  Sample.echo_docs <> []
  /\ _fallback_answer Sample.echo_docs (py "Et ensuite ?")
     = no_information_template.
Proof.
  split; [discriminate|]. vm_compute. reflexivity.
Qed.

(* ------------------------------------------------------------------ *)
(** ** The answer is not empty *)

Lemma has_text_dot : has_text (py ".") = true.
Proof. reflexivity. Qed.

Lemma has_text_dots : has_text (py "...") = true.
Proof. reflexivity. Qed.

Lemma finish_answer_has_text (intro : pystr) (sentences : list pystr) :
  has_text (finish_answer intro sentences) = true.
Proof.
  unfold finish_answer.
  set (body := strip (intro ++ join (py " ") sentences)).
  set (ended := if ends_with_terminator body then body else body ++ py ".").
  assert (Hended : has_text ended = true).
  { subst ended. destruct (ends_with_terminator body) eqn:E.
    - subst body. rewrite has_text_strip. apply strip_nonempty_iff.
      intros Hnil. rewrite Hnil in E. discriminate E.
    - rewrite has_text_app, has_text_dot. apply orb_true_r. }
  destruct (600 <? List.length ended); [|exact Hended].
  rewrite has_text_app, has_text_dots. apply orb_true_r.
Qed.

Lemma fallback_answer_has_text (first : doc) (others : list doc)
    (q : pystr) :
  has_text (content first) = true ->
  has_text (_fallback_answer (first :: others) q) = true.
Proof.
  intros Hfirst. rewrite fallback_answer_nonempty. unfold assembled_answer.
  destruct (fst (combine_docs _ [] 0)) as [|s ss].
  - destruct (400 <? List.length (content first)).
    + rewrite !has_text_app, has_text_dots. now rewrite !orb_true_r.
    + rewrite has_text_app, Hfirst. apply orb_true_r.
  - apply finish_answer_has_text.
Qed.

Lemma error_notices_have_text : forallb has_text error_notices = true.
Proof. vm_compute. reflexivity. Qed.

Lemma gemini_error_notice_has_text (error_str : pystr) :
  has_text (gemini_error_notice error_str) = true.
Proof.
  pose proof error_notices_have_text as H. rewrite forallb_forall in H.
  apply H. apply gemini_error_notice_cases.
Qed.

Lemma apology_has_text : has_text apology_template = true.
Proof. vm_compute. reflexivity. Qed.

Lemma usable_hit_spec (d : doc) :
  usable_hit d = true ->
  has_text (content d) = true
  /\ (exists t, dict_get (metadata d) (py "title") = Some t)
  /\ (exists s, dict_get (metadata d) (py "source") = Some s)
  /\ (exists c, dict_get (metadata d) (py "category") = Some c).
Proof.
  unfold usable_hit, has_key. intros H.
  apply andb_true_iff in H. destruct H as [H Hc].
  apply andb_true_iff in H. destruct H as [H Hs].
  apply andb_true_iff in H. destruct H as [Ht Hti].
  split; [exact Ht|].
  destruct (dict_get (metadata d) (py "title")) as [t|]; [|discriminate].
  destruct (dict_get (metadata d) (py "source")) as [s|]; [|discriminate].
  destruct (dict_get (metadata d) (py "category")) as [c|]; [|discriminate].
  repeat split; eexists; reflexivity.
Qed.

Section UsableStore.

Variable ext : External.
Variable coll : list entry.
Hypothesis Hstore : store_usable ext coll.

Lemma query_or_skip_usable (term : pystr) (st : state) :
  collection (self st) = coll ->
  exists hits,
    fst (try_except (collection_query term 3) (fun _ => ret []) ext st)
    = Ok hits
    /\ forallb usable_hit hits = true.
Proof.
  intros Hc. unfold try_except, collection_query. rewrite Hc.
  destruct (Hstore (trace st) term 3%Z) as (hits & -> & Hu);
    [now left|].
  now exists hits.
Qed.

Lemma expanded_search_usable (terms : list pystr) :
  forall acc st,
    collection (self st) = coll ->
    forallb usable_hit acc = true ->
    exists docs,
      fst (expanded_search terms acc ext st) = Ok docs
      /\ forallb usable_hit docs = true.
Proof.
  induction terms as [|t terms IH]; intros acc st Hc Hacc;
    cbn [expanded_search].
  - now exists acc.
  - unfold bind.
    destruct (query_or_skip_usable t st Hc) as (hits & Hq & Hu).
    pose proof (footprint_try (fun _ => True)
                  (collection_query t 3) (fun _ => ret [])) as Hf.
    destruct (Hf (footprint_query _ t 3%Z I)
                 (fun e => footprint_ret _ []) ext st) as (Hself & _).
    destruct (try_except (collection_query t 3) (fun _ => ret []) ext st)
      as [[hits'|e] st1]; cbn [fst snd] in *; [|discriminate].
    apply Ok_inj in Hq. subst hits'.
    apply IH.
    + now rewrite Hself.
    + rewrite forallb_app. now rewrite Hacc, Hu.
Qed.

(** With no context documents, the reply has text. *)
Lemma fallback_reply_has_text (st : state) (q : pystr)
    (gemini_error_message : option pystr) :
  collection (self st) = coll ->
  (forall notice, gemini_error_message = Some notice ->
                  has_text notice = true) ->
  exists answer,
    fallback_reply ext st q [] gemini_error_message = Ok answer
    /\ has_text answer = true.
Proof.
  intros Hc Hnotice. unfold fallback_reply.
  destruct (expanded_search_usable general_terms [] st Hc eq_refl)
    as (docs & -> & Hu).
  destruct docs as [|d ds].
  - eexists. split; [reflexivity|].
    rewrite has_text_app, apology_has_text. apply orb_true_r.
  - eexists. split; [reflexivity|].
    destruct gemini_error_message as [notice|].
    + rewrite has_text_app, (Hnotice notice eq_refl). reflexivity.
    + cbn [firstn]. apply fallback_answer_has_text.
      cbn [forallb] in Hu. apply andb_true_iff in Hu.
      destruct Hu as [Hd _]. now apply usable_hit_spec in Hd.
Qed.

Lemma generate_answer_hf_has_text (st : state) (q : pystr)
    (history : option (list dict)) :
  collection (self st) = coll ->
  exists answer,
    fst (generate_answer_hf q [] history ext st) = Ok answer
    /\ has_text answer = true.
Proof.
  intros Hc. rewrite generate_answer_hf_run, call_gemini_run.
  destruct (gemini_client (self st)); cbn [fst snd].
  - destruct (generate_content ext (trace st) _) as [text|e].
    + destruct (Nat.ltb_spec 30 (List.length (strip text))).
      * exists (strip text). split; [reflexivity|].
        apply nonempty_strip_has_text. lia.
      * apply fallback_reply_has_text; [exact Hc | discriminate].
    + apply fallback_reply_has_text; [exact Hc|].
      intros notice E. injection E as <-.
      apply gemini_error_notice_has_text.
  - apply fallback_reply_has_text; [exact Hc | discriminate].
Qed.

Lemma search_documents_usable (st : state) (query : pystr) :
  collection (self st) = coll ->
  exists docs,
    fst (search_documents query 5 ext st) = Ok docs
    /\ forallb usable_hit docs = true.
Proof.
  intros Hc. rewrite search_documents_run, Hc.
  destruct (Hstore (trace st) query
              (Z.min (if prefer_culture query || prefer_architecture query
                      then 5 * 3 else 5) 15)%Z) as (hits & -> & Hu).
  { destruct (prefer_culture query || prefer_architecture query);
      cbn; auto. }
  eexists. split; [reflexivity|].
  apply forallb_forall. apply Forall_forall.
  apply slice_to_Forall. apply keep_documents_Forall; [constructor|].
  intros d Hd _. rewrite forallb_forall in Hu. now apply Hu.
Qed.

End UsableStore.

Lemma sources_of_usable (docs : list doc) :
  forallb usable_hit docs = true ->
  exists sources,
    (forall ext st, sources_of docs ext st = (Ok sources, st))
    /\ List.length sources = List.length docs.
Proof.
  induction docs as [|d docs IH]; intros Hu.
  - exists []. split; reflexivity.
  - cbn [forallb] in Hu. apply andb_true_iff in Hu. destruct Hu as [Hd Hu].
    destruct (IH Hu) as (more & Hmore & Hlen).
    destruct (usable_hit_spec d Hd) as (_ & (t & Ht) & (s & Hs) & (c & Hcat)).
    exists ({| src_title := t; src_source := s; src_category := c |} :: more).
    split; [|cbn [List.length]; now rewrite Hlen].
    intros ext st. cbn [sources_of]. unfold bind, metadata_item.
    rewrite Ht, Hs, Hcat. unfold ret at 1 2 3. rewrite Hmore. reflexivity.
Qed.

Lemma greeting_answer_nonempty : greeting_answer <> [].
Proof. vm_compute. discriminate. Qed.

Lemma with_sources_nonempty (answer listing : pystr) :
  answer ++ sources_header ++ listing <> [].
Proof.
  intros H. apply app_eq_nil in H. destruct H as [_ H].
  unfold sources_header, nl in H. cbn [app] in H. discriminate H.
Qed.

Lemma firstn_3_length {A} (l : list A) : List.length (firstn 3 l) <= 3.
Proof. rewrite length_firstn. lia. Qed.

(** [ask] answers, against a store that answers: it returns a result whose
    answer is not empty and that cites at most three sources. *)
Lemma ask_answers ext st q llm history :
  store_usable ext (collection (self st)) ->
  exists result st',
    ask q llm history ext st = (Ok result, st')
    /\ res_question result = q
    /\ res_answer result <> []
    /\ List.length (res_sources result) <= 3.
Proof.
  intros Hstore. unfold ask, bind, emit. cbv beta iota.
  set (st0 := {| self := self st; trace := trace st ++ [EvAsk q] |}).
  destruct (existsb (PyStr.eqb (strip (lower q))) simple_greetings).
  { eexists. eexists. split; [reflexivity|]. cbn [res_question res_answer
      res_sources List.length]. split; [reflexivity|].
    split; [apply greeting_answer_nonempty | lia]. }
  assert (Hdocs : exists docs st1,
            (if _needs_database_search q
             then search_documents q 5 else ret []) ext st0 = (Ok docs, st1)
            /\ collection (self st1) = collection (self st)
            /\ forallb usable_hit docs = true
            /\ (_needs_database_search q = false -> docs = [])).
  { destruct (_needs_database_search q).
    - destruct (search_documents_usable ext (collection (self st)) Hstore
                  st0 q eq_refl) as (docs & Hd & Hu).
      destruct (footprint_search_documents q 5 ext st0) as (Hself & _).
      destruct (search_documents q 5 ext st0) as [o st1].
      cbn [fst snd] in *. subst o. exists docs, st1.
      repeat split; [now rewrite Hself | exact Hu | discriminate].
    - exists [], st0. repeat split. }
  destruct Hdocs as (docs & st1 & -> & Hc1 & Hu & Hnodb).
  destruct docs as [|d ds].
  - (* no context: the answer itself has text *)
    destruct (generate_answer_hf_has_text ext (collection (self st)) Hstore
                st1 q history Hc1) as (answer & Ha & Htext).
    destruct (generate_answer_hf q [] history ext st1) as [o st2].
    cbn [fst] in Ha. subst o.
    rewrite andb_false_r. unfold ret.
    eexists. eexists. split; [reflexivity|].
    cbn [res_question res_answer res_sources List.length].
    split; [reflexivity|]. split; [|lia].
    apply strip_nonempty_iff. exact Htext.
  - (* context: sources are listed after the answer *)
    destruct (returns_generate_answer_hf q (d :: ds) history ext st1)
      as (answer & Ha).
    destruct (generate_answer_hf q (d :: ds) history ext st1) as [o st2].
    cbn [fst] in Ha. subst o.
    assert (Hneeds : _needs_database_search q = true).
    { destruct (_needs_database_search q); [reflexivity|].
      discriminate (Hnodb eq_refl). }
    rewrite Hneeds. cbn [is_empty negb andb].
    assert (Hu3 : forallb usable_hit (firstn 3 (d :: ds)) = true).
    { apply forallb_forall. apply Forall_forall. apply Forall_firstn.
      apply Forall_forall. now apply forallb_forall. }
    destruct (sources_of_usable (firstn 3 (d :: ds)) Hu3)
      as (sources & Hsrc & Hlen).
    rewrite Hsrc. unfold ret.
    destruct sources as [|s ss]; [discriminate Hlen|].
    eexists. eexists. split; [reflexivity|].
    cbn [res_question res_answer res_sources].
    split; [reflexivity|].
    split; [apply with_sources_nonempty|].
    rewrite Hlen. apply firstn_3_length.
Qed.

(** C1, as the code has it.  When the RAG system is initialised, the
    stripped question has at least 3 characters and the vector store
    answers the queries the service makes on the collection - for 3, 5 or
    15 results - with usable documents (some text, and the title, source
    and category metadata), the chat endpoint returns the question, an
    answer that is not empty and a list of at most three sources. *)
Theorem chat_returns_answer_and_sources :
  forall ext request srv rag,
    rag_system srv = Some rag ->
    3 <= List.length (strip (question request)) ->
    store_usable ext (collection rag) ->
    exists resp srv',
      chat ext request srv = (Http200 resp, srv')
      /\ resp_question resp = question request
      /\ resp_answer resp <> []
      /\ List.length (resp_sources resp) <= 3.
Proof.
  intros ext request srv rag Hrag Hlen Hstore. unfold chat. rewrite Hrag.
  assert (Hq : is_empty (question request) = false).
  { destruct (question request); [|reflexivity].
    cbn in Hlen. lia. }
  assert (Hlong : (List.length (strip (question request)) <? 3) = false)
    by now apply Nat.ltb_ge.
  rewrite Hq, Hlong. cbn [orb].
  destruct (ask_answers ext {| self := rag; trace := calls srv |}
              (question request)
              (match use_llm request with Some b => b | None => false end)
              (conversation_history request) Hstore)
    as (result & st' & -> & Hrq & Hra & Hrs).
  eexists. eexists. split; [reflexivity|].
  cbn [resp_question resp_answer resp_sources]. auto.
Qed.

Lemma forallb_firstn {A} (f : A -> bool) (n : nat) (l : list A) :
  forallb f l = true -> forallb f (firstn n l) = true.
Proof.
  intros H. apply forallb_forall. apply Forall_forall. apply Forall_firstn.
  apply Forall_forall. now apply forallb_forall.
Qed.

(** The sample store that, as ChromaDB does, refuses a number of results
    below one is usable on a collection of two indexed chunks. *)
Lemma store_first_usable :
  store_usable Sample.ext_overloaded
    (collection (Sample.rag_of true [Sample.grenier; Sample.balafon])).
Proof.
  intros log text n [<-|[<-|[<-|[]]]];
    (eexists; split; [reflexivity|]; vm_compute; reflexivity).
Qed.

Lemma chat_returns_answer_and_sources_witness :
  rag_system (Sample.server_of true [Sample.grenier; Sample.balafon])
  = Some (Sample.rag_of true [Sample.grenier; Sample.balafon])
  /\ 3 <= List.length
            (strip (question
                      (Sample.request_of (py "Qu'est-ce que le balafon ?"))))
  /\ store_usable Sample.ext_overloaded
       (collection (Sample.rag_of true [Sample.grenier; Sample.balafon]))
  /\ exists resp srv',
       chat Sample.ext_overloaded
         (Sample.request_of (py "Qu'est-ce que le balafon ?"))
         (Sample.server_of true [Sample.grenier; Sample.balafon])
       = (Http200 resp, srv')
       /\ resp_question resp
          = question (Sample.request_of (py "Qu'est-ce que le balafon ?"))
       /\ resp_answer resp <> []
       /\ List.length (resp_sources resp) <= 3.
Proof.
  assert (H1 : rag_system
                 (Sample.server_of true [Sample.grenier; Sample.balafon])
               = Some (Sample.rag_of true [Sample.grenier; Sample.balafon]))
    by reflexivity.
  assert (H2 : 3 <= List.length
                      (strip (question
                                (Sample.request_of
                                   (py "Qu'est-ce que le balafon ?")))))
    by (vm_compute; lia).
  split; [exact H1|]. split; [exact H2|].
  split; [exact store_first_usable|].
  exact (chat_returns_answer_and_sources Sample.ext_overloaded
           (Sample.request_of (py "Qu'est-ce que le balafon ?"))
           (Sample.server_of true [Sample.grenier; Sample.balafon])
           (Sample.rag_of true [Sample.grenier; Sample.balafon])
           H1 H2 store_first_usable).
Defined.

(** C1 as stated fails: not every question string gets an answer.  The
    two-letter question "hi" is refused with status 400 by the chat
    endpoint, on an initialised system whose store and model both work. *)
Lemma short_question_gets_no_answer :
  fst (chat Sample.ext_answering (Sample.request_of (py "hi"))
         (Sample.server_of true [Sample.balafon]))
  = HTTPException 400 (py "Question trop courte")
  /\ forall resp,
       fst (chat Sample.ext_answering (Sample.request_of (py "hi"))
              (Sample.server_of true [Sample.balafon]))
       <> Http200 resp.
Proof.
  split; [vm_compute; reflexivity|].
  intros resp. vm_compute. discriminate.
Qed.

(** The other two conditions of the statement above are needed as well.
    A store that is out of service turns a well-formed question into
    status 500. *)
Example store_failure_gives_500 :
  fst (chat Sample.ext_down
         (Sample.request_of (py "Qu'est-ce que le balafon ?"))
         (Sample.server_of true [Sample.balafon]))
  = HTTPException 500 (py "Erreur: Connection refused").
Proof. vm_compute. reflexivity. Qed.

(** A collection of blank pages, with no model configured, gives a
    successful response whose answer is the empty string. *)
Example blank_documents_give_empty_answer :
  fst (chat Sample.ext_steady (Sample.request_of (py "Comment vas-tu ?"))
         (Sample.server_of false [Sample.blank]))
  = Http200 {| resp_question := py "Comment vas-tu ?";
               resp_answer := [];
               resp_sources := [] |}.
Proof. vm_compute. reflexivity. Qed.

(* ------------------------------------------------------------------ *)
(** ** Further properties: search_documents *)

Lemma keep_documents_firstn culture_only n hits :
  forall documents,
    (Z.of_nat (List.length documents) < n)%Z ->
    keep_documents culture_only n hits documents
    = documents
      ++ firstn (Z.to_nat n - List.length documents)
           (filter (passes_filter culture_only) hits).
Proof.
  induction hits as [|d hits IH]; intros documents Hlt;
    cbn [keep_documents filter].
  - now rewrite firstn_nil, app_nil_r.
  - fold (category_of d). unfold passes_filter at 1.
    destruct (culture_only && PyStr.eqb (category_of d) (py "architecture"));
      cbn [negb]; [now apply IH|].
    assert (Hlen : List.length (documents ++ [d])
                   = S (List.length documents))
      by (rewrite length_app; cbn; lia).
    destruct (Z.leb_spec n (Z.of_nat (List.length (documents ++ [d])))).
    + replace (Z.to_nat n - List.length documents) with 1 by lia.
      reflexivity.
    + rewrite IH by lia. rewrite Hlen, <- app_assoc. cbn [app].
      replace (Z.to_nat n - List.length documents)
        with (S (Z.to_nat n - S (List.length documents))) by lia.
      reflexivity.
Qed.

Lemma keep_documents_first culture_only n hits :
  (n <= 0)%Z ->
  keep_documents culture_only n hits []
  = firstn 1 (filter (passes_filter culture_only) hits).
Proof.
  intros Hn. induction hits as [|d hits IH]; cbn [keep_documents filter].
  - reflexivity.
  - fold (category_of d). unfold passes_filter at 1.
    destruct (culture_only && PyStr.eqb (category_of d) (py "architecture"));
      cbn [negb]; [exact IH|].
    cbn [app List.length].
    destruct (Z.leb_spec n (Z.of_nat 1)); [reflexivity | lia].
Qed.

Lemma kept_and_sliced culture_only n hits :
  slice_to n (keep_documents culture_only n hits [])
  = firstn (Z.to_nat n) (filter (passes_filter culture_only) hits).
Proof.
  unfold slice_to. destruct (Z.ltb_spec n 0).
  - rewrite keep_documents_first by lia.
    replace (Z.to_nat n) with 0 by lia. cbn [firstn].
    destruct (filter (passes_filter culture_only) hits) as [|x xs];
      [reflexivity|].
    cbn [firstn List.length].
    replace (1 - Z.to_nat (- n)) with 0 by lia. reflexivity.
  - destruct (Z.eq_dec n 0) as [->|Hn].
    + reflexivity.
    + rewrite keep_documents_firstn by (cbn; lia).
      cbn [List.length app]. rewrite Nat.sub_0_r.
      rewrite firstn_firstn. now rewrite Nat.min_id.
Qed.

(** X1.  [search_documents] makes one query, for [fetch_size] results, and
    returns the first [n_results] hits that pass the category filter, in
    the order of the store; only a cultural question without architectural
    keyword filters anything, and an exception of the store is passed
    on. *)
Theorem search_documents_is_filtered_prefix :
  forall ext st query n_results,
    let culture_only :=
      prefer_culture query && negb (prefer_architecture query) in
    search_documents query n_results ext st
    = (match
         chroma_query ext (trace st) (collection (self st)) query
           (fetch_size query n_results)
       with
       | Ok hits =>
           Ok (firstn (Z.to_nat n_results)
                 (filter (passes_filter culture_only) hits))
       | Raise e => Raise e
       end,
       {| self := self st;
          trace := trace st ++ [EvQuery query (fetch_size query n_results)] |}).
Proof.
  intros ext st query n culture_only.
  unfold search_documents, bind, collection_query, ret, fetch_size.
  cbv beta iota zeta.
  destruct (chroma_query _ _ _ _ _) as [hits|e]; [|reflexivity].
  fold culture_only. now rewrite kept_and_sliced.
Qed.

(* ------------------------------------------------------------------ *)
(** ** Further properties: indexing and start-up *)

Section Indexing.

Local Arguments firstn : simpl never.
Local Arguments skipn : simpl never.




Lemma index_batches_accepted rounds :
  forall remaining ext st,
    store_accepts ext ->
    List.length remaining <= rounds ->
    NoDup (map entry_id
             (collection (self st) ++ map entry_of_chunk remaining)) ->
    fst (index_batches rounds remaining ext st) = Ok tt
    /\ collection (self (snd (index_batches rounds remaining ext st)))
       = collection (self st) ++ map entry_of_chunk remaining.
Proof.
  induction rounds as [|rounds IH]; intros remaining ext st Hstore Hlen Hnd;
    cbn [index_batches].
  - destruct remaining; [|cbn in Hlen; lia].
    cbn. now rewrite app_nil_r.
  - destruct remaining as [|d remaining].
    { cbn. now rewrite app_nil_r. }
    cbv zeta. unfold bind, collection_add. cbv zeta.
    set (batch := firstn batch_size (d :: remaining)) in *.
    assert (Hsplit : map entry_of_chunk (d :: remaining)
                     = map entry_of_chunk batch
                         ++ map entry_of_chunk
                              (skipn batch_size (d :: remaining))).
    { subst batch. rewrite <- map_app. now rewrite firstn_skipn. }
    rewrite Hsplit, app_assoc in Hnd.
    rewrite Hstore.
    + cbv beta iota.
      match goal with
      | |- context [index_batches rounds ?r ext ?s] =>
          destruct (IH r ext s Hstore) as [H1 H2]
      end.
      * rewrite length_skipn. unfold batch_size. cbn [List.length] in *.
        lia.
      * exact Hnd.
      * rewrite H1, H2. cbn [self collection].
        split; [reflexivity|]. now rewrite Hsplit, app_assoc.
    + subst batch. rewrite length_map, length_firstn. unfold batch_size.
      cbn [List.length]. lia.
    + apply Forall_forall. intros e He. apply in_map_iff in He.
      destruct He as (chunk & <- & _). now exists chunk.
    + rewrite map_app in Hnd. apply NoDup_app_remove_r in Hnd. exact Hnd.
Qed.

(** X2.  [_index_documents] hands the corpus to the store: the records of
    the chunks, in corpus order, in batches of 1 to 10 records, every
    chunk at most once and, when it returns, every chunk.  It keeps the
    corpus.  It raises only when [collection.add] does, with the
    exception of the store, and the batch refused is the last it handed
    over. *)
Theorem index_documents_sends_every_chunk :
  forall ext st,
    let run := _index_documents ext st in
    exists sent rest,
      trace (snd run) = trace st ++ map EvAdd sent
      /\ map entry_of_chunk (corpus (self st)) = List.concat sent ++ rest
      /\ Forall (fun batch => 1 <= List.length batch <= 10) sent
      /\ corpus (self (snd run)) = corpus (self st)
      /\ match fst run with
         | Ok _ => rest = []
         | Raise e =>
             exists before last tr held,
               sent = before ++ [last]
               /\ chroma_add ext tr held last = Raise e
         end.
Proof.
  intros ext st run. subst run.
  unfold _index_documents, bind, get_self. cbv beta iota.
  destruct (index_batches_sent (List.length (corpus (self st)))
              (corpus (self st)) ext st (le_n _))
    as (sent & rest & Ht & Hc & Hf & Hm).
  exists sent, rest. repeat split; try assumption.
  apply index_batches_keeps.
Qed.

Lemma setup_collection_unfold ext st :
  _setup_collection None ext st
  = index_batches (List.length (corpus (self st))) (corpus (self st)) ext
      (snd (set_collection [] ext st)).
Proof. reflexivity. Qed.

Lemma setup_collection_accepted ext st :
  store_accepts ext ->
  NoDup (map entry_id (map entry_of_chunk (corpus (self st)))) ->
  fst (_setup_collection None ext st) = Ok tt
  /\ collection (self (snd (_setup_collection None ext st)))
     = map entry_of_chunk (corpus (self st)).
Proof.
  intros Hstore Hnd. rewrite setup_collection_unfold.
  apply (index_batches_accepted _ _ ext (snd (set_collection [] ext st))
           Hstore (le_n _)).
  exact Hnd.
Qed.

Lemma setup_collection_sent ext st :
  exists sent rest,
    trace (snd (_setup_collection None ext st)) = trace st ++ map EvAdd sent
    /\ map entry_of_chunk (corpus (self st)) = List.concat sent ++ rest
    /\ match fst (_setup_collection None ext st) with
       | Ok _ => rest = []
       | Raise e =>
           exists before last tr held,
             sent = before ++ [last]
             /\ chroma_add ext tr held last = Raise e
       end.
Proof.
  rewrite setup_collection_unfold.
  destruct (index_batches_sent (List.length (corpus (self st)))
              (corpus (self st)) ext (snd (set_collection [] ext st))
              (le_n _)) as (sent & rest & Ht & Hc & _ & Hm).
  exists sent, rest. repeat split; assumption.
Qed.



End Indexing.

Lemma handle_uninitialised ext srv r :
  rag_system srv = None -> handle ext srv r = srv.
Proof.
  intros H. destruct r; cbn [handle]; try reflexivity.
  - unfold chat. now rewrite H.
  - unfold get_stats. now rewrite H.
Qed.

Lemma serve_uninitialised ext rs :
  forall srv, rag_system srv = None -> serve ext srv rs = srv.
Proof.
  unfold serve. induction rs as [|r rs IH]; intros srv H; cbn [fold_left].
  - reflexivity.
  - rewrite handle_uninitialised by exact H. now apply IH.
Qed.

(** X4.  No request initialises the RAG system.  On a server whose global
    is unset, any sequence of requests leaves the server exactly as it was,
    with no call to the store or the model; chat and stats answer 503 and
    health reports an error with 0 documents, before and after. *)
Theorem uninitialised_server_stays_uninitialised :
  forall ext srv requests request,
    rag_system srv = None ->
    serve ext srv requests = srv
    /\ chat ext request (serve ext srv requests)
       = (HTTPException 503 (py "Système RAG non initialisé"), srv)
    /\ fst (get_stats (serve ext srv requests))
       = HTTPException 503 (py "Système RAG non initialisé")
    /\ fst (health_check (serve ext srv requests)) = health_uninitialised.
Proof.
  intros ext srv requests request H.
  rewrite serve_uninitialised by exact H.
  unfold chat, get_stats, health_check, health_uninitialised.
  rewrite H. repeat split.
Qed.

Lemma uninitialised_server_stays_uninitialised_witness :
  rag_system
    (snd (startup_event Sample.ext_answering None None [] [] true initial))
  = None
  /\ serve Sample.ext_answering
       (snd (startup_event Sample.ext_answering None None [] [] true initial))
       [ PostChat (Sample.request_of (py "Qui sont les griots ?"));
         GetStats; DeleteClear ]
     = snd (startup_event Sample.ext_answering None None [] [] true initial).
Proof.
  assert (H : rag_system
                (snd (startup_event Sample.ext_answering None None [] [] true
                        initial)) = None) by reflexivity.
  split; [exact H|].
  exact (proj1 (uninitialised_server_stays_uninitialised Sample.ext_answering
                  (snd (startup_event Sample.ext_answering None None [] []
                          true initial))
                  [ PostChat (Sample.request_of (py "Qui sont les griots ?"));
                    GetStats; DeleteClear ]
                  (Sample.request_of (py "Qui sont les griots ?")) H)).
Defined.

(* ------------------------------------------------------------------ *)
(** ** Further properties: when the chat endpoint answers 500 *)

Lemma metadata_item_raise d key ext st e :
  fst (metadata_item d key ext st) = Raise e ->
  e = py "'" ++ key ++ py "'".
Proof.
  unfold metadata_item. destruct (dict_get (metadata d) key); cbn.
  - discriminate.
  - congruence.
Qed.

Lemma sources_of_raise (docs : list doc) :
  forall ext st e,
    fst (sources_of docs ext st) = Raise e -> In e missing_key_messages.
Proof.
  induction docs as [|d docs IH]; intros ext st e; cbn [sources_of].
  - discriminate.
  - unfold bind, metadata_item.
    destruct (dict_get (metadata d) (py "title")) as [t|];
      [|cbn; intros H; injection H as <-; left; reflexivity].
    destruct (dict_get (metadata d) (py "source")) as [s|];
      [|cbn; intros H; injection H as <-; right; left; reflexivity].
    destruct (dict_get (metadata d) (py "category")) as [c|];
      [|cbn; intros H; injection H as <-; right; right; left; reflexivity].
    unfold ret at 1 2 3. cbv beta iota.
    specialize (IH ext st e).
    destruct (sources_of docs ext st) as [[more|e'] st1]; cbn [fst] in *.
    + discriminate.
    + exact IH.
Qed.

(** [ask] raises only what the search query of the store raised, or the
    [KeyError] of a metadata key. *)
Lemma ask_raise ext st q llm history e :
  fst (ask q llm history ext st) = Raise e ->
  chroma_query ext (trace st ++ [EvAsk q]) (collection (self st)) q
    (fetch_size q 5) = Raise e
  \/ In e missing_key_messages.
Proof.
  unfold ask, bind, emit. cbv beta iota.
  set (st0 := {| self := self st; trace := trace st ++ [EvAsk q] |}).
  destruct (existsb (PyStr.eqb (strip (lower q))) simple_greetings);
    [discriminate|].
  destruct (_needs_database_search q).
  - pose proof (search_documents_run ext st0 q 5) as Hrun.
    destruct (search_documents q 5 ext st0) as [o st1]. cbn [fst] in Hrun.
    subst o. fold (fetch_size q 5).
    change (trace st0) with (trace st ++ [EvAsk q]).
    change (collection (self st0)) with (collection (self st)).
    destruct (chroma_query ext (trace st ++ [EvAsk q])
                (collection (self st)) q (fetch_size q 5)) as [hits|e0].
    + set (docs := slice_to 5 _).
      destruct (returns_generate_answer_hf q docs history ext st1)
        as (answer & Ha).
      destruct (generate_answer_hf q docs history ext st1) as [o st2].
      cbn [fst] in Ha. subst o. cbn [andb].
      destruct (negb (is_empty docs)).
      * pose proof (sources_of_raise (firstn 3 docs) ext st2 e) as Hs.
        destruct (sources_of (firstn 3 docs) ext st2) as [[srcs|e'] st3];
          cbn [fst] in *; [discriminate|].
        intros H. right. apply Hs. injection H as ->. reflexivity.
      * discriminate.
    + cbn [fst]. intros H. left. injection H as ->. reflexivity.
  - unfold ret at 1.
    destruct (returns_generate_answer_hf q [] history ext st0)
      as (answer & Ha).
    destruct (generate_answer_hf q [] history ext st0) as [o st2].
    cbn [fst] in Ha. subst o. discriminate.
Qed.

(** X5.  The chat endpoint answers 500 for two reasons only: the search
    query of the vector store raised, or a retrieved document lacks one of
    the metadata keys title, source, category.  The detail is "Erreur: "
    followed by the message of that exception.  A failure of the model or
    of the widened search never gives a 500. *)
Theorem chat_500_has_two_causes :
  forall ext request srv detail,
    fst (chat ext request srv) = HTTPException 500 detail ->
    exists rag e,
      rag_system srv = Some rag
      /\ detail = py "Erreur: " ++ e
      /\ (chroma_query ext (calls srv ++ [EvAsk (question request)])
            (collection rag) (question request)
            (fetch_size (question request) 5) = Raise e
          \/ In e missing_key_messages).
Proof.
  intros ext request srv detail. unfold chat.
  destruct (rag_system srv) as [rag|]; [|discriminate].
  destruct (_ || _); [discriminate|].
  pose proof (ask_raise ext {| self := rag; trace := calls srv |}
                (question request)
                (match use_llm request with Some b => b | None => false end)
                (conversation_history request)) as Hr.
  destruct (ask _ _ _ ext _) as [[result|e] st']; cbn [fst] in *;
    [discriminate|].
  intros H. injection H as <-.
  exists rag, e. split; [reflexivity|]. split; [reflexivity|].
  apply Hr. reflexivity.
Qed.

Lemma chat_500_has_two_causes_witness :
  fst (chat Sample.ext_down
         (Sample.request_of (py "Qu'est-ce que le balafon ?"))
         (Sample.server_of true [Sample.balafon]))
  = HTTPException 500 (py "Erreur: Connection refused")
  /\ exists rag e,
       rag_system (Sample.server_of true [Sample.balafon]) = Some rag
       /\ py "Erreur: Connection refused" = py "Erreur: " ++ e
       /\ (chroma_query Sample.ext_down
             (calls (Sample.server_of true [Sample.balafon])
              ++ [EvAsk (question (Sample.request_of
                                     (py "Qu'est-ce que le balafon ?")))])
             (collection rag)
             (question (Sample.request_of (py "Qu'est-ce que le balafon ?")))
             (fetch_size
                (question (Sample.request_of
                             (py "Qu'est-ce que le balafon ?"))) 5)
           = Raise e
           \/ In e missing_key_messages).
Proof.
  assert (H : fst (chat Sample.ext_down
                     (Sample.request_of (py "Qu'est-ce que le balafon ?"))
                     (Sample.server_of true [Sample.balafon]))
              = HTTPException 500 (py "Erreur: Connection refused"))
    by (vm_compute; reflexivity).
  split; [exact H|].
  exact (chat_500_has_two_causes Sample.ext_down
           (Sample.request_of (py "Qu'est-ce que le balafon ?"))
           (Sample.server_of true [Sample.balafon])
           (py "Erreur: Connection refused") H).
Defined.

(* ------------------------------------------------------------------ *)
(** ** Further properties: the calls to the model and to the store *)

Lemma expanded_search_trace (terms : list pystr) :
  forall acc ext st,
    trace (snd (expanded_search terms acc ext st))
    = trace st ++ map (fun term => EvQuery term 3%Z) terms.
Proof.
  induction terms as [|t terms IH]; intros acc ext st;
    cbn [expanded_search map].
  - unfold ret. cbn. now rewrite app_nil_r.
  - unfold bind, try_except, collection_query.
    destruct (chroma_query ext (trace st) (collection (self st)) t 3%Z)
      as [hits|e]; unfold ret; cbv beta iota; rewrite IH; cbn [trace];
      now rewrite <- app_assoc.
Qed.

Lemma generate_answer_hf_events ext st q docs history :
  trace (snd (generate_answer_hf q docs history ext st))
  = trace st
    ++ (if gemini_client (self st)
        then [EvGenerate (build_prompt q docs (history_or_empty history))]
        else [])
    ++ (if model_answers ext st
             (build_prompt q docs (history_or_empty history))
           || negb (is_empty docs)
        then [] else widened_queries).
Proof.
  unfold generate_answer_hf, bind, model_answers.
  set (prompt := build_prompt q docs (history_or_empty history)).
  rewrite call_gemini_run.
  destruct (gemini_client (self st)); cbn [andb];
    [destruct (generate_content ext (trace st) prompt) as [text|e];
       [destruct (30 <? List.length (strip text))|]|];
    cbn [orb]; cbv beta iota;
    try (unfold ret; cbn [snd trace app]; now rewrite ?app_nil_r);
    (destruct docs as [|d ds]; cbn [is_empty negb];
     [ match goal with
       | |- context [expanded_search general_terms [] ext ?s] =>
           pose proof (expanded_search_trace general_terms [] ext s) as Ht;
           destruct (expanded_search general_terms [] ext s)
             as [[[|x xs]|e'] st2]
       end;
       cbn [snd] in Ht; unfold ret; cbn [snd]; rewrite Ht; cbn [trace];
       fold widened_queries; now rewrite <- ?app_assoc
     | unfold ret; cbn [snd trace app]; now rewrite ?app_nil_r ]).
Qed.

(** X6.  What [generate_answer_hf] does towards the outside.  It never
    raises and leaves the object unchanged.  It calls the model exactly
    once when a client is configured and never otherwise.  It queries the
    store only for the widened search - the three general terms, 3 results
    each - and only when there is no context document and the model gave
    no answer that is kept. *)
Theorem generate_answer_hf_outside_calls :
  forall ext st q context_docs history,
    let prompt := build_prompt q context_docs (history_or_empty history) in
    let st' := snd (generate_answer_hf q context_docs history ext st) in
    (exists answer,
        fst (generate_answer_hf q context_docs history ext st) = Ok answer)
    /\ self st' = self st
    /\ trace st'
       = trace st
         ++ (if gemini_client (self st) then [EvGenerate prompt] else [])
         ++ (if model_answers ext st prompt || negb (is_empty context_docs)
             then [] else widened_queries).
Proof.
  intros ext st q docs history prompt st'. subst prompt st'.
  split; [apply returns_generate_answer_hf|].
  split; [apply (footprint_generate_answer_hf q docs history ext st)|].
  apply generate_answer_hf_events.
Qed.

(** X7.  The answer of the model, when it is kept.  With a client
    configured and a model that returns [text]: if [text] has more than 30
    characters once stripped, [generate_answer_hf] returns the stripped
    text, whatever the context documents; if not, the text is dropped
    without any notice and, with context documents, the plain fallback
    answer is returned. *)
Theorem generate_answer_hf_on_model_answer :
  forall ext st q context_docs history text,
    gemini_client (self st) = true ->
    generate_content ext (trace st)
      (build_prompt q context_docs (history_or_empty history))
    = Ok text ->
    (30 < List.length (strip text) ->
     fst (generate_answer_hf q context_docs history ext st)
     = Ok (strip text))
    /\ (List.length (strip text) <= 30 ->
        context_docs <> [] ->
        fst (generate_answer_hf q context_docs history ext st)
        = Ok (_fallback_answer context_docs q)).
Proof.
  intros ext st q docs history text Hclient Htext.
  rewrite generate_answer_hf_run, call_gemini_run, Hclient, Htext.
  cbn [fst snd]. split.
  - intros Hlong. apply Nat.ltb_lt in Hlong. now rewrite Hlong.
  - intros Hshort Hdocs. apply Nat.ltb_ge in Hshort. rewrite Hshort.
    unfold fallback_reply. destruct docs; [congruence | reflexivity].
Qed.

Lemma generate_answer_hf_on_model_answer_witness :
  gemini_client (self (Sample.state_of true [Sample.balafon])) = true
  /\ generate_content Sample.ext_answering
       (trace (Sample.state_of true [Sample.balafon]))
       (build_prompt (py "Parle-moi du balafon") []
          (history_or_empty None))
     = Ok (py "  Le balafon est un xylophone traditionnel joué au Burkina Faso.  ")
  /\ 30 < List.length
            (strip (py "  Le balafon est un xylophone traditionnel joué au Burkina Faso.  "))
  /\ fst (generate_answer_hf (py "Parle-moi du balafon") [] None
            Sample.ext_answering (Sample.state_of true [Sample.balafon]))
     = Ok (strip (py "  Le balafon est un xylophone traditionnel joué au Burkina Faso.  ")).
Proof.
  assert (H1 : gemini_client (self (Sample.state_of true [Sample.balafon]))
               = true) by reflexivity.
  assert (H2 : generate_content Sample.ext_answering
                 (trace (Sample.state_of true [Sample.balafon]))
                 (build_prompt (py "Parle-moi du balafon") []
                    (history_or_empty None))
               = Ok (py "  Le balafon est un xylophone traditionnel joué au Burkina Faso.  "))
    by reflexivity.
  assert (H3 : 30 < List.length
                      (strip (py "  Le balafon est un xylophone traditionnel joué au Burkina Faso.  ")))
    by (vm_compute; lia).
  split; [exact H1|]. split; [exact H2|]. split; [exact H3|].
  exact (proj1 (generate_answer_hf_on_model_answer Sample.ext_answering
                  (Sample.state_of true [Sample.balafon])
                  (py "Parle-moi du balafon") [] None
                  (py "  Le balafon est un xylophone traditionnel joué au Burkina Faso.  ")
                  H1 H2) H3).
Defined.

Lemma call_budget_nil : call_budget 0 0 [].
Proof. repeat split; cbn; auto. Qed.

Lemma call_budget_app m1 k1 m2 k2 a b :
  call_budget m1 k1 a -> call_budget m2 k2 b ->
  call_budget (m1 + m2) (k1 + k2) (a ++ b).
Proof.
  intros (Ha1 & Ha2 & Ha3) (Hb1 & Hb2 & Hb3). unfold call_budget.
  rewrite !filter_app, !length_app. repeat split; try lia.
  now apply Forall_app.
Qed.

Lemma call_budget_weaken m k m' k' evs :
  m <= m' -> k <= k' -> call_budget m k evs -> call_budget m' k' evs.
Proof. intros Hm Hk (H1 & H2 & H3). repeat split; try lia. exact H3. Qed.

Lemma call_budget_ask q evs m k :
  call_budget m k evs -> call_budget m k (EvAsk q :: evs).
Proof.
  intros (H1 & H2 & H3). repeat split; cbn [filter is_generate_event
    is_query_event]; try assumption.
  constructor; [exact I | exact H3].
Qed.

Lemma widened_queries_budget : call_budget 0 3 widened_queries.
Proof.
  repeat split.
  - vm_compute. lia.
  - vm_compute. lia.
  - unfold widened_queries. apply Forall_forall. intros e He.
    apply in_map_iff in He. destruct He as (term & <- & _). cbn. lia.
Qed.

Lemma generate_answer_hf_budget ext st q docs history :
  exists evs,
    trace (snd (generate_answer_hf q docs history ext st)) = trace st ++ evs
    /\ call_budget 1 3 evs.
Proof.
  eexists. split; [apply generate_answer_hf_events|].
  apply (call_budget_app 1 0 0 3).
  - destruct (gemini_client (self st)).
    + repeat split; cbn; auto. constructor; [exact I | constructor].
    + apply (call_budget_weaken 0 0); auto. apply call_budget_nil.
  - destruct (_ || _).
    + apply (call_budget_weaken 0 0); auto with arith. apply call_budget_nil.
    + apply widened_queries_budget.
Qed.

Lemma search_documents_trace ext st query n :
  trace (snd (search_documents query n ext st))
  = trace st ++ [EvQuery query (fetch_size query n)].
Proof.
  unfold search_documents, bind, collection_query, ret, fetch_size.
  cbv beta iota zeta. now destruct (chroma_query _ _ _ _ _).
Qed.

Lemma fetch_size_le_15 query n : (fetch_size query n <= 15)%Z.
Proof. unfold fetch_size. apply Z.le_min_r. Qed.

Lemma sources_of_state (docs : list doc) :
  forall ext st, snd (sources_of docs ext st) = st.
Proof.
  induction docs as [|d docs IH]; intros ext st; cbn [sources_of].
  - reflexivity.
  - unfold bind, metadata_item.
    destruct (dict_get (metadata d) (py "title")); [|reflexivity].
    destruct (dict_get (metadata d) (py "source")); [|reflexivity].
    destruct (dict_get (metadata d) (py "category")); [|reflexivity].
    unfold ret at 1 2 3. cbv beta iota. specialize (IH ext st).
    destruct (sources_of docs ext st) as [[more|e] st1]; cbn [snd] in *;
      now subst.
Qed.

Lemma ask_budget ext st q llm history :
  exists evs,
    trace (snd (ask q llm history ext st)) = trace st ++ EvAsk q :: evs
    /\ call_budget 1 4 evs.
Proof.
  unfold ask, bind, emit. cbv beta iota.
  set (st0 := {| self := self st; trace := trace st ++ [EvAsk q] |}).
  assert (Hst0 : forall evs, trace st0 ++ evs = trace st ++ EvAsk q :: evs).
  { intros evs. subst st0. cbn [trace]. now rewrite <- app_assoc. }
  destruct (existsb (PyStr.eqb (strip (lower q))) simple_greetings).
  { exists []. split; [now rewrite <- Hst0, app_nil_r|].
    apply (call_budget_weaken 0 0); auto with arith. apply call_budget_nil. }
  assert (Hgen : forall docs st1 evs1,
            trace st1 = trace st0 ++ evs1 -> call_budget 0 1 evs1 ->
            exists evs,
              trace
                (snd
                   (match generate_answer_hf q docs history ext st1 with
                    | (Ok answer, st') =>
                        match
                          (if _needs_database_search q
                              && negb (is_empty docs)
                           then sources_of (firstn 3 docs) else ret [])
                            ext st'
                        with
                        | (Ok sources, st'') =>
                            ret {| res_question := q;
                                   res_answer :=
                                     match sources with
                                     | [] => strip answer
                                     | _ :: _ =>
                                         strip answer ++ sources_header
                                           ++ join nl
                                                (map source_line sources)
                                     end;
                                   res_sources := sources |} ext st''
                        | (Raise e, st'') => (Raise e, st'')
                        end
                    | (Raise e, st') => (Raise e, st')
                    end))
              = trace st ++ EvAsk q :: evs
              /\ call_budget 1 4 evs).
  { intros docs st1 evs1 Ht1 Hb1.
    destruct (generate_answer_hf_budget ext st1 q docs history)
      as (evs2 & Ht2 & Hb2).
    exists (evs1 ++ evs2). split.
    - rewrite <- Hst0, app_assoc, <- Ht1, <- Ht2.
      destruct (generate_answer_hf q docs history ext st1) as [[answer|e] st2];
        cbn [snd]; [|reflexivity].
      assert (Hsrc : snd ((if _needs_database_search q
                              && negb (is_empty docs)
                           then sources_of (firstn 3 docs) else ret [])
                            ext st2) = st2).
      { destruct (_ && _); [apply sources_of_state | reflexivity]. }
      destruct ((if _needs_database_search q && negb (is_empty docs)
                 then sources_of (firstn 3 docs) else ret []) ext st2)
        as [[sources|e] st3]; cbn [snd] in *; now subst.
    - apply (call_budget_app 0 1 1 3); assumption. }
  destruct (_needs_database_search q).
  - pose proof (search_documents_trace ext st0 q 5) as Ht.
    assert (Hb : call_budget 0 1 [EvQuery q (fetch_size q 5)]).
    { repeat split; cbn; auto. constructor; [|constructor].
      apply fetch_size_le_15. }
    destruct (search_documents q 5 ext st0) as [[docs|e] st1];
      cbn [snd] in Ht.
    + apply (Hgen docs st1 _ Ht Hb).
    + exists [EvQuery q (fetch_size q 5)]. split.
      * cbn [snd]. rewrite Ht. apply Hst0.
      * apply (call_budget_weaken 0 1); auto.
  - unfold ret at 1. apply (Hgen [] st0 []).
    + now rewrite app_nil_r.
    + apply (call_budget_weaken 0 0); auto. apply call_budget_nil.
Qed.

(** X8.  The cost of one chat request towards the outside: at most one
    call to the model and at most four queries to the vector store (the
    search and the three of the widened search), none of them for more
    than 15 results.  A request that is refused (503 or 400) costs
    nothing. *)
Theorem chat_request_call_budget :
  forall ext request srv,
    exists evs,
      calls (snd (chat ext request srv)) = calls srv ++ evs
      /\ List.length (filter is_generate_event evs) <= 1
      /\ List.length (filter is_query_event evs) <= 4
      /\ Forall at_most_15_results evs
      /\ (forall status_code detail,
            fst (chat ext request srv) = HTTPException status_code detail ->
            status_code <> 500%Z -> evs = []).
Proof.
  intros ext request srv. unfold chat.
  destruct (rag_system srv) as [rag|].
  2:{ exists []. cbn [snd fst]. rewrite app_nil_r.
      repeat split; cbn; auto. }
  destruct (_ || _).
  { exists []. cbn [snd fst]. rewrite app_nil_r.
    repeat split; cbn; auto. }
  destruct (ask_budget ext {| self := rag; trace := calls srv |}
              (question request)
              (match use_llm request with Some b => b | None => false end)
              (conversation_history request)) as (evs & Ht & Hb).
  apply (call_budget_ask (question request)) in Hb.
  destruct Hb as (H1 & H2 & H3).
  exists (EvAsk (question request) :: evs).
  destruct (ask _ _ _ ext _) as [[result|e] st']; cbn [snd fst calls trace] in *.
  - repeat split; try assumption. intros c d H. discriminate H.
  - repeat split; try assumption. intros c d H Hc.
    injection H as <- _. congruence.
Qed.

(* ------------------------------------------------------------------ *)
(** ** Further properties: the conversation history in the prompt *)

Lemma slice_m7_m1_snoc {A} (h : list A) (last : A) :
  slice_m7_m1 (h ++ [last]) = skipn (List.length h - 6) h.
Proof.
  unfold slice_m7_m1. rewrite length_app. cbn [List.length].
  replace (List.length h + 1 - 7) with (List.length h - 6) by lia.
  replace (List.length h + 1 - 1 - (List.length h - 6))
    with (List.length (skipn (List.length h - 6) h))
    by (rewrite length_skipn; lia).
  rewrite skipn_app.
  replace (List.length h - 6 - List.length h) with 0 by lia.
  cbn [skipn]. rewrite firstn_app, Nat.sub_diag. cbn [firstn].
  now rewrite firstn_all, app_nil_r.
Qed.

Lemma history_text_of_snoc (h : list dict) (last : dict) :
  history_text_of (h ++ [last])
  = match h with
    | [] => []
    | _ :: _ => join nl (map history_line (skipn (List.length h - 6) h))
    end.
Proof.
  unfold history_text_of. rewrite slice_m7_m1_snoc, length_app.
  cbn [List.length]. destruct h as [|m h]; [reflexivity|].
  cbn [List.length]. destruct (Nat.ltb_spec 1 (S (List.length h) + 1));
    [reflexivity | lia].
Qed.

Lemma join_length_bound (sep : pystr) (m : nat) (parts : list pystr) :
  Forall (fun p => List.length p <= m) parts ->
  List.length (join sep parts) <= List.length parts * (m + List.length sep).
Proof.
  induction parts as [|p parts IH]; intros H; [cbn; lia|].
  inversion H as [|? ? Hp Hrest]; subst. specialize (IH Hrest).
  destruct parts as [|p' parts].
  - cbn. lia.
  - change (join sep (p :: p' :: parts))
      with (p ++ sep ++ join sep (p' :: parts)).
    rewrite !length_app. cbn [List.length Nat.mul] in *. lia.
Qed.

Lemma history_line_length (msg : dict) :
  List.length (history_line msg) <= 163.
Proof.
  unfold history_line. cbv zeta. rewrite !length_app, length_firstn.
  change (List.length (py ": ")) with 2.
  generalize (List.length (get_default msg (py "content") [])). intros n.
  destruct (dict_get msg (py "role")) as [r|];
    [destruct (PyStr.eqb r (py "user"))|].
  - change (List.length (py "Utilisateur")) with 11. lia.
  - change (List.length (py "Assistant")) with 9. lia.
  - change (List.length (py "Assistant")) with 9. lia.
Qed.

(** X9.  The conversation history in the prompt.  The last message of the
    history (the current question) is never used; of the messages before
    it only the six most recent count, each as one line holding at most
    the first 150 characters of its content; a history of fewer than two
    messages contributes nothing.  The history text has at most 984
    characters, however long the conversation. *)
Theorem history_window_of_six :
  forall q context_docs (h : list dict) (last other : dict),
    history_text_of (h ++ [last])
    = match h with
      | [] => []
      | _ :: _ => join nl (map history_line (skipn (List.length h - 6) h))
      end
    /\ build_prompt q context_docs (h ++ [last])
       = build_prompt q context_docs
           (skipn (List.length h - 6) h ++ [other])
    /\ build_prompt q context_docs [last] = build_prompt q context_docs []
    /\ List.length (history_text_of (h ++ [last])) <= 984.
Proof.
  intros q docs h last other.
  split; [apply history_text_of_snoc|].
  assert (Hrecent : history_text_of (h ++ [last])
                    = history_text_of (skipn (List.length h - 6) h
                                         ++ [other])).
  { rewrite !history_text_of_snoc.
    destruct h as [|m h]; [reflexivity|].
    remember (skipn (List.length (m :: h) - 6) (m :: h)) as recent
      eqn:Erecent.
    assert (Hlen : List.length recent <= 6 /\ 0 < List.length recent).
    { subst recent. rewrite length_skipn. cbn [List.length]. lia. }
    destruct recent as [|r rs]; [cbn in Hlen; lia|].
    replace (List.length (r :: rs) - 6) with 0 by lia.
    reflexivity. }
  split; [unfold build_prompt; now rewrite Hrecent|].
  split; [reflexivity|].
  rewrite history_text_of_snoc. destruct h as [|m h]; [cbn; lia|].
  set (recent := skipn (List.length (m :: h) - 6) (m :: h)).
  pose proof (join_length_bound nl 163 (map history_line recent)) as Hj.
  rewrite length_map in Hj.
  assert (Hlen : List.length recent <= 6)
    by (subst recent; rewrite length_skipn; cbn [List.length]; lia).
  assert (Hnl : List.length nl = 1) by reflexivity.
  rewrite Hnl in Hj.
  assert (Hall : Forall (fun p => List.length p <= 163)
                   (map history_line recent)).
  { apply Forall_forall. intros p Hp. apply in_map_iff in Hp.
    destruct Hp as (msg & <- & _). apply history_line_length. }
  specialize (Hj Hall). nia.
Qed.

(* ------------------------------------------------------------------ *)
(** ** Further properties: the size of the fallback answer *)

Lemma strip_length (s : pystr) : List.length (strip s) <= List.length s.
Proof.
  destruct (strip_passage s) as (a & b & E).
  rewrite E at 2. rewrite !length_app. lia.
Qed.

Lemma intro_of_length (q : pystr) : List.length (intro_of q) <= 34.
Proof.
  unfold intro_of.
  destruct (any_in what_question_words (lower q)); [vm_compute; lia|].
  destruct (any_in general_culture_words (lower q)); vm_compute; lia.
Qed.

Lemma finish_answer_length (intro : pystr) (sentences : list pystr) :
  List.length (finish_answer intro sentences) <= 600.
Proof.
  unfold finish_answer.
  set (ended := if ends_with_terminator _ then _ else _).
  destruct (Nat.ltb_spec 600 (List.length ended)); [|assumption].
  rewrite length_app, length_firstn.
  assert (Hd : List.length (py "...") = 3) by reflexivity.
  rewrite Hd. lia.
Qed.

(** X10.  [_fallback_answer] never returns more than 600 characters,
    whatever the documents and the question. *)
Theorem fallback_answer_at_most_600_characters :
  forall context_docs q,
    List.length (_fallback_answer context_docs q) <= 600.
Proof.
  intros [|first others] q.
  - vm_compute. lia.
  - rewrite fallback_answer_nonempty. unfold assembled_answer.
    pose proof (intro_of_length q) as Hi.
    destruct (fst (combine_docs _ [] 0)) as [|s ss];
      [|apply finish_answer_length].
    destruct (Nat.ltb_spec 400 (List.length (content first))).
    + rewrite !length_app.
      pose proof (strip_length (firstn 400 (content first))) as Hs.
      rewrite length_firstn in Hs.
      assert (Hd : List.length (py "...") = 3) by reflexivity.
      rewrite Hd. lia.
    + rewrite length_app. lia.
Qed.

(* ------------------------------------------------------------------ *)
(** ** Further properties: the sentences kept by the fallback *)

(* ------------------------------------------------------------------ *)
(** ** Further properties: the sentences kept by the fallback *)

Lemma NoDup_snoc {A} (l : list A) (x : A) :
  NoDup l -> ~ In x l -> NoDup (l ++ [x]).
Proof.
  induction l as [|y l IH]; intros Hl Hx; cbn [app].
  - constructor; [intros [] | constructor].
  - inversion Hl as [|? ? Hy Hl']; subst. constructor.
    + intros Hin. apply in_app_or in Hin. destruct Hin as [Hin|[<-|[]]].
      * now apply Hy.
      * apply Hx. now left.
    + apply IH; [assumption|]. intros Hin. apply Hx. now right.
Qed.

Lemma kept_invariant_snoc combined total s :
  kept_invariant combined total ->
  (List.length (strip s) <? 25) = false ->
  existsb (PyStr.eqb (strip s)) combined = false ->
  (max_words <? total + List.length (split_ws (strip s))) = false ->
  kept_invariant (combined ++ [strip s])
    (total + List.length (split_ws (strip s))).
Proof.
  intros (Hnd & Hlen & Hsum & Hmax) Hlong Hnew Hroom.
  apply Nat.ltb_ge in Hlong. apply Nat.ltb_ge in Hroom.
  repeat split.
  - apply NoDup_snoc; [assumption|]. intros Hin.
    apply existsb_eqb_In in Hin. congruence.
  - apply Forall_app. split; [assumption|]. now repeat constructor.
  - rewrite map_app, list_sum_app, <- Hsum. unfold list_sum at 1.
    cbn [map fold_right]. unfold word_count_of. lia.
  - assumption.
Qed.

Lemma add_sentences_invariant (sentences : list pystr) :
  forall combined total,
    kept_invariant combined total ->
    List.length combined <= 3 ->
    kept_invariant (fst (add_sentences sentences combined total))
                   (snd (add_sentences sentences combined total))
    /\ List.length (fst (add_sentences sentences combined total)) <= 4.
Proof.
  induction sentences as [|s rest IH]; intros combined total Hinv Hlen;
    cbn [add_sentences].
  - cbn [fst snd]. split; [assumption | lia].
  - destruct (List.length (strip s) <? 25) eqn:Hlong; [now apply IH|].
    destruct (existsb (PyStr.eqb (strip s)) combined) eqn:Hnew;
      [now apply IH|].
    destruct (max_words <? total + List.length (split_ws (strip s)))
      eqn:Hroom.
    { cbn [fst snd]. split; [assumption | lia]. }
    pose proof (kept_invariant_snoc combined total s Hinv Hlong Hnew Hroom)
      as Hinv'.
    assert (Hlen' : List.length (combined ++ [strip s])
                    = S (List.length combined))
      by (rewrite length_app; cbn; lia).
    destruct (Nat.leb_spec 4 (List.length (combined ++ [strip s]))).
    + cbn [fst snd]. split; [assumption | lia].
    + apply IH; [assumption | lia].
Qed.

Lemma combine_docs_invariant (docs : list doc) :
  forall combined total,
    kept_invariant combined total ->
    List.length combined <= 3 ->
    kept_invariant (fst (combine_docs docs combined total))
                   (snd (combine_docs docs combined total))
    /\ List.length (fst (combine_docs docs combined total)) <= 4.
Proof.
  induction docs as [|d rest IH]; intros combined total Hinv Hlen;
    cbn [combine_docs].
  - cbn [fst snd]. split; [assumption | lia].
  - destruct (strip (content d)) as [|c text]; [now apply IH|].
    pose proof (add_sentences_invariant (re_split_sentences (c :: text))
                  combined total Hinv Hlen) as (Hinv' & Hlen').
    destruct (add_sentences (re_split_sentences (c :: text)) combined total)
      as [combined' total']. cbn [fst snd] in Hinv', Hlen'.
    destruct (max_words <=? total') eqn:Hfull; cbn [orb].
    { cbn [fst snd]. split; assumption. }
    destruct (Nat.leb_spec 4 (List.length combined')).
    + cbn [fst snd]. split; assumption.
    + apply IH; [assumption | lia].
Qed.

(** X11.  The sentences [_fallback_answer] keeps from the documents: at
    most four, all different, each of at least 25 characters, and together
    at most 250 words, the count kept by the loops being the exact number
    of their words. *)
Theorem fallback_keeps_few_distinct_sentences :
  forall docs,
    let kept := fst (combine_docs docs [] 0) in
    let total_words := snd (combine_docs docs [] 0) in
    List.length kept <= 4
    /\ NoDup kept
    /\ Forall (fun s => 25 <= List.length s) kept
    /\ total_words = list_sum (map word_count_of kept)
    /\ total_words <= 250.
Proof.
  intros docs kept total_words. subst kept total_words.
  assert (Hstart : kept_invariant [] 0).
  { repeat split; [constructor | constructor | unfold max_words; lia]. }
  destruct (combine_docs_invariant docs [] 0 Hstart)
    as ((Hnd & Hlen & Hsum & Hmax) & Hfour); [cbn; lia|].
  unfold max_words in Hmax. repeat split; assumption.
Qed.

(* ------------------------------------------------------------------ *)
(** ** Further properties: the statistics endpoint *)

Lemma category_count_step categories cat c :
  category_count (count_category categories cat) c
  = (category_count categories c
     + if PyStr.eqb cat c then 1 else 0)%Z.
Proof.
  induction categories as [|[k n] r IH]; cbn [count_category category_count].
  - destruct (PyStr.eqb cat c); lia.
  - destruct (PyStr.eqb k cat) eqn:Ekc; cbn [category_count].
    + apply eqb_eq in Ekc. subst k.
      destruct (PyStr.eqb cat c); lia.
    + destruct (PyStr.eqb k c) eqn:Ek; [|exact IH].
      apply eqb_eq in Ek. subst k.
      destruct (PyStr.eqb cat c) eqn:Ecc; [|lia].
      apply eqb_eq in Ecc. subst cat.
      rewrite eqb_refl in Ekc. discriminate.
Qed.

Lemma count_category_keys categories cat :
  NoDup (map fst categories) ->
  NoDup (map fst (count_category categories cat))
  /\ (forall k, In k (map fst (count_category categories cat))
                <-> k = cat \/ In k (map fst categories)).
Proof.
  induction categories as [|[k n] r IH]; intros Hnd;
    cbn [count_category map fst].
  - split; [repeat constructor; intros []|]. intros k'. cbn.
    intuition congruence.
  - inversion Hnd as [|? ? Hk Hr]; subst.
    destruct (PyStr.eqb k cat) eqn:Ekc; cbn [map fst].
    + apply eqb_eq in Ekc. subst k. split; [assumption|].
      intros k'. cbn. intuition congruence.
    + destruct (IH Hr) as (Hnd' & Hin). split.
      * constructor; [|assumption]. rewrite Hin. intros [->|H].
        -- rewrite eqb_refl in Ekc. discriminate.
        -- now apply Hk.
      * intros k'. cbn [In]. rewrite Hin. tauto.
Qed.

Lemma count_category_sum categories cat :
  fold_right Z.add 0%Z (map snd (count_category categories cat))
  = (fold_right Z.add 0%Z (map snd categories) + 1)%Z.
Proof.
  induction categories as [|[k n] r IH]; cbn [count_category map snd
    fold_right].
  - lia.
  - destruct (PyStr.eqb k cat); cbn [map snd fold_right]; lia.
Qed.

Lemma count_categories_fold (corpus : list Chunk.t) :
  forall acc,
    NoDup (map fst acc) ->
    let categories :=
      fold_left (fun acc d => count_category acc (Chunk.category d))
                corpus acc in
    NoDup (map fst categories)
    /\ (forall cat,
          category_count categories cat
          = (category_count acc cat
             + Z.of_nat (List.length (chunks_of_category corpus cat)))%Z)
    /\ fold_right Z.add 0%Z (map snd categories)
       = (fold_right Z.add 0%Z (map snd acc)
          + Z.of_nat (List.length corpus))%Z.
Proof.
  induction corpus as [|d corpus IH]; intros acc Hnd; cbn [fold_left].
  - cbn. repeat split; [assumption | intros; lia | lia].
  - destruct (count_category_keys acc (Chunk.category d) Hnd) as (Hnd' & _).
    destruct (IH _ Hnd') as (H1 & H2 & H3). cbv zeta in *.
    split; [assumption|]. split.
    + intros cat. rewrite H2, category_count_step.
      unfold chunks_of_category. cbn [filter].
      destruct (PyStr.eqb (Chunk.category d) cat); cbn [List.length]; lia.
    + rewrite H3, count_category_sum. cbn [List.length]. lia.
Qed.

(** X12.  The categories of the stats endpoint.  On an initialised system
    the endpoint succeeds and its dictionary gives, for every category, the
    exact number of corpus chunks that carry it (0 for a category it does
    not list); no category is listed twice, and the counts add up to
    [total_documents], the size of the corpus.  On a system that is not
    initialised it answers 503. *)
Theorem stats_counts_chunks_per_category :
  forall srv,
    match rag_system srv, fst (get_stats srv) with
    | Some rag, Http200 body =>
        total_documents body = Z.of_nat (List.length (corpus rag))
        /\ (forall cat,
              category_count (categories body) cat
              = Z.of_nat (List.length (chunks_of_category (corpus rag) cat)))
        /\ NoDup (map fst (categories body))
        /\ fold_right Z.add 0%Z (map snd (categories body))
           = total_documents body
    | None, HTTPException status_code _ => status_code = 503%Z
    | _, _ => False
    end.
Proof.
  intros srv. unfold get_stats.
  destruct (rag_system srv) as [rag|]; cbn [fst]; [|reflexivity].
  cbn [total_documents categories].
  destruct (count_categories_fold (corpus rag) [] (NoDup_nil _))
    as (H1 & H2 & H3).
  cbv zeta in *. split; [reflexivity|]. split.
  - intros cat. rewrite H2. cbn [category_count]. lia.
  - split; [assumption|]. rewrite H3. cbn. lia.
Qed.

(** *** The sources, sorted *)

Lemma leb_total (a : pystr) :
  forall b, PyStr.leb a b = false -> PyStr.leb b a = true.
Proof.
  induction a as [|x a IH]; intros [|y b]; cbn [PyStr.leb];
    try discriminate; [reflexivity|].
  destruct (N.ltb_spec x y), (N.eqb_spec x y), (N.ltb_spec y x),
    (N.eqb_spec y x); cbn; try lia; try discriminate; auto.
Qed.

Lemma leb_trans (a : pystr) :
  forall b c,
    PyStr.leb a b = true -> PyStr.leb b c = true -> PyStr.leb a c = true.
Proof.
  induction a as [|x a IH]; intros [|y b] [|z c]; cbn [PyStr.leb];
    try discriminate; try reflexivity.
  destruct (N.ltb_spec x y), (N.eqb_spec x y), (N.ltb_spec y z),
    (N.eqb_spec y z), (N.ltb_spec x z), (N.eqb_spec x z);
    cbn; try lia; try discriminate; auto.
  apply IH.
Qed.

Lemma insert_sorted_In x l y :
  In y (insert_sorted x l) <-> y = x \/ In y l.
Proof.
  induction l as [|z l IH]; cbn [insert_sorted].
  - cbn. intuition.
  - destruct (PyStr.leb x z); cbn [In]; [intuition|].
    rewrite IH. intuition.
Qed.

Lemma insert_sorted_Sorted x l :
  Sorted str_le l -> Sorted str_le (insert_sorted x l).
Proof.
  induction l as [|z l IH]; intros Hs; cbn [insert_sorted].
  - repeat constructor.
  - destruct (PyStr.leb x z) eqn:E.
    + constructor; [assumption|]. constructor. exact E.
    + inversion Hs as [|? ? Hl Hhd]; subst.
      constructor; [now apply IH|].
      destruct l as [|w l]; cbn [insert_sorted].
      * constructor. now apply leb_total.
      * destruct (PyStr.leb x w).
        -- constructor. now apply leb_total.
        -- constructor. now inversion Hhd.
Qed.

Lemma insert_sorted_NoDup x l :
  NoDup l -> ~ In x l -> NoDup (insert_sorted x l).
Proof.
  induction l as [|z l IH]; intros Hnd Hx; cbn [insert_sorted].
  - repeat constructor. intros [].
  - destruct (PyStr.leb x z); [now constructor|].
    inversion Hnd as [|? ? Hz Hl]; subst. constructor.
    + rewrite insert_sorted_In. intros [->|H]; [|now apply Hz].
      apply Hx. now left.
    + apply IH; [assumption|]. intros H. apply Hx. now right.
Qed.

Lemma sorted_spec (l : list pystr) :
  NoDup l ->
  Sorted str_le (PyStr.sorted l)
  /\ NoDup (PyStr.sorted l)
  /\ (forall y, In y (PyStr.sorted l) <-> In y l).
Proof.
  unfold PyStr.sorted. induction l as [|x l IH]; intros Hnd;
    cbn [fold_right].
  - repeat split; try constructor; auto.
  - inversion Hnd as [|? ? Hx Hl]; subst.
    destruct (IH Hl) as (H1 & H2 & H3). repeat split.
    + now apply insert_sorted_Sorted.
    + apply insert_sorted_NoDup; [assumption|]. now rewrite H3.
    + rewrite insert_sorted_In, H3. cbn. intuition.
    + rewrite insert_sorted_In, H3. cbn. intuition.
Qed.

Lemma set_add_spec (s : list pystr) (x : pystr) :
  NoDup s ->
  NoDup (set_add s x) /\ (forall y, In y (set_add s x) <-> y = x \/ In y s).
Proof.
  intros Hnd. unfold set_add.
  destruct (existsb (PyStr.eqb x) s) eqn:E.
  - apply existsb_eqb_In in E. split; [assumption|].
    intros y. split; [auto|]. intros [->|H]; assumption.
  - split.
    + apply NoDup_snoc; [assumption|]. intros H.
      apply existsb_eqb_In in H. congruence.
    + intros y. rewrite in_app_iff. cbn. intuition.
Qed.

Lemma sources_set_fold (corpus : list Chunk.t) :
  forall acc,
    NoDup acc ->
    let collected :=
      fold_left
        (fun acc d =>
           let source := before_sep (Chunk.source d) (py " - ") in
           if is_empty source then acc else set_add acc source)
        corpus acc in
    NoDup collected
    /\ (forall s, In s collected
                  <-> In s acc
                      \/ (s <> [] /\ exists d,
                              In d corpus /\ source_file d = s)).
Proof.
  induction corpus as [|d corpus IH]; intros acc Hnd; cbn [fold_left].
  - cbn. split; [assumption|]. intros s. split; [auto|].
    intros [H|(_ & d & [] & _)]. exact H.
  - cbv zeta. fold (source_file d).
    destruct (source_file d) as [|c rest] eqn:Esrc; cbn [is_empty].
    + destruct (IH acc Hnd) as (H1 & H2). cbv zeta in *.
      split; [assumption|]. intros s. rewrite H2. split.
      * intros [H|(Hs & d' & Hd' & E)]; [now left|].
        right. split; [assumption|]. exists d'. split; [now right | exact E].
      * intros [H|(Hs & d' & [<-|Hd'] & E)]; [now left | congruence|].
        right. split; [assumption|]. now exists d'.
    + destruct (set_add_spec acc (c :: rest) Hnd) as (Hnd' & Hin).
      destruct (IH _ Hnd') as (H1 & H2). cbv zeta in *.
      split; [assumption|]. intros s. rewrite H2, Hin. split.
      * intros [[->|H]|(Hs & d' & Hd' & E)].
        -- right. split; [discriminate|]. exists d. split; [now left|].
           exact Esrc.
        -- now left.
        -- right. split; [assumption|]. exists d'.
           split; [now right | exact E].
      * intros [H|(Hs & d' & [<-|Hd'] & E)].
        -- left. now right.
        -- left. left. congruence.
        -- right. split; [assumption|]. now exists d'.
Qed.

(** X13.  The sources of the stats endpoint.  On an initialised system the
    list is in ascending order without repetition, and it holds exactly the
    non-empty file names of the corpus: a name is listed if and only if it
    is what stands before " - " in the source of some chunk and is not
    empty. *)
Theorem stats_sources_sorted_and_complete :
  forall srv,
    match rag_system srv, fst (get_stats srv) with
    | Some rag, Http200 body =>
        Sorted str_le (sources body)
        /\ NoDup (sources body)
        /\ (forall s,
              In s (sources body)
              <-> s <> []
                  /\ exists d, In d (corpus rag) /\ source_file d = s)
    | None, HTTPException status_code _ => status_code = 503%Z
    | _, _ => False
    end.
Proof.
  intros srv. unfold get_stats.
  destruct (rag_system srv) as [rag|]; cbn [fst]; [|reflexivity].
  cbn [sources].
  destruct (sources_set_fold (corpus rag) [] (NoDup_nil _)) as (Hnd & Hin).
  cbv zeta in *.
  destruct (sorted_spec _ Hnd) as (H1 & H2 & H3).
  split; [assumption|]. split; [assumption|].
  intros s. rewrite H3, Hin. cbn [In]. tauto.
Qed.

(* ------------------------------------------------------------------ *)
(** ** Further properties: keywords and the decision to search *)

Module KeywordFacts.

Lemma startswith_spec (p : pystr) :
  forall s, startswith s p = true <-> exists post, s = p ++ post.
Proof.
  induction p as [|a p IH]; intros [|b s]; cbn [startswith app].
  - split; [exists []; reflexivity | reflexivity].
  - split; [exists (b :: s); reflexivity | reflexivity].
  - split; [discriminate | intros [post H]; discriminate].
  - rewrite andb_true_iff, N.eqb_eq, IH. split.
    + intros [-> [post ->]]. now exists post.
    + intros [post H]. injection H as -> ->. split; [reflexivity|].
      now exists post.
Qed.

Lemma contains_spec (needle : pystr) :
  forall hay,
    contains hay needle = true
    <-> exists pre post, hay = pre ++ needle ++ post.
Proof.
  induction hay as [|c hay IH]; cbn [contains].
  - rewrite orb_false_r, startswith_spec. split.
    + intros [post H]. now exists [], post.
    + intros (pre & post & H). destruct pre as [|x pre]; [|discriminate].
      now exists post.
  - rewrite orb_true_iff, startswith_spec, IH. split.
    + intros [[post H] | (pre & post & H)].
      * now exists [], post.
      * exists (c :: pre), post. cbn [app]. now rewrite H.
    + intros (pre & post & H). destruct pre as [|x pre].
      * left. now exists post.
      * right. cbn [app] in H. injection H as _ H. now exists pre, post.
Qed.

Lemma lstrip_keeps_needle (pre : pystr) (c : N) (rest post : pystr) :
  isspace c = false ->
  exists pre', lstrip (pre ++ (c :: rest) ++ post)
               = pre' ++ (c :: rest) ++ post.
Proof.
  intros Hc. induction pre as [|a pre IH]; cbn [app lstrip].
  - rewrite Hc. now exists [].
  - destruct (isspace a); [exact IH|]. now exists (a :: pre).
Qed.

Lemma rstrip_keeps_needle (pre rest : pystr) (c : N) (post : pystr) :
  isspace c = false ->
  exists post', rstrip (pre ++ (rest ++ [c]) ++ post)
                = pre ++ (rest ++ [c]) ++ post'.
Proof.
  intros Hc. unfold rstrip. rewrite !rev_app_distr. cbn [rev app].
  rewrite <- app_assoc.
  destruct (lstrip_keeps_needle (rev post) c (rev rest) (rev pre) Hc)
    as [pre' E].
  cbn [app] in E. cbn [app]. rewrite E.
  rewrite rev_app_distr. cbn [rev]. rewrite !rev_app_distr.
  rewrite !rev_involutive. cbn [rev app].
  exists (rev pre'). now rewrite <- !app_assoc.
Qed.

Lemma no_outer_space_spec (kw : pystr) :
  no_outer_space kw = true ->
  (exists c r, kw = c :: r /\ isspace c = false)
  /\ (exists r c, kw = r ++ [c] /\ isspace c = false).
Proof.
  unfold no_outer_space. rewrite andb_true_iff. intros [H1 H2]. split.
  - destruct kw as [|c r]; [discriminate|]. exists c, r.
    split; [reflexivity|]. now apply negb_true_iff.
  - destruct (rev kw) as [|c r] eqn:E; [discriminate|].
    exists (rev r), c. split; [|now apply negb_true_iff].
    rewrite <- (rev_involutive kw), E. reflexivity.
Qed.

Lemma contains_strip (hay needle : pystr) :
  no_outer_space needle = true ->
  contains hay needle = true -> contains (strip hay) needle = true.
Proof.
  intros Hkw. destruct (no_outer_space_spec needle Hkw)
    as ((c & r & E1 & Hc) & (r' & c' & E2 & Hc')).
  rewrite !contains_spec. intros (pre & post & ->). unfold strip.
  pose proof (lstrip_keeps_needle pre c r post Hc) as [pre' E].
  rewrite <- E1 in E. rewrite E.
  pose proof (rstrip_keeps_needle pre' r' c' post Hc') as [post' E'].
  rewrite <- E2 in E'. rewrite E'. now exists pre', post'.
Qed.

Lemma any_in_strip (kws : list pystr) (s : pystr) :
  forallb no_outer_space kws = true ->
  any_in kws s = true -> any_in kws (strip s) = true.
Proof.
  unfold any_in. rewrite forallb_forall, !existsb_exists.
  intros Hkws (kw & Hin & Hc). exists kw. split; [assumption|].
  apply contains_strip; [now apply Hkws | assumption].
Qed.

Lemma any_in_incl (kws kws' : list pystr) (s : pystr) :
  forallb (fun k => existsb (PyStr.eqb k) kws') kws = true ->
  any_in kws s = true -> any_in kws' s = true.
Proof.
  unfold any_in. rewrite forallb_forall, !existsb_exists.
  intros Hincl (kw & Hin & Hc). exists kw. split; [|assumption].
  apply existsb_eqb_In. now apply Hincl.
Qed.

End KeywordFacts.

Lemma category_keywords_trimmed :
  forallb no_outer_space (cultural_keywords ++ architectural_keywords)
  = true.
Proof. vm_compute. reflexivity. Qed.

Lemma category_keywords_require_search :
  forallb (fun k => existsb (PyStr.eqb k) keywords_requiring_search)
          (cultural_keywords ++ architectural_keywords)
  = true.
Proof. vm_compute. reflexivity. Qed.

Lemma greetings_require_no_search :
  forallb (fun g => negb (any_in keywords_requiring_search g))
          simple_greetings
  = true.
Proof. vm_compute. reflexivity. Qed.

Lemma any_in_app (kws kws' : list pystr) (s : pystr) :
  any_in (kws ++ kws') s = any_in kws s || any_in kws' s.
Proof. unfold any_in. apply existsb_app. Qed.

Lemma preference_needs_search (q : pystr) :
  prefer_culture q || prefer_architecture q = true ->
  _needs_database_search q = true.
Proof.
  unfold prefer_culture, prefer_architecture, _needs_database_search.
  cbv zeta. rewrite <- any_in_app. intros H.
  apply (KeywordFacts.any_in_incl _ _ _ category_keywords_require_search).
  apply (KeywordFacts.any_in_strip _ _ category_keywords_trimmed).
  exact H.
Qed.

Lemma search_is_no_greeting (q : pystr) :
  _needs_database_search q = true -> is_greeting q = false.
Proof.
  unfold _needs_database_search, is_greeting. cbv zeta. intros H.
  destruct (existsb _ simple_greetings) eqn:E; [|reflexivity].
  apply existsb_eqb_In in E.
  pose proof greetings_require_no_search as Hg.
  rewrite forallb_forall in Hg. specialize (Hg _ E).
  rewrite H in Hg. discriminate.
Qed.

Lemma ask_first_call_is_search ext st q llm history :
  _needs_database_search q = true ->
  exists evs,
    trace (snd (ask q llm history ext st))
    = trace st ++ EvAsk q :: EvQuery q (fetch_size q 5) :: evs.
Proof.
  intros Hneeds. pose proof (search_is_no_greeting q Hneeds) as Hgreet.
  unfold is_greeting in Hgreet.
  unfold ask, bind, emit. cbv beta iota. rewrite Hgreet, Hneeds.
  set (st0 := {| self := self st; trace := trace st ++ [EvAsk q] |}).
  pose proof (search_documents_trace ext st0 q 5) as Ht.
  assert (Hst0 : forall evs,
            (trace st0 ++ [EvQuery q (fetch_size q 5)]) ++ evs
            = trace st ++ EvAsk q :: EvQuery q (fetch_size q 5) :: evs).
  { intros evs. subst st0. cbn [trace]. now rewrite <- !app_assoc. }
  destruct (search_documents q 5 ext st0) as [[docs|e] st1]; cbn [snd] in Ht.
  2:{ exists []. cbn [snd]. now rewrite Ht, <- Hst0, app_nil_r. }
  destruct (generate_answer_hf_budget ext st1 q docs history)
    as (evs2 & Ht2 & _).
  exists evs2. rewrite <- Hst0, <- Ht, <- Ht2.
  destruct (generate_answer_hf q docs history ext st1) as [[answer|e] st2];
    cbn [snd]; [|reflexivity].
  assert (Hsrc : snd ((if true && negb (is_empty docs)
                       then sources_of (firstn 3 docs) else ret [])
                        ext st2) = st2).
  { destruct (_ && _); [apply sources_of_state | reflexivity]. }
  destruct ((if true && negb (is_empty docs)
             then sources_of (firstn 3 docs) else ret []) ext st2)
    as [[sources|e] st3]; cbn [snd] in *; now subst.
Qed.

(** X14.  A question that names a cultural or an architectural keyword is
    never answered without the store.  Every such question, in any
    spelling of upper and lower case, is one for which
    [_needs_database_search] holds and which is no greeting, and the first
    outside call of [ask] is then a query of the store for 15 results with
    the question as it was asked, whatever [use_llm] and the history. *)
Theorem keyword_question_queries_store_first :
  forall ext st q llm history,
    prefer_culture q || prefer_architecture q = true ->
    _needs_database_search q = true
    /\ is_greeting q = false
    /\ exists evs,
         trace (snd (ask q llm history ext st))
         = trace st ++ EvAsk q :: EvQuery q 15 :: evs.
Proof.
  intros ext st q llm history Hpref.
  pose proof (preference_needs_search q Hpref) as Hneeds.
  split; [assumption|]. split; [now apply search_is_no_greeting|].
  destruct (ask_first_call_is_search ext st q llm history Hneeds)
    as [evs Hevs].
  exists evs. rewrite Hevs. unfold fetch_size. rewrite Hpref.
  reflexivity.
Qed.

Lemma keyword_question_queries_store_first_witness :
  prefer_culture (py "Qui sont les GRIOTS ?")
  || prefer_architecture (py "Qui sont les GRIOTS ?") = true
  /\ _needs_database_search (py "Qui sont les GRIOTS ?") = true.
Proof.
  assert (H : prefer_culture (py "Qui sont les GRIOTS ?")
              || prefer_architecture (py "Qui sont les GRIOTS ?") = true).
  { vm_compute. reflexivity. }
  split; [exact H|].
  exact (proj1 (keyword_question_queries_store_first
                  Sample.ext_steady (Sample.state_of true [Sample.balafon])
                  (py "Qui sont les GRIOTS ?") true None H)).
Defined.

(* ------------------------------------------------------------------ *)
(** ** Further properties: a greeting sent to the chat endpoint *)

Module LowerFacts.

Ltac read_bounds :=
  repeat match goal with
    | H : (_ && _)%bool = true |- _ =>
        apply andb_true_iff in H; destruct H
    | H : (_ || _)%bool = true |- _ =>
        apply orb_true_iff in H; destruct H
    | H : negb _ = true |- _ => apply negb_true_iff in H
    | H : (_ <=? _)%N = true |- _ => apply N.leb_le in H
    | H : (_ <? _)%N = false |- _ => apply N.ltb_ge in H
    | H : (_ =? _)%N = true |- _ => apply N.eqb_eq in H
    | H : (_ =? _)%N = false |- _ => apply N.eqb_neq in H
    end.

(** The white space of [isspace], one code point after the other. *)
Definition white_space : list N :=
  [ 9; 10; 11; 12; 13; 28; 29; 30; 31; 32; 133; 160; 5760; 8192; 8193; 8194;
    8195; 8196; 8197; 8198; 8199; 8200; 8201; 8202; 8232; 8233; 8239; 8287;
    12288 ]%N.

Lemma isspace_white_space (c : N) : isspace c = true -> In c white_space.
Proof.
  unfold isspace. intros H. read_bounds; unfold white_space; cbn [In]; lia.
Qed.

(** No white space is changed by [lower_table], and none is the lowercase
    of anything. *)
Definition apart_from_white_space (row : N * N * N * N) : bool :=
  let '(first, last, _, target) := row in
  forallb
    (fun w =>
       negb ((first <=? w) && (w <=? last))
       && negb ((target <=? w) && (w <=? target + (last - first))))%N
    white_space.

Lemma lower_table_apart :
  forallb apart_from_white_space lower_table = true.
Proof. vm_compute. reflexivity. Qed.

Lemma simple_lower_cases (table : list (N * N * N * N)) (c : N) :
  simple_lower table c = c
  \/ exists first last step target,
       In (first, last, step, target) table
       /\ (first <= c <= last)%N
       /\ simple_lower table c = (target + (c - first))%N.
Proof.
  induction table as [|[[[first last] step] target] table IH];
    cbn [simple_lower]; [now left|].
  destruct (c <? first)%N eqn:E1; [now left|].
  destruct ((c <=? last) && ((c - first) mod step =? 0))%N eqn:E2.
  - right. exists first, last, step, target. read_bounds.
    split; [now left|]. split; [lia | reflexivity].
  - destruct IH as [IH | (f & l & s & g & Hin & Hc & E)]; [now left|].
    right. exists f, l, s, g. split; [now right|]. now split.
Qed.

Lemma row_apart (first last step target w : N) :
  In (first, last, step, target) lower_table ->
  In w white_space ->
  ~ (first <= w <= last)%N
  /\ ~ (target <= w <= target + (last - first))%N.
Proof.
  intros Hrow Hw. pose proof lower_table_apart as H.
  rewrite forallb_forall in H. specialize (H _ Hrow).
  unfold apart_from_white_space in H.
  rewrite forallb_forall in H. specialize (H _ Hw).
  apply andb_true_iff in H. destruct H as [H1 H2].
  apply negb_true_iff in H1, H2. split; intros [Ha Hb].
  - apply N.leb_le in Ha, Hb. rewrite Ha, Hb in H1. discriminate.
  - apply N.leb_le in Ha, Hb. rewrite Ha, Hb in H2. discriminate.
Qed.

Lemma simple_lower_isspace (c : N) :
  isspace (simple_lower lower_table c) = isspace c.
Proof.
  destruct (simple_lower_cases lower_table c)
    as [-> | (first & last & step & target & Hrow & Hc & E)];
    [reflexivity|].
  destruct (isspace c) eqn:Hs.
  - apply isspace_white_space in Hs.
    destruct (row_apart _ _ _ _ c Hrow Hs) as [H _]. now contradiction H.
  - destruct (isspace (simple_lower lower_table c)) eqn:Hs';
      [|reflexivity].
    apply isspace_white_space in Hs'.
    destruct (row_apart _ _ _ _ _ Hrow Hs') as [_ H].
    contradiction H. rewrite E. lia.
Qed.

(** A small letter of the ASCII alphabet. *)
Definition small_letter (x : N) : bool := ((97 <=? x) && (x <=? 122))%N.

(** What [lower] makes of one character: something of the same kind,
    white space or not, and a single character whenever it is made of
    small ASCII letters. *)
Definition same_kind (c : N) (piece : pystr) : Prop :=
  piece <> []
  /\ forallb (fun x => Bool.eqb (isspace x) (isspace c)) piece = true
  /\ (forallb small_letter piece = true -> List.length piece = 1).

Lemma lower_at_same_kind (before after : pystr) (c : N) :
  same_kind c (lower_at before after c).
Proof.
  unfold lower_at. destruct (N.eqb_spec c 931) as [->|Hsigma].
  { destruct (final_sigma before after);
      (split; [discriminate|]); split; reflexivity. }
  unfold lower_cp. destruct (N.eqb_spec c 304) as [->|Hdot].
  { split; [discriminate|]. split; [reflexivity|].
    intros H. discriminate H. }
  split; [discriminate|]. split; [|reflexivity].
  cbn [forallb]. rewrite simple_lower_isspace.
  now destruct (isspace c).
Qed.

Fixpoint lower_pieces (before s : pystr) : list pystr :=
  match s with
  | [] => []
  | c :: rest => lower_at before rest c :: lower_pieces (c :: before) rest
  end.

Lemma lower_go_pieces (s : pystr) :
  forall before, lower_go before s = List.concat (lower_pieces before s).
Proof.
  induction s as [|c s IH]; intros before; [reflexivity|].
  cbn [lower_go lower_pieces List.concat]. now rewrite IH.
Qed.

Lemma lower_pieces_kind (s : pystr) :
  forall before, Forall2 same_kind s (lower_pieces before s).
Proof.
  induction s as [|c s IH]; intros before; cbn [lower_pieces];
    constructor; [apply lower_at_same_kind | apply IH].
Qed.

Lemma lstrip_spaces (p s : pystr) :
  forallb isspace p = true -> lstrip (p ++ s) = lstrip s.
Proof.
  induction p as [|x p IH]; cbn [forallb app lstrip]; [reflexivity|].
  intros H. apply andb_true_iff in H. destruct H as [-> H]. now apply IH.
Qed.

Lemma lstrip_pieces (q : pystr) (ps : list pystr) :
  Forall2 same_kind q ps ->
  exists q1 ps1,
    lstrip q = q1 /\ lstrip (List.concat ps) = List.concat ps1
    /\ Forall2 same_kind q1 ps1.
Proof.
  induction 1 as [|c p q ps Hk Hrest IH].
  - exists [], []. repeat split. constructor.
  - destruct Hk as (Hne & Hkind & Hone). cbn [List.concat lstrip].
    destruct (isspace c) eqn:Hc.
    + rewrite lstrip_spaces.
      * exact IH.
      * rewrite forallb_forall in *. intros x Hx.
        specialize (Hkind x Hx). now destruct (isspace x).
    + destruct p as [|x xs]; [now contradiction Hne|].
      exists (c :: q), ((x :: xs) :: ps).
      split; [reflexivity|]. split.
      * cbn [List.concat app lstrip]. cbn [forallb] in Hkind.
        apply andb_true_iff in Hkind. destruct Hkind as [Hx _].
        destruct (isspace x); [discriminate Hx | reflexivity].
      * constructor; [|assumption].
        unfold same_kind. rewrite Hc.
        exact (conj Hne (conj Hkind Hone)).
Qed.

Lemma same_kind_rev (c : N) (p : pystr) :
  same_kind c p -> same_kind c (rev p).
Proof.
  intros (Hne & Hkind & Hone). split; [|split].
  - intros E. apply Hne. rewrite <- (rev_involutive p), E. reflexivity.
  - rewrite forallb_forall in *. intros x Hx. apply Hkind.
    now apply in_rev.
  - intros H. rewrite length_rev. apply Hone.
    rewrite forallb_forall in *. intros x Hx. apply H.
    now apply -> in_rev.
Qed.

Lemma pieces_rev (q : pystr) (ps : list pystr) :
  Forall2 same_kind q ps ->
  Forall2 same_kind (rev q) (map (@rev N) (rev ps)).
Proof.
  induction 1 as [|c p q ps Hk Hrest IH]; [constructor|].
  cbn [rev]. rewrite map_app. apply Forall2_app; [exact IH|].
  cbn [map]. constructor; [now apply same_kind_rev | constructor].
Qed.

Lemma rev_concat (ps : list pystr) :
  rev (List.concat ps) = List.concat (map (@rev N) (rev ps)).
Proof.
  induction ps as [|p ps IH]; [reflexivity|].
  cbn [List.concat rev]. rewrite rev_app_distr, IH, map_app, concat_app.
  cbn [map List.concat]. now rewrite app_nil_r.
Qed.

Lemma strip_pieces (q : pystr) (ps : list pystr) :
  Forall2 same_kind q ps ->
  exists q' ps',
    strip q = q' /\ strip (List.concat ps) = List.concat ps'
    /\ Forall2 same_kind q' ps'.
Proof.
  intros H. unfold strip, rstrip.
  destruct (lstrip_pieces q ps H) as (q1 & ps1 & -> & -> & H1).
  rewrite rev_concat.
  destruct (lstrip_pieces _ _ (pieces_rev q1 ps1 H1))
    as (q2 & ps2 & -> & -> & H2).
  exists (rev q2), (map (@rev N) (rev ps2)).
  split; [reflexivity|]. split; [apply rev_concat|].
  now apply pieces_rev.
Qed.

Lemma pieces_length (q : pystr) (ps : list pystr) :
  Forall2 same_kind q ps ->
  forallb small_letter (List.concat ps) = true ->
  List.length (List.concat ps) = List.length q.
Proof.
  induction 1 as [|c p q ps Hk Hrest IH]; [reflexivity|].
  cbn [List.concat]. rewrite forallb_app, andb_true_iff, length_app.
  intros [H1 H2]. destruct Hk as (_ & _ & Hone).
  rewrite (Hone H1), (IH H2). reflexivity.
Qed.

(** Lowering a text whose stripped lowercase is made of small ASCII
    letters does not change the length of its stripped text. *)
Lemma strip_lower_length (q : pystr) :
  forallb small_letter (strip (lower q)) = true ->
  List.length (strip (lower q)) = List.length (strip q).
Proof.
  unfold lower. rewrite lower_go_pieces.
  destruct (strip_pieces q _ (lower_pieces_kind q []))
    as (q' & ps' & -> & -> & H).
  now apply pieces_length.
Qed.

End LowerFacts.

Lemma greetings_are_small_letters :
  forallb (forallb LowerFacts.small_letter) simple_greetings = true.
Proof. vm_compute. reflexivity. Qed.

Lemma greetings_of_three_letters :
  forallb (fun g => PyStr.eqb g (py "hi") || (3 <=? List.length g))
          simple_greetings
  = true.
Proof. vm_compute. reflexivity. Qed.

Lemma greeting_length (q : pystr) :
  is_greeting q = true ->
  List.length (strip q) = List.length (strip (lower q))
  /\ (PyStr.eqb (strip (lower q)) (py "hi") = true
      \/ 3 <= List.length (strip (lower q))).
Proof.
  unfold is_greeting. intros H. apply existsb_eqb_In in H. split.
  - symmetry. apply LowerFacts.strip_lower_length.
    pose proof greetings_are_small_letters as Hg.
    rewrite forallb_forall in Hg. now apply Hg.
  - pose proof greetings_of_three_letters as Hg.
    rewrite forallb_forall in Hg. specialize (Hg _ H).
    apply orb_true_iff in Hg. destruct Hg as [Hg|Hg]; [now left|].
    right. now apply Nat.leb_le.
Qed.

(** X15.  A greeting sent to the chat endpoint.  On an initialised system a
    question that [ask] takes for a greeting is answered 200 with the
    fixed greeting and no sources, the store and the model not being
    called, whatever their state - except the greeting "hi", in any
    spelling and with any white space around it: its two letters are fewer
    than the three the endpoint asks for, so it is refused with status 400
    and never reaches [ask]. *)
Theorem greeting_through_chat_endpoint :
  forall ext request srv rag,
    rag_system srv = Some rag ->
    is_greeting (question request) = true ->
    chat ext request srv
    = if PyStr.eqb (strip (lower (question request))) (py "hi")
      then (HTTPException 400 (py "Question trop courte"), srv)
      else (Http200 {| resp_question := question request;
                       resp_answer := greeting_answer;
                       resp_sources := [] |},
            {| rag_system := Some rag;
               calls := calls srv ++ [EvAsk (question request)] |}).
Proof.
  intros ext request srv rag Hrag Hgreet.
  destruct (greeting_length (question request) Hgreet) as (Hlen & Hcases).
  unfold chat. rewrite Hrag.
  destruct (PyStr.eqb (strip (lower (question request))) (py "hi")) eqn:Ehi.
  - apply eqb_eq in Ehi. rewrite Ehi in Hlen.
    change (List.length (py "hi")) with 2 in Hlen.
    rewrite Hlen. change (2 <? 3) with true. now rewrite orb_true_r.
  - destruct Hcases as [H|H]; [discriminate|].
    rewrite <- Hlen in H.
    assert (Hq : is_empty (question request) = false).
    { destruct (question request); [cbn in H; lia | reflexivity]. }
    rewrite Hq. apply Nat.ltb_ge in H. rewrite H. cbn [orb].
    unfold is_greeting in Hgreet.
    unfold ask, bind, emit. cbv beta iota zeta. rewrite Hgreet.
    reflexivity.
Qed.

Lemma greeting_through_chat_endpoint_witness :
  is_greeting (py " Hi ") = true
  /\ fst (chat Sample.ext_down (Sample.request_of (py " Hi "))
            (Sample.server_of true [Sample.balafon]))
     = HTTPException 400 (py "Question trop courte").
Proof.
  assert (H : is_greeting (py " Hi ") = true) by (vm_compute; reflexivity).
  split; [exact H|].
  rewrite (greeting_through_chat_endpoint Sample.ext_down
             (Sample.request_of (py " Hi "))
             (Sample.server_of true [Sample.balafon])
             (Sample.rag_of true [Sample.balafon]) eq_refl H).
  reflexivity.
Defined.

(* ------------------------------------------------------------------ *)
(** ** Further properties: the sources of an answer *)

Lemma sources_of_spec (docs : list doc) :
  forall ext st,
    match fst (sources_of docs ext st) with
    | Ok sources => map source_ref_of docs = map Some sources
    | Raise _ => exists d, In d docs /\ source_ref_of d = None
    end.
Proof.
  induction docs as [|d docs IH]; intros ext st; cbn [sources_of].
  - reflexivity.
  - unfold bind, metadata_item.
    destruct (dict_get (metadata d) (py "title")) as [t|] eqn:Et.
    2:{ cbn [fst raise]. exists d. split; [now left|].
        unfold source_ref_of. now rewrite Et. }
    destruct (dict_get (metadata d) (py "source")) as [s|] eqn:Es.
    2:{ cbn [fst raise]. exists d. split; [now left|].
        unfold source_ref_of. now rewrite Et, Es. }
    destruct (dict_get (metadata d) (py "category")) as [c|] eqn:Ec.
    2:{ cbn [fst raise]. exists d. split; [now left|].
        unfold source_ref_of. now rewrite Et, Es, Ec. }
    unfold ret at 1 2 3. cbv beta iota. specialize (IH ext st).
    destruct (sources_of docs ext st) as [[more|e] st1]; cbn [fst] in *.
    + unfold ret. cbn [fst map]. rewrite IH. unfold source_ref_of.
      now rewrite Et, Es, Ec.
    + destruct IH as (d' & Hin & Hd'). exists d'. split; [now right|].
      exact Hd'.
Qed.

Lemma search_documents_hits ext st query n hits :
  chroma_query ext (trace st) (collection (self st)) query
    (fetch_size query n) = Ok hits ->
  search_documents query n ext st
  = (Ok (firstn (Z.to_nat n)
           (filter (passes_filter
                      (prefer_culture query
                       && negb (prefer_architecture query))) hits)),
     {| self := self st;
        trace := trace st ++ [EvQuery query (fetch_size query n)] |}).
Proof.
  unfold search_documents, bind, collection_query, ret, fetch_size.
  cbv beta iota zeta. intros ->. now rewrite kept_and_sliced.
Qed.

(** X16.  The sources of an answer.  For a question that needs the store,
    when the store answers the search with [hits]: the sources [ask]
    returns are the title, source and category of the first three hits
    that pass the category filter, in the order of the store - whatever
    the model and the widened search do - and when there is one the answer
    ends with the list of their [source] fields under the sources header;
    [ask] raises only if one of these three hits lacks one of the keys. *)
Theorem ask_sources_are_first_three_hits :
  forall ext st q llm history hits,
    _needs_database_search q = true ->
    chroma_query ext (trace st ++ [EvAsk q]) (collection (self st)) q
      (fetch_size q 5) = Ok hits ->
    let shown :=
      firstn 3
        (filter (passes_filter
                   (prefer_culture q && negb (prefer_architecture q)))
                hits) in
    match fst (ask q llm history ext st) with
    | Ok result =>
        map source_ref_of shown = map Some (res_sources result)
        /\ (shown <> [] ->
            exists body,
              res_answer result
              = body ++ sources_header
                  ++ join nl (map source_line (res_sources result)))
    | Raise _ => exists d, In d shown /\ source_ref_of d = None
    end.
Proof.
  intros ext st q llm history hits Hneeds Hquery shown.
  pose proof (search_is_no_greeting q Hneeds) as Hgreet.
  unfold is_greeting in Hgreet.
  unfold ask, bind, emit. cbv beta iota. rewrite Hgreet, Hneeds.
  set (st0 := {| self := self st; trace := trace st ++ [EvAsk q] |}).
  rewrite (search_documents_hits ext st0 q 5 hits Hquery).
  set (found := filter _ hits) in *.
  set (st1 := {| self := self st0; trace := _ |}).
  destruct (returns_generate_answer_hf q (firstn (Z.to_nat 5) found)
              history ext st1) as [answer Ha].
  destruct (generate_answer_hf q (firstn (Z.to_nat 5) found) history ext st1)
    as [[a|e] st2]; cbn [fst] in Ha; [|discriminate].
  assert (Hshown : firstn 3 (firstn (Z.to_nat 5) found) = shown).
  { subst shown. rewrite firstn_firstn. reflexivity. }
  cbn [andb].
  destruct (firstn (Z.to_nat 5) found) as [|d docs] eqn:Edocs.
  - cbn [is_empty negb]. unfold ret. cbn [fst res_sources].
    rewrite <- Hshown. cbn [firstn map].
    split; [reflexivity|]. intros H. now contradiction H.
  - cbn [is_empty negb]. rewrite Hshown.
    pose proof (sources_of_spec shown ext st2) as Hsrc.
    destruct (sources_of shown ext st2) as [[sources|e] st3];
      cbn [fst] in Hsrc |- *; [|exact Hsrc].
    unfold ret. cbn [fst res_sources res_answer].
    split; [exact Hsrc|]. intros Hne.
    destruct sources as [|s sources].
    + destruct shown; [now contradiction Hne | discriminate Hsrc].
    + exists (strip a). reflexivity.
Qed.

Lemma ask_sources_are_first_three_hits_witness :
  _needs_database_search (py "Qui sont les GRIOTS ?") = true
  /\ chroma_query Sample.ext_steady
       (trace (Sample.state_of true [Sample.balafon; Sample.grenier])
          ++ [EvAsk (py "Qui sont les GRIOTS ?")])
       (collection
          (self (Sample.state_of true [Sample.balafon; Sample.grenier])))
       (py "Qui sont les GRIOTS ?")
       (fetch_size (py "Qui sont les GRIOTS ?") 5)
     = Ok (map Sample.doc_of_entry
             (map entry_of_chunk [Sample.balafon; Sample.grenier]))
  /\ match
       fst (ask (py "Qui sont les GRIOTS ?") false None Sample.ext_steady
              (Sample.state_of true [Sample.balafon; Sample.grenier]))
     with
     | Ok result =>
         map source_ref_of
           (firstn 3
              (filter
                 (passes_filter
                    (prefer_culture (py "Qui sont les GRIOTS ?")
                     && negb
                          (prefer_architecture
                             (py "Qui sont les GRIOTS ?"))))
                 (map Sample.doc_of_entry
                    (map entry_of_chunk [Sample.balafon; Sample.grenier]))))
         = map Some (res_sources result)
     | Raise _ => False
     end.
Proof.
  assert (H1 : _needs_database_search (py "Qui sont les GRIOTS ?") = true)
    by (vm_compute; reflexivity).
  assert (H2 : chroma_query Sample.ext_steady
                 (trace
                    (Sample.state_of true [Sample.balafon; Sample.grenier])
                    ++ [EvAsk (py "Qui sont les GRIOTS ?")])
                 (collection
                    (self
                       (Sample.state_of true
                          [Sample.balafon; Sample.grenier])))
                 (py "Qui sont les GRIOTS ?")
                 (fetch_size (py "Qui sont les GRIOTS ?") 5)
               = Ok (map Sample.doc_of_entry
                       (map entry_of_chunk
                          [Sample.balafon; Sample.grenier])))
    by (vm_compute; reflexivity).
  split; [exact H1|]. split; [exact H2|].
  pose proof (ask_sources_are_first_three_hits Sample.ext_steady
                (Sample.state_of true [Sample.balafon; Sample.grenier])
                (py "Qui sont les GRIOTS ?") false None _ H1 H2) as H.
  cbv zeta in H.
  destruct (fst (ask (py "Qui sont les GRIOTS ?") false None
                   Sample.ext_steady
                   (Sample.state_of true [Sample.balafon; Sample.grenier])))
    as [result|e].
  - exact (proj1 H).
  - destruct H as (d & Hin & Hd). vm_compute in Hin.
    destruct Hin as [<-|[]]. vm_compute in Hd. discriminate Hd.
Defined.

(* ------------------------------------------------------------------ *)
(** ** Further properties: answers without a model *)

Lemma expanded_search_documents (terms : list pystr) :
  forall acc ext st,
    fst (expanded_search terms acc ext st)
    = Ok (acc ++ widened_documents ext (collection (self st)) (trace st)
                   terms).
Proof.
  induction terms as [|t terms IH]; intros acc ext st;
    cbn [expanded_search widened_documents].
  - unfold ret. cbn [fst]. now rewrite app_nil_r.
  - unfold bind, try_except, collection_query.
    destruct (chroma_query ext (trace st) (collection (self st)) t 3%Z)
      as [hits|e]; unfold ret; cbv beta iota; rewrite IH;
      cbn [trace self returned_documents]; now rewrite <- app_assoc.
Qed.

(** X17.  Answers without a model.  When no Gemini client is configured,
    [generate_answer_hf] adds no notice to its answer and reads neither
    the history nor the prompt.  With context documents it returns their
    fallback answer as it is and calls nothing.  Without any, the answer
    is made from the documents of the widened search - the hits of its
    three queries in order, a failing query giving none - and is the
    apology alone when there are none. *)
Theorem generate_answer_hf_without_client :
  forall ext st q context_docs history,
    gemini_client (self st) = false ->
    (context_docs <> [] ->
     generate_answer_hf q context_docs history ext st
     = (Ok (_fallback_answer context_docs q), st))
    /\ (context_docs = [] ->
        fst (generate_answer_hf q context_docs history ext st)
        = Ok match
               widened_documents ext (collection (self st)) (trace st)
                 general_terms
             with
             | [] => apology_template
             | d :: ds => _fallback_answer (firstn 5 (d :: ds)) q
             end).
Proof.
  intros ext st q docs history Hclient. split.
  - intros Hdocs. unfold generate_answer_hf, bind.
    fold (history_or_empty history). cbv zeta.
    rewrite call_gemini_run, Hclient.
    destruct docs as [|d docs]; [now contradiction Hdocs|].
    reflexivity.
  - intros ->. rewrite generate_answer_hf_run, call_gemini_run, Hclient.
    cbn [fst snd]. unfold fallback_reply. cbv zeta.
    rewrite (expanded_search_documents general_terms [] ext st).
    cbn [app]. now destruct (widened_documents _ _ _ _).
Qed.

Lemma generate_answer_hf_without_client_witness :
  gemini_client (self (Sample.state_of false [Sample.balafon])) = false
  /\ generate_answer_hf (py "Parle-moi du balafon") Sample.echo_docs None
       Sample.ext_down (Sample.state_of false [Sample.balafon])
     = (Ok (_fallback_answer Sample.echo_docs (py "Parle-moi du balafon")),
        Sample.state_of false [Sample.balafon]).
Proof.
  assert (H : gemini_client (self (Sample.state_of false [Sample.balafon]))
              = false) by reflexivity.
  split; [exact H|].
  refine (proj1 (generate_answer_hf_without_client Sample.ext_down
                   (Sample.state_of false [Sample.balafon])
                   (py "Parle-moi du balafon") Sample.echo_docs None H) _).
  unfold Sample.echo_docs. discriminate.
Defined.

(* ------------------------------------------------------------------ *)
(** ** Further properties: what the fallback answer reads and how it ends *)

Lemma firstn_3_idempotent {A} (l : list A) :
  firstn 3 (firstn 3 l) = firstn 3 l.
Proof. rewrite firstn_firstn. reflexivity. Qed.

Lemma firstn_3_of_5 {A} (l : list A) : firstn 3 (firstn 5 l) = firstn 3 l.
Proof. rewrite firstn_firstn. reflexivity. Qed.

Lemma fallback_answer_firstn (docs : list doc) (q : pystr) :
  _fallback_answer docs q = _fallback_answer (firstn 3 docs) q.
Proof.
  unfold _fallback_answer. cbv zeta. rewrite firstn_3_idempotent.
  destruct docs as [|d docs]; cbn [firstn]; reflexivity.
Qed.

(** X18.  [_fallback_answer] reads the first three documents only: two
    lists of documents that agree on their first three give the same
    answer.  So the five documents of the widened search that
    [generate_answer_hf] hands over count for three. *)
Theorem fallback_answer_reads_three_documents :
  forall docs docs' q,
    firstn 3 docs = firstn 3 docs' ->
    _fallback_answer docs q = _fallback_answer docs' q
    /\ _fallback_answer (firstn 5 docs) q = _fallback_answer docs q.
Proof.
  intros docs docs' q H. split.
  - rewrite (fallback_answer_firstn docs q), H.
    symmetry. apply fallback_answer_firstn.
  - rewrite (fallback_answer_firstn (firstn 5 docs) q), firstn_3_of_5.
    symmetry. apply fallback_answer_firstn.
Qed.

Lemma fallback_answer_reads_three_documents_witness :
  firstn 3 (Sample.echo_docs
              ++ Sample.doc_of_entry (entry_of_chunk Sample.balafon)
                 :: Sample.echo_docs)
  = firstn 3 (Sample.echo_docs
                ++ [Sample.doc_of_entry (entry_of_chunk Sample.balafon)])
  /\ _fallback_answer
       (Sample.echo_docs
          ++ Sample.doc_of_entry (entry_of_chunk Sample.balafon)
             :: Sample.echo_docs)
       (py "Quoi ?")
     = _fallback_answer
         (Sample.echo_docs
            ++ [Sample.doc_of_entry (entry_of_chunk Sample.balafon)])
         (py "Quoi ?").
Proof.
  assert (H : firstn 3 (Sample.echo_docs
                          ++ Sample.doc_of_entry
                               (entry_of_chunk Sample.balafon)
                             :: Sample.echo_docs)
              = firstn 3 (Sample.echo_docs
                            ++ [Sample.doc_of_entry
                                  (entry_of_chunk Sample.balafon)]))
    by reflexivity.
  split; [exact H|].
  exact (proj1 (fallback_answer_reads_three_documents _ _
                  (py "Quoi ?") H)).
Defined.

Lemma ends_with_terminator_dot (s : pystr) :
  ends_with_terminator (s ++ py ".") = true.
Proof.
  unfold ends_with_terminator. rewrite py_dot, rev_app_distr. reflexivity.
Qed.

Lemma ends_with_terminator_dots (s : pystr) :
  ends_with_terminator (s ++ py "...") = true.
Proof.
  unfold ends_with_terminator. rewrite py_dots, rev_app_distr. reflexivity.
Qed.

Lemma finish_answer_ends (intro : pystr) (sentences : list pystr) :
  ends_with_terminator (finish_answer intro sentences) = true.
Proof.
  unfold finish_answer. cbv zeta.
  destruct (600 <? _); [apply ends_with_terminator_dots|].
  destruct (ends_with_terminator (strip (intro ++ join (py " ") sentences)))
    eqn:E; [exact E | apply ends_with_terminator_dot].
Qed.

(** X19.  How the fallback answer ends.  Whenever [_fallback_answer] has
    kept a sentence of the documents, its answer ends with a full stop, an
    exclamation mark or a question mark - the one of the text, the full
    stop it adds, or the last of the three dots of a cut answer. *)
Theorem fallback_answer_ends_with_terminator :
  forall docs q,
    fst (combine_docs (firstn 3 docs) [] 0) <> [] ->
    ends_with_terminator (_fallback_answer docs q) = true.
Proof.
  intros docs q H. unfold _fallback_answer. cbv zeta.
  destruct docs as [|d docs]; [now contradiction H|].
  destruct (fst (combine_docs (firstn 3 (d :: docs)) [] 0)) as [|s kept];
    [now contradiction H|].
  apply finish_answer_ends.
Qed.

Lemma fallback_answer_ends_with_terminator_witness :
  fst (combine_docs (firstn 3 Sample.echo_docs) [] 0) <> []
  /\ ends_with_terminator
       (_fallback_answer Sample.echo_docs (py "Quoi ?")) = true.
Proof.
  assert (H : fst (combine_docs (firstn 3 Sample.echo_docs) [] 0) <> []).
  { vm_compute. discriminate. }
  split; [exact H|].
  exact (fallback_answer_ends_with_terminator Sample.echo_docs
           (py "Quoi ?") H).
Defined.

(* ------------------------------------------------------------------ *)
(** ** Further properties: what the prompt carries *)

Module PromptFacts.

Lemma passage_join (sep x : pystr) (parts : list pystr) :
  In x parts -> passage x (join sep parts).
Proof.
  induction parts as [|p parts IH]; [intros []|].
  destruct parts as [|p' parts].
  - intros [<-|[]]. apply passage_refl.
  - change (join sep (p :: p' :: parts))
      with (p ++ sep ++ join sep (p' :: parts)).
    intros [<-|H].
    + now exists [], (sep ++ join sep (p' :: parts)).
    + destruct (IH H) as (b & a & E). exists (p ++ sep ++ b), a.
      rewrite E. now rewrite <- !app_assoc.
Qed.

Lemma passage_nil (t : pystr) : passage [] t.
Proof. now exists [], t. Qed.

Lemma passage_after (label s : pystr) : passage s (label ++ s).
Proof. exists label, []. now rewrite app_nil_r. Qed.

Tactic Notation "line" integer(n) :=
  apply passage_join; do n right; left; reflexivity.

Tactic Notation "question_line" integer(n) :=
  eapply passage_trans;
  [ | apply passage_join; do n right; left; reflexivity ];
  apply passage_after.

Ltac eval_lengths :=
  repeat match goal with
    | |- context [List.length (py ?s)] =>
        let n := eval vm_compute in (List.length (py s)) in
        change (List.length (py s)) with n
    end;
  change (List.length nl) with 1;
  change (List.length dq) with 1.

Ltac template_length :=
  unfold lines; cbn [join]; rewrite !length_app; eval_lengths;
  cbn [List.length]; lia.

Lemma prompt_plain_spec (q : pystr) :
  passage q (prompt_plain q)
  /\ List.length (prompt_plain q) = 565 + List.length q.
Proof.
  unfold prompt_plain. split; [unfold lines; question_line 2|].
  template_length.
Qed.

Lemma prompt_history_spec (h q : pystr) :
  passage q (prompt_history h q)
  /\ passage h (prompt_history h q)
  /\ List.length (prompt_history h q)
     = 559 + List.length h + List.length q.
Proof.
  unfold prompt_history. split; [unfold lines; question_line 5|].
  split; [unfold lines; line 3|]. template_length.
Qed.

Lemma prompt_context_spec (c q : pystr) :
  passage q (prompt_context c q)
  /\ passage c (prompt_context c q)
  /\ List.length (prompt_context c q)
     = 669 + List.length c + List.length q.
Proof.
  unfold prompt_context. split; [unfold lines; question_line 5|].
  split; [unfold lines; line 3|]. template_length.
Qed.

Lemma prompt_context_history_spec (h c q : pystr) :
  passage q (prompt_context_history h c q)
  /\ passage h (prompt_context_history h c q)
  /\ passage c (prompt_context_history h c q)
  /\ List.length (prompt_context_history h c q)
     = 800 + List.length h + List.length c + List.length q.
Proof.
  unfold prompt_context_history.
  split; [unfold lines; question_line 8|].
  split; [unfold lines; line 3|]. split; [unfold lines; line 6|].
  template_length.
Qed.

End PromptFacts.

Lemma history_text_of_length (h : list dict) :
  List.length (history_text_of h) <= 984.
Proof.
  destruct h as [|m0 h0] using rev_ind; [cbn; lia|]. clear IHh0.
  rewrite history_text_of_snoc. destruct h0 as [|m h]; [cbn; lia|].
  set (recent := skipn (List.length (m :: h) - 6) (m :: h)).
  pose proof (join_length_bound nl 163 (map history_line recent)) as Hj.
  rewrite length_map in Hj.
  assert (Hlen : List.length recent <= 6)
    by (subst recent; rewrite length_skipn; cbn [List.length]; lia).
  change (List.length nl) with 1 in Hj.
  assert (Hall : Forall (fun p => List.length p <= 163)
                   (map history_line recent)).
  { apply Forall_forall. intros p Hp. apply in_map_iff in Hp.
    destruct Hp as (msg & <- & _). apply history_line_length. }
  specialize (Hj Hall). nia.
Qed.

Lemma context_block_length (i : nat) (d : doc) :
  i < 3 -> List.length (context_block (i, d)) <= 512.
Proof.
  intros Hi. unfold context_block. cbn [fst snd].
  rewrite !length_app.
  pose proof (firstn_le_length 500 (content d)) as Hd.
  change (List.length (py "Document ")) with 9.
  change (List.length (py ":")) with 1.
  change (List.length nl) with 1.
  assert (Hdigit : List.length (str_of_nat (i + 1)) = 1).
  { destruct i as [|[|[|i]]]; [reflexivity | reflexivity | reflexivity|].
    lia. }
  rewrite Hdigit. lia.
Qed.

Lemma enumerate_from_bound {A} (l : list A) :
  forall i k,
    i + List.length l <= k ->
    Forall (fun p => fst p < k) (enumerate_from i l).
Proof.
  induction l as [|x l IH]; intros i k H; cbn [enumerate_from];
    [constructor|].
  cbn [List.length] in H. constructor; [cbn [fst]; lia|].
  apply IH. lia.
Qed.

Lemma enumerate_from_length {A} (l : list A) :
  forall i, List.length (enumerate_from i l) = List.length l.
Proof.
  induction l as [|x l IH]; intros i; cbn [enumerate_from List.length];
    [reflexivity|].
  now rewrite IH.
Qed.

Lemma context_of_length (docs : list doc) :
  List.length (context_of docs) <= 1542.
Proof.
  unfold context_of.
  set (blocks := enumerate_from 0 (firstn 3 docs)).
  pose proof (join_length_bound (nl ++ nl) 512 (map context_block blocks))
    as Hj.
  rewrite length_map in Hj.
  assert (Hlen : List.length (firstn 3 docs) <= 3).
  { rewrite length_firstn. lia. }
  assert (Hblocks : List.length blocks = List.length (firstn 3 docs)).
  { subst blocks. apply enumerate_from_length. }
  change (List.length (nl ++ nl)) with 2 in Hj.
  assert (Hall : Forall (fun p => List.length p <= 512)
                   (map context_block blocks)).
  { apply Forall_forall. intros p Hp. apply in_map_iff in Hp.
    destruct Hp as ([i d] & <- & Hin).
    pose proof (enumerate_from_bound (firstn 3 docs) 0 3 Hlen) as Hb.
    rewrite Forall_forall in Hb. specialize (Hb _ Hin). cbn [fst] in Hb.
    now apply context_block_length. }
  specialize (Hj Hall). nia.
Qed.

(** X20.  What the prompt carries.  The prompt built for the model holds
    the question as it was asked, whole, however long it is; the history
    text and the context are in it too.  Nothing else in it grows with the
    input: the prompt is at most 3326 characters longer than the
    question. *)
Theorem prompt_carries_question_whole :
  forall q context_docs history,
    let prompt := build_prompt q context_docs history in
    passage q prompt
    /\ passage (history_text_of history) prompt
    /\ (context_docs <> [] -> passage (context_of context_docs) prompt)
    /\ List.length prompt <= List.length q + 3326.
Proof.
  intros q docs h prompt. subst prompt. unfold build_prompt. cbv zeta.
  pose proof (history_text_of_length h) as Hh.
  pose proof (context_of_length docs) as Hc.
  destruct docs as [|d docs]; cbn [is_empty negb].
  - destruct (history_text_of h) as [|c text] eqn:Etext; cbn [is_empty negb].
    + destruct (PromptFacts.prompt_plain_spec q) as (H1 & H2).
      split; [exact H1|]. split; [apply PromptFacts.passage_nil|].
      split; [intros H; now contradiction H | lia].
    + destruct (PromptFacts.prompt_history_spec (c :: text) q)
        as (H1 & H2 & H3).
      split; [exact H1|]. split; [exact H2|].
      split; [intros H; now contradiction H | lia].
  - destruct (history_text_of h) as [|c text] eqn:Etext; cbn [is_empty negb].
    + destruct (PromptFacts.prompt_context_spec (context_of (d :: docs)) q)
        as (H1 & H2 & H3).
      split; [exact H1|].
      split; [apply PromptFacts.passage_nil|].
      split; [intros _; exact H2 | lia].
    + destruct (PromptFacts.prompt_context_history_spec (c :: text)
                  (context_of (d :: docs)) q) as (H1 & H2 & H3 & H4).
      split; [exact H1|]. split; [exact H2|].
      split; [intros _; exact H3 | lia].
Qed.

(* ------------------------------------------------------------------ *)
(** ** Further properties: the records written by the indexer *)

Lemma Forall2_map_self {A B} (P : A -> B -> Prop) (f : A -> B)
    (l : list A) :
  (forall x, P x (f x)) -> Forall2 P l (map f l).
Proof.
  intros H. induction l as [|x l IH]; cbn [map]; constructor; auto.
Qed.

Lemma source_ref_of_indexed (chunk : Chunk.t) :
  source_ref_of (doc_of_record (entry_of_chunk chunk))
  = Some {| src_title := Chunk.title chunk;
            src_source := Chunk.source chunk;
            src_category := Chunk.category chunk |}.
Proof. vm_compute. reflexivity. Qed.

Lemma firstn_length_app {A} (l rest : list A) :
  firstn (List.length l) (l ++ rest) = l.
Proof.
  rewrite firstn_app, firstn_all, Nat.sub_diag. cbn [firstn].
  apply app_nil_r.
Qed.

Lemma record_of_indexed (chunk : Chunk.t) :
  record_of chunk (entry_of_chunk chunk).
Proof.
  split; [reflexivity|]. split; [reflexivity|].
  apply source_ref_of_indexed.
Qed.

(** X21.  The records written by the indexer.  When no collection is found
    in the store, every record [_setup_collection] hands to the store is
    the record of its chunk, in corpus order: the identifier "doc_"
    followed by the chunk's number, the content of the chunk, and the three
    metadata keys that [ask] reads - title, source and category - with the
    values of the chunk; when it returns, every chunk has been handed
    over.  With a store in working order and chunks of distinct
    identifiers it returns, and the collection holds one such record per
    chunk, so that no document of it lacks a key when sources are
    listed. *)
Theorem indexed_records_carry_sources :
  forall ext st,
    let run := _setup_collection None ext st in
    exists sent,
      trace (snd run) = trace st ++ map EvAdd sent
      /\ Forall2 record_of
           (firstn (List.length (List.concat sent)) (corpus (self st)))
           (List.concat sent)
      /\ (fst run = Ok tt ->
          List.length (List.concat sent) = List.length (corpus (self st)))
      /\ (store_accepts ext ->
          NoDup (map entry_id (map entry_of_chunk (corpus (self st)))) ->
          fst run = Ok tt
          /\ Forall2 record_of (corpus (self st))
               (collection (self (snd run)))).
Proof.
  intros ext st run. subst run.
  destruct (setup_collection_sent ext st) as (sent & rest & Ht & Hc & Hm).
  exists sent. split; [exact Ht|].
  assert (Hsent : List.concat sent
                  = map entry_of_chunk
                      (firstn (List.length (List.concat sent))
                         (corpus (self st)))).
  { rewrite <- firstn_map, Hc. symmetry. apply firstn_length_app. }
  split; [|split].
  - rewrite Hsent at 2. apply Forall2_map_self. apply record_of_indexed.
  - intros Hok. rewrite Hok in Hm. subst rest. rewrite app_nil_r in Hc.
    rewrite <- Hc. now rewrite length_map.
  - intros Hstore Hnd.
    destruct (setup_collection_accepted ext st Hstore Hnd) as [H1 H2].
    split; [exact H1|]. rewrite H2.
    apply Forall2_map_self. apply record_of_indexed.
Qed.

(* ------------------------------------------------------------------ *)
(** ** Further properties: what a request cannot change *)




(** X23.  A question without keyword.  When the question is no greeting
    and [_needs_database_search] does not hold, [ask] makes no search for
    the question, never raises, and returns no sources - also when the
    answer was made from documents of the widened search.  The answer is
    the stripped text of [generate_answer_hf] for no context document. *)
Theorem ask_without_keyword_cites_nothing :
  forall ext st q llm history,
    is_greeting q = false ->
    _needs_database_search q = false ->
    let st0 := {| self := self st; trace := trace st ++ [EvAsk q] |} in
    exists answer,
      fst (generate_answer_hf q [] history ext st0) = Ok answer
      /\ ask q llm history ext st
         = (Ok {| res_question := q;
                  res_answer := strip answer;
                  res_sources := [] |},
            snd (generate_answer_hf q [] history ext st0)).
Proof.
  intros ext st q llm history Hgreet Hneeds st0.
  unfold is_greeting in Hgreet.
  destruct (returns_generate_answer_hf q [] history ext st0) as [answer Ha].
  exists answer. split; [exact Ha|].
  unfold ask, bind, emit. cbv beta iota. rewrite Hgreet, Hneeds.
  fold st0. unfold ret at 1. cbv beta iota.
  destruct (generate_answer_hf q [] history ext st0) as [[a|e] st1];
    cbn [fst snd] in *; [|discriminate].
  apply Ok_inj in Ha. subst a. reflexivity.
Qed.

Lemma ask_without_keyword_cites_nothing_witness :
  is_greeting (py "Merci beaucoup") = false
  /\ _needs_database_search (py "Merci beaucoup") = false
  /\ exists answer,
       fst (generate_answer_hf (py "Merci beaucoup") [] None
              Sample.ext_steady
              {| self := self (Sample.state_of true [Sample.balafon]);
                 trace := trace (Sample.state_of true [Sample.balafon])
                          ++ [EvAsk (py "Merci beaucoup")] |})
       = Ok answer
       /\ ask (py "Merci beaucoup") false None Sample.ext_steady
            (Sample.state_of true [Sample.balafon])
          = (Ok {| res_question := py "Merci beaucoup";
                   res_answer := strip answer;
                   res_sources := [] |},
             snd (generate_answer_hf (py "Merci beaucoup") [] None
                    Sample.ext_steady
                    {| self := self (Sample.state_of true [Sample.balafon]);
                       trace := trace (Sample.state_of true [Sample.balafon])
                                ++ [EvAsk (py "Merci beaucoup")] |})).
Proof.
  assert (H1 : is_greeting (py "Merci beaucoup") = false)
    by (vm_compute; reflexivity).
  assert (H2 : _needs_database_search (py "Merci beaucoup") = false)
    by (vm_compute; reflexivity).
  split; [exact H1|]. split; [exact H2|].
  exact (ask_without_keyword_cites_nothing Sample.ext_steady
           (Sample.state_of true [Sample.balafon])
           (py "Merci beaucoup") false None H1 H2).
Defined.
